(** * python-frank-energie: the request pipeline of [frank_energie.py]

    A shallow embedding of [src/python_frank_energie/frank_energie.py]:
    the query builder, the header composition and request pipeline
    ([_query]), the GraphQL error classifier ([_handle_errors]), the
    operation methods, the session life cycle and the date validation
    helpers, followed by the properties proved about them.

    Conventions.
    - A Python call either returns a value or raises: [result A].
    - Parsed JSON bodies are [json] values; a JSON object is a finite map
      from strings ([gmap string json]).
    - The coroutines of the client thread the client object and the outside
      world (requests sent, sessions opened and closed) through a state and
      error monad [M].
    - Logger calls ([_LOGGER.debug] and friends, [traceback.print_exc])
      neither raise nor change data and are left out. *)

From Stdlib Require Import Ascii QArith.
From stdpp Require Import gmap strings list fin_maps.

Set Warnings "-register-all".
Local Open Scope string_scope.
Local Open Scope Z_scope.

(* ===================================================================== *)
(** * Exceptions: classes, instances, [try]/[except] *)
(* ===================================================================== *)

Module Exceptions.

(** The exception classes that the client, aiohttp and the interpreter can
    raise on the paths modelled here.  [TimeoutError] is
    [asyncio.TimeoutError]; the [Client*] classes and [ContentTypeError]
    are aiohttp's ([aiohttp/client_exceptions.py]); the last seven are
    the package's own ([exceptions.py]). *)
Inductive exc_class : Set :=
  | BaseException
  | CancelledError
  | Exception
  | TypeError
  | ValueError
  | JSONDecodeError
  | AttributeError
  | LookupError
  | KeyError
  | RuntimeError
  | ArithmeticError
  | OverflowError
  | TimeoutError
  | ClientError
  | ClientResponseError
  | ContentTypeError
  | ClientConnectionError
  | FrankEnergieException
  | AuthException
  | AuthRequiredException
  | NetworkError
  | RequestException
  | SmartTradingNotEnabledException
  | SmartChargingNotEnabledException.

#[export] Instance exc_class_eq_dec : EqDecision exc_class.
Proof. solve_decision. Defined.

(** The direct base class.  aiohttp declares
    [class ClientResponseError(ClientError)],
    [class ContentTypeError(ClientResponseError)] and
    [class ClientConnectionError(ClientError)];
    [asyncio.CancelledError] derives from [BaseException] only.

    Modelled from the spec: [exceptions.py] is not part of the sources at
    hand.  Section 7 of the specification lists the package's exceptions
    as one taxonomy of domain errors; they are taken to derive from a
    common [FrankEnergieException], itself an [Exception], and from none
    of the interpreter's or aiohttp's classes. *)
Definition base (c : exc_class) : option exc_class :=
  match c with
  | BaseException => None
  | CancelledError => Some BaseException
  | Exception => Some BaseException
  | TypeError | ValueError | AttributeError | LookupError
  | RuntimeError | ArithmeticError | TimeoutError | ClientError
  | FrankEnergieException => Some Exception
  | OverflowError => Some ArithmeticError
  | JSONDecodeError => Some ValueError
  | KeyError => Some LookupError
  | ClientResponseError | ClientConnectionError => Some ClientError
  | ContentTypeError => Some ClientResponseError
  | AuthException | AuthRequiredException | NetworkError
  | RequestException | SmartTradingNotEnabledException
  | SmartChargingNotEnabledException => Some FrankEnergieException
  end.

Fixpoint issubclass_upto (fuel : nat) (c d : exc_class) : bool :=
  bool_decide (c = d) ||
  match fuel, base c with
  | S fuel', Some p => issubclass_upto fuel' p d
  | _, _ => false
  end.

(** No class is deeper than five below [BaseException]. *)
Definition issubclass (c d : exc_class) : bool := issubclass_upto 6 c d.

(** A raised exception: its class, what [str(error)] renders, and the
    [status] attribute that aiohttp's [ClientResponseError] carries. *)
Record exception : Set := mkExc {
  exc_type : exc_class;
  exc_str : string;
  exc_status : option Z
}.

Definition new (c : exc_class) (msg : string) : exception :=
  {| exc_type := c; exc_str := msg; exc_status := None |}.

Definition isinstance (e : exception) (c : exc_class) : bool :=
  issubclass (exc_type e) c.

(** [except (c1, c2, ...)]: the clause catches instances of any listed
    class. *)
Definition catches (classes : list exc_class) (e : exception) : bool :=
  existsb (isinstance e) classes.

Inductive result (A : Type) : Type :=
  | Return (a : A)
  | Raise (e : exception).
Arguments Return {A} a.
Arguments Raise {A} e.

Definition is_raise {A} (r : result A) : bool :=
  match r with Raise _ => true | Return _ => false end.

Definition rbind {A B} (r : result A) (k : A → result B) : result B :=
  match r with
  | Return a => k a
  | Raise e => Raise e
  end.

(** [try: body / except cs1: h1 / except cs2: h2 ...]: the first clause, in
    source order, whose classes catch the exception handles it; with no
    such clause the exception propagates. *)
Fixpoint dispatch {A} (clauses : list (list exc_class * (exception → A)))
    (unhandled : exception → A) (e : exception) : A :=
  match clauses with
  | [] => unhandled e
  | (classes, handler) :: rest =>
      if catches classes e then handler e else dispatch rest unhandled e
  end.

End Exceptions.

Export Exceptions.

#[export] Instance result_ret : MRet result := fun A a => Return a.
#[export] Instance result_bind : MBind result := fun A B k r => rbind r k.

(* ===================================================================== *)
(** * JSON values and the Python operations applied to them *)
(* ===================================================================== *)

Module Json.

Inductive json : Type :=
  | JNull
  | JBool (b : bool)
  | JNum (q : Q)
  | JStr (s : string)
  | JArr (items : list json)
  | JObj (fields : gmap string json).

(** The name [type(v).__name__] that error messages quote. *)
Definition type_name (v : json) : string :=
  match v with
  | JNull => "NoneType"
  | JBool _ => "bool"
  | JNum _ => "number"
  | JStr _ => "str"
  | JArr _ => "list"
  | JObj _ => "dict"
  end.

(** [bool(v)], as used by [if not v]. *)
Definition truthy (v : json) : bool :=
  match v with
  | JNull => false
  | JBool b => b
  | JNum q => negb (Qeq_bool q 0)
  | JStr s => negb (String.eqb s "")
  | JArr items => match items with [] => false | _ => true end
  | JObj fields => negb (bool_decide (fields = ∅))
  end.

Definition is_None (v : json) : bool :=
  match v with JNull => true | _ => false end.

(** [v[key]] with a string key. *)
Definition getitem (v : json) (key : string) : result json :=
  match v with
  | JObj fields =>
      match fields !! key with
      | Some x => Return x
      | None => Raise (new KeyError ("'" ++ key ++ "'"))
      end
  | JArr _ =>
      Raise (new TypeError "list indices must be integers or slices, not str")
  | JStr _ =>
      Raise (new TypeError "string indices must be integers, not 'str'")
  | _ =>
      Raise (new TypeError ("'" ++ type_name v ++ "' object is not subscriptable"))
  end.

(** [v.get(key)]: only dicts have the method. *)
Definition get (v : json) (key : string) : result json :=
  match v with
  | JObj fields => Return (default JNull (fields !! key))
  | _ =>
      Raise (new AttributeError
               ("'" ++ type_name v ++ "' object has no attribute 'get'"))
  end.

(** [v.get(key, {})]. *)
Definition get_or_empty (v : json) (key : string) : result json :=
  match v with
  | JObj fields => Return (default (JObj ∅) (fields !! key))
  | _ =>
      Raise (new AttributeError
               ("'" ++ type_name v ++ "' object has no attribute 'get'"))
  end.

Definition chars (s : string) : list json :=
  (fun a => JStr (String a EmptyString)) <$> String.list_ascii_of_string s.

(** [iter(v)] run to the end: the elements a [for] loop visits. *)
Definition iterate (v : json) : result (list json) :=
  match v with
  | JArr items => Return items
  | JObj fields => Return (JStr <$> (map_to_list fields).*1)
  | JStr s => Return (chars s)
  | _ =>
      Raise (new TypeError ("'" ++ type_name v ++ "' object is not iterable"))
  end.

Definition is_substring (needle hay : string) : bool :=
  match String.index 0 needle hay with Some _ => true | None => false end.

(** [key in v] with a string key. *)
Definition contains (v : json) (key : string) : result bool :=
  match v with
  | JObj fields => Return (bool_decide (is_Some (fields !! key)))
  | JArr items =>
      Return (existsb
                (fun x => match x with
                          | JStr s => String.eqb s key
                          | _ => false
                          end) items)
  | JStr s => Return (is_substring key s)
  | _ =>
      Raise (new TypeError
               ("argument of type '" ++ type_name v ++ "' is not iterable"))
  end.

(** [len(v)]. *)
Definition len (v : json) : result nat :=
  match v with
  | JArr items => Return (length items)
  | JObj fields => Return (size fields)
  | JStr s => Return (String.length s)
  | _ =>
      Raise (new TypeError
               ("object of type '" ++ type_name v ++ "' has no len()"))
  end.

(** [v == "literal"]. *)
Definition eq_str (v : json) (lit : string) : bool :=
  match v with JStr s => String.eqb s lit | _ => false end.

(** [v.startswith("literal")]: only strings have the method. *)
Definition startswith (v : json) (lit : string) : result bool :=
  match v with
  | JStr s => Return (String.prefix lit s)
  | _ =>
      Raise (new AttributeError
               ("'" ++ type_name v ++ "' object has no attribute 'startswith'"))
  end.

End Json.

Export Json.

(* ===================================================================== *)
(** * The error classifier: [FrankEnergie._handle_errors] *)
(* ===================================================================== *)

Module Classifier.

(** How one pass through the body of [for error in errors] ends: the loop
    goes on to the next entry, or the method returns. *)
Inductive flow : Set :=
  | Next
  | Returned.

(** The body of the loop, lines 240 to 273. *)
Definition classify (error : json) : result flow :=
  (message ← getitem error "message";
   path ← get error "path";
   if eq_str message "user-error:password-invalid" then
     Raise (new AuthException "Invalid password")
   else if eq_str message "user-error:auth-not-authorised" then
     Raise (new AuthException "Not authorized")
   else if eq_str message "user-error:auth-required" then
     Raise (new AuthRequiredException "Authentication required")
   else if eq_str message "Graphql validation error" then
     Raise (new AuthException "Request failed: Graphql validation error")
   else
     no_prices ← startswith message "No marketprices found for segment";
     if no_prices : bool then Return Returned
     else
       no_connections ← startswith message "No connections found for user";
       if no_connections : bool then
         Raise (new AuthException
                  ("Request failed: " ++
                   match message with JStr s => s | _ => "" end))
       else if eq_str message "user-error:smart-trading-not-enabled" then
         Raise (new SmartTradingNotEnabledException
                  "Smart trading is not enabled for this user.")
       else if eq_str message "user-error:smart-charging-not-enabled" then
         Raise (new SmartChargingNotEnabledException
                  "Smart charging is not enabled for this user.")
       else if eq_str message "'Base' niet aanwezig in prijzen verzameling" then
         Return Next
       else if eq_str message "request-error:request-not-supported-in-country" then
         Raise (new AuthException "Request not supported in the user's country")
       else
         Return Next).

(** [for error in errors: body]. *)
Fixpoint for_each (body : json → result flow) (errors : list json)
    : result unit :=
  match errors with
  | [] => Return tt
  | error :: rest =>
      match body error with
      | Raise e => Raise e
      | Return Returned => Return tt
      | Return Next => for_each body rest
      end
  end.

Definition _handle_errors (response : json) : result unit :=
  if negb (truthy response) then Return tt
  else
    (errors ← get response "errors";
     if negb (truthy errors) then Return tt
     else
       entries ← iterate errors;
       for_each classify entries).

End Classifier.

Export Classifier.

(* ===================================================================== *)
(** * Dates, [strptime] and the regular expression of the date helper *)
(* ===================================================================== *)

Module Dates.

(** [datetime.date]: the proleptic Gregorian calendar, years 1 to 9999.
    Python orders dates by (year, month, day). *)
Record date : Set := mkDate { year : Z; month : Z; day : Z }.

Definition is_leap (y : Z) : bool :=
  (y mod 4 =? 0) && (negb (y mod 100 =? 0) || (y mod 400 =? 0)).

Definition days_in_month (y m : Z) : Z :=
  if (m =? 2) then (if is_leap y then 29 else 28)
  else if (m =? 4) || (m =? 6) || (m =? 9) || (m =? 11) then 30
  else 31.

(** What the constructor [date(y, m, d)] accepts. *)
Definition valid_date (d : date) : bool :=
  (1 <=? year d) && (year d <=? 9999) &&
  (1 <=? month d) && (month d <=? 12) &&
  (1 <=? day d) && (day d <=? days_in_month (year d) (month d)).

(** [a > b] on dates. *)
Definition date_gt (a b : date) : bool :=
  (year b <? year a) ||
  ((year a =? year b) &&
   ((month b <? month a) ||
    ((month a =? month b) && (day b <? day a)))).

(** [d + timedelta(days=1)]; past 9999-12-31 Python raises
    [OverflowError]. *)
Definition next_day (d : date) : result date :=
  if day d <? days_in_month (year d) (month d) then
    Return (mkDate (year d) (month d) (day d + 1))
  else if month d <? 12 then Return (mkDate (year d) (month d + 1) 1)
  else if year d <? 9999 then Return (mkDate (year d + 1) 1 1)
  else Raise (new OverflowError "date value out of range").

Definition digit_char (n : Z) : ascii :=
  ascii_of_nat (48 + Z.to_nat (n mod 10)).

Definition pad2 (n : Z) : string :=
  String (digit_char (n / 10)) (String (digit_char n) EmptyString).

Definition pad4 (n : Z) : string :=
  String (digit_char (n / 1000))
    (String (digit_char (n / 100)) (pad2 n)).

(** [d.isoformat()], also [str(d)]: zero-padded [YYYY-MM-DD]. *)
Definition isoformat (d : date) : string :=
  pad4 (year d) ++ "-" ++ pad2 (month d) ++ "-" ++ pad2 (day d).

(** Characters are code points below 256; there the decimal digits that
    [\d] matches are exactly ['0'] to ['9']. *)
Definition is_digit (c : ascii) : bool :=
  let n := nat_of_ascii c in (48 <=? n)%nat && (n <=? 57)%nat.

Definition digit_value (c : ascii) : Z := Z.of_nat (nat_of_ascii c) - 48.

Definition dash : ascii := "-"%char.

(** ** [datetime.strptime(s, "%Y-%m-%d").date()]

    CPython turns the format into the pattern
    [(\d\d\d\d)-(1[0-2]|0[1-9]|[1-9])-(3[01]|[12]\d|0[1-9]|[1-9]| [1-9])],
    matches it at the start of [s], rejects text left over, and hands the
    three numbers to the [date] constructor.  Every failure is a
    [ValueError]. *)

(** The month directive: two digits [01] to [12], else one digit [1] to
    [9].  Returns the number and the rest of the input. *)
Definition month_field (cs : list ascii) : option (Z * list ascii) :=
  match cs with
  | a :: b :: rest =>
      let two := 10 * digit_value a + digit_value b in
      if is_digit a && is_digit b && (1 <=? two) && (two <=? 12)
      then Some (two, rest)
      else if is_digit a && (1 <=? digit_value a)
      then Some (digit_value a, b :: rest)
      else None
  | [a] =>
      if is_digit a && (1 <=? digit_value a)
      then Some (digit_value a, [])
      else None
  | [] => None
  end.

(** The day directive: two digits [01] to [31], else one digit [1] to
    [9], else a space and one such digit. *)
Definition day_field (cs : list ascii) : option (Z * list ascii) :=
  match cs with
  | a :: b :: rest =>
      let two := 10 * digit_value a + digit_value b in
      if is_digit a && is_digit b && (1 <=? two) && (two <=? 31)
      then Some (two, rest)
      else if is_digit a && (1 <=? digit_value a)
      then Some (digit_value a, b :: rest)
      else if Ascii.eqb a " " && is_digit b && (1 <=? digit_value b)
      then Some (digit_value b, rest)
      else None
  | [a] =>
      if is_digit a && (1 <=? digit_value a)
      then Some (digit_value a, [])
      else None
  | [] => None
  end.

Definition strptime_ymd (s : string) : result date :=
  let mismatch :=
    Raise (new ValueError
             ("time data '" ++ s ++ "' does not match format '%Y-%m-%d'")) in
  match String.list_ascii_of_string s with
  | y1 :: y2 :: y3 :: y4 :: sep1 :: rest =>
      if is_digit y1 && is_digit y2 && is_digit y3 && is_digit y4
         && Ascii.eqb sep1 dash
      then
        match month_field rest with
        | Some (m, sep2 :: rest') =>
            if Ascii.eqb sep2 dash then
              match day_field rest' with
              | Some (d, []) =>
                  let y := 1000 * digit_value y1 + 100 * digit_value y2
                           + 10 * digit_value y3 + digit_value y4 in
                  let parsed := mkDate y m d in
                  if valid_date parsed then Return parsed
                  else if y <? 1 then
                    Raise (new ValueError "year 0 is out of range")
                  else Raise (new ValueError "day is out of range for month")
              | Some (_, _ :: _) =>
                  Raise (new ValueError "unconverted data remains")
              | None => mismatch
              end
            else mismatch
        | _ => mismatch
        end
      else mismatch
  | _ => mismatch
  end.

(** ** Regular expressions and [re.fullmatch]

    The pattern of the helper uses character classes, literals,
    concatenation and counted repetition only; for such patterns
    [re.fullmatch] succeeds exactly when the whole string belongs to the
    language of the pattern, which the derivative matcher below decides. *)
Inductive regex : Type :=
  | Void
  | Eps
  | Class (p : ascii → bool)
  | Chr (c : ascii)
  | Seq (r1 r2 : regex)
  | Alt (r1 r2 : regex)
  | Star (r : regex).

(** [r{n}]. *)
Fixpoint times (n : nat) (r : regex) : regex :=
  match n with
  | O => Eps
  | S n' => Seq r (times n' r)
  end.

(** [r{0,n}]. *)
Fixpoint upto (n : nat) (r : regex) : regex :=
  match n with
  | O => Eps
  | S n' => Alt Eps (Seq r (upto n' r))
  end.

(** [r{lo,hi}]. *)
Definition between (lo hi : nat) (r : regex) : regex :=
  Seq (times lo r) (upto (hi - lo) r).

Fixpoint nullable (r : regex) : bool :=
  match r with
  | Void => false
  | Eps => true
  | Class _ => false
  | Chr _ => false
  | Seq r1 r2 => nullable r1 && nullable r2
  | Alt r1 r2 => nullable r1 || nullable r2
  | Star _ => true
  end.

Fixpoint deriv (a : ascii) (r : regex) : regex :=
  match r with
  | Void => Void
  | Eps => Void
  | Class p => if p a then Eps else Void
  | Chr c => if Ascii.eqb a c then Eps else Void
  | Seq r1 r2 =>
      if nullable r1
      then Alt (Seq (deriv a r1) r2) (deriv a r2)
      else Seq (deriv a r1) r2
  | Alt r1 r2 => Alt (deriv a r1) (deriv a r2)
  | Star r' => Seq (deriv a r') (Star r')
  end.

Fixpoint fullmatch (r : regex) (s : string) : bool :=
  match s with
  | EmptyString => nullable r
  | String a s' => fullmatch (deriv a r) s'
  end.

(** The language of a pattern, as the textbooks define it. *)
Inductive matches : regex → string → Prop :=
  | matches_eps : matches Eps ""
  | matches_class p a : p a = true → matches (Class p) (String a "")
  | matches_chr c : matches (Chr c) (String c "")
  | matches_seq r1 r2 s1 s2 :
      matches r1 s1 → matches r2 s2 → matches (Seq r1 r2) (s1 ++ s2)
  | matches_alt_l r1 r2 s : matches r1 s → matches (Alt r1 r2) s
  | matches_alt_r r1 r2 s : matches r2 s → matches (Alt r1 r2) s
  | matches_star_nil r : matches (Star r) ""
  | matches_star_cons r s1 s2 :
      matches r s1 → matches (Star r) s2 → matches (Star r) (s1 ++ s2).

(** [r"\d{4}(-\d{2}){0,2}"]. *)
Definition start_date_pattern : regex :=
  Seq (between 4 4 (Class is_digit))
      (between 0 2 (Seq (Chr dash) (between 2 2 (Class is_digit)))).

(** The three layouts the error message of the helper names. *)
Definition is_YYYY (s : string) : bool :=
  match String.list_ascii_of_string s with
  | [y1; y2; y3; y4] =>
      is_digit y1 && is_digit y2 && is_digit y3 && is_digit y4
  | _ => false
  end.

Definition is_YYYY_MM (s : string) : bool :=
  match String.list_ascii_of_string s with
  | [y1; y2; y3; y4; s1; m1; m2] =>
      is_digit y1 && is_digit y2 && is_digit y3 && is_digit y4
      && Ascii.eqb s1 dash && is_digit m1 && is_digit m2
  | _ => false
  end.

Definition is_YYYY_MM_DD (s : string) : bool :=
  match String.list_ascii_of_string s with
  | [y1; y2; y3; y4; s1; m1; m2; s2; d1; d2] =>
      is_digit y1 && is_digit y2 && is_digit y3 && is_digit y4
      && Ascii.eqb s1 dash && is_digit m1 && is_digit m2
      && Ascii.eqb s2 dash && is_digit d1 && is_digit d2
  | _ => false
  end.

(** A pattern that no string matches, recognised by its shape. *)
Fixpoint unmatchable (r : regex) : bool :=
  match r with
  | Void => true
  | Seq r1 r2 => unmatchable r1 || unmatchable r2
  | Alt r1 r2 => unmatchable r1 && unmatchable r2
  | _ => false
  end.

Section Validation.

(** [datetime.now(timezone.utc).date()]. *)
Variable utc_today : date.

Definition _validate_not_future_date (value : date) : result unit :=
  if date_gt value utc_today then
    Raise (new ValueError "De 'start_date' mag niet in de toekomst liggen.")
  else Return tt.

(** The [try] block of lines 834 to 841: any [ValueError] raised inside,
    by [strptime] or by the future check, is wrapped in a new
    [ValueError]. *)
Definition check_full_date (start_date : string) : result unit :=
  let body : result unit :=
    date_obj ← strptime_ymd start_date;
    if date_gt date_obj utc_today then
      Raise (new ValueError "De 'start_date' mag niet in de toekomst liggen.")
    else Return tt in
  match body with
  | Return tt => Return tt
  | Raise e =>
      dispatch
        [([ValueError],
          fun e => Raise (new ValueError
             ("De 'start_date' heeft geen geldig datumformaat: " ++ exc_str e)))]
        Raise e
  end.

(** The argument is a [str] or a [date]. *)
Definition _validate_start_date_format (start_date : string + date)
    : result unit :=
  let start_date :=
    match start_date with
    | inl s => s
    | inr d => isoformat d
    end in
  if negb (fullmatch start_date_pattern start_date) then
    Raise (new ValueError
      "De 'start_date' moet een formaat hebben zoals 'YYYY', 'YYYY-MM' of 'YYYY-MM-DD'.")
  else if (String.length start_date =? 10)%nat then
    check_full_date start_date
  else Return tt.

End Validation.

End Dates.

Export Dates.

(* ===================================================================== *)
(** * The query builder with its objects in a store: [sanitize_query] *)
(* ===================================================================== *)

(** [FrankEnergieQuery.to_dict] builds a new dict whose ["variables"] entry
    is the very dict object the query holds, and [sanitize_query] assigns
    into that entry.  To follow the assignment, dict objects live in a
    store and are referred to by their address. *)
Module Heap.

Definition loc := nat.

Inductive scalar : Type :=
  | SNone
  | SBool (b : bool)
  | SNum (q : Q)
  | SStr (s : string).

Inductive value : Type :=
  | Scalar (x : scalar)
  | Ref (l : loc).

(** The store: the dict object at address [l] is the [l]-th entry. *)
Abbreviation object := (gmap string value).
Abbreviation store := (list (gmap string value)).

Definition alloc (d : object) (h : store) : loc * store :=
  (List.length h, (h ++ [d])%list).

Record FrankEnergieQuery : Type := mkQuery {
  query : string;
  operation_name : string;
  variables : loc
}.

(** [FrankEnergieQuery.__init__]: [None] gives a new empty dict, a dict is
    kept as the object it is (no copy), anything else is refused. *)
Definition init (query_text name : string) (vars : value) (h : store)
    : result FrankEnergieQuery * store :=
  match vars with
  | Scalar SNone =>
      let '(l, h') := alloc ∅ h in (Return (mkQuery query_text name l), h')
  | Ref l => (Return (mkQuery query_text name l), h)
  | Scalar _ =>
      (Raise (new TypeError
                "The 'variables' argument must be a dictionary if provided."),
       h)
  end.

Definition to_dict (q : FrankEnergieQuery) (h : store) : loc * store :=
  alloc {[ "query" := Scalar (SStr (query q));
           "operationName" := Scalar (SStr (operation_name q));
           "variables" := Ref (variables q) ]} h.

(** [d[key]] on the dict at address [d]. *)
Definition load (h : store) (d : loc) (key : string) : result value :=
  match h !! d with
  | Some fields =>
      match fields !! key with
      | Some v => Return v
      | None => Raise (new KeyError ("'" ++ key ++ "'"))
      end
  | None => Raise (new RuntimeError "dangling reference")
  end.

(** [key in v]. *)
Definition contains (h : store) (v : value) (key : string) : result bool :=
  match v with
  | Ref d =>
      match h !! d with
      | Some fields => Return (bool_decide (is_Some (fields !! key)))
      | None => Raise (new RuntimeError "dangling reference")
      end
  | Scalar (SStr s) => Return (is_substring key s)
  | Scalar _ => Raise (new TypeError "argument is not iterable")
  end.

(** [v[key] = x]. *)
Definition store_item (h : store) (v : value) (key : string) (x : value)
    : result unit * store :=
  match v with
  | Ref d =>
      match h !! d with
      | Some fields => (Return tt, <[d := <[key := x]> fields]> h)
      | None => (Raise (new RuntimeError "dangling reference"), h)
      end
  | Scalar _ =>
      (Raise (new TypeError "object does not support item assignment"), h)
  end.

Definition sanitize_query (q : FrankEnergieQuery) (h : store)
    : result loc * store :=
  let '(sanitized_query, h) := to_dict q h in
  match load h sanitized_query "variables" with
  | Raise e => (Raise e, h)
  | Return vars =>
      match contains h vars "password" with
      | Raise e => (Raise e, h)
      | Return true =>
          match store_item h vars "password" (Scalar (SStr "****")) with
          | (Raise e, h) => (Raise e, h)
          | (Return _, h) => (Return sanitized_query, h)
          end
      | Return false => (Return sanitized_query, h)
      end
  end.

Definition scalar_json (x : scalar) : json :=
  match x with
  | SNone => JNull
  | SBool b => JBool b
  | SNum q => JNum q
  | SStr s => JStr s
  end.

(** [json.dumps(v)] followed by parsing, that is the JSON text a value
    stands for when it is serialised: references are followed, [fuel]
    bounds the nesting. *)
Fixpoint dumps (fuel : nat) (h : store) (v : value) : option json :=
  match v with
  | Scalar x => Some (scalar_json x)
  | Ref l =>
      match fuel with
      | O => None
      | S fuel' =>
          fields ← h !! l;
          items ← mapM (fun kv : string * value =>
                          j ← dumps fuel' h kv.2; Some (kv.1, j))
                       (map_to_list fields);
          Some (JObj (list_to_map items))
      end
  end.

(** What the pipeline transmits for a query at a given moment: the
    serialisation of [query.to_dict()] (line 171 and the [json=payload]
    argument of line 181). *)
Definition transmitted_payload (q : FrankEnergieQuery) (h : store)
    : option json :=
  let '(payload, h') := to_dict q h in dumps 3 h' (Ref payload).

End Heap.

(* ===================================================================== *)
(** * The client: credentials, session, headers, [_query] *)
(* ===================================================================== *)

Module Client.

(** The query as the pipeline reads it when it sends: its three fields,
    the variables by their content. *)
Record FrankEnergieQuery : Type := mkQuery {
  query : string;
  operation_name : string;
  variables : gmap string json
}.

(** [FrankEnergieQuery.__init__] with [variables] given ([None] is
    [JNull]). *)
Definition new_query (query_text name : string) (vars : json)
    : result FrankEnergieQuery :=
  match vars with
  | JNull => Return (mkQuery query_text name ∅)
  | JObj fields => Return (mkQuery query_text name fields)
  | _ => Raise (new TypeError
                  "The 'variables' argument must be a dictionary if provided.")
  end.

Definition to_dict (q : FrankEnergieQuery) : json :=
  JObj {[ "query" := JStr (query q);
          "operationName" := JStr (operation_name q);
          "variables" := JObj (variables q) ]}.

(** [Authentication]: the token pair ([authentication.py] is a
    collaborator; the client reads [authToken] and [refreshToken]). *)
Record Authentication : Set := mkAuth {
  authToken : option string;
  refreshToken : option string
}.

(** A [ClientSession] object, by identity. *)
Definition session := nat.

Record FrankEnergie : Set := mkClient {
  _session : option session;
  _close_session : bool;
  _auth : option Authentication
}.

Definition DATA_URL : string := "https://frank-graphql-prod.graphcdn.app/".

Record request : Type := mkRequest {
  req_url : string;
  req_json : json;
  req_headers : gmap string string;
  req_timeout : Z;
  req_session : option session
}.

(** The world outside the client: the requests posted so far (oldest
    first), how many session objects exist, and which have been closed. *)
Record world : Type := mkWorld {
  posted : list request;
  sessions : nat;
  closed : list session
}.

Record state : Type := mkState { self : FrankEnergie; env : world }.

(** A coroutine of the client. *)
Definition M (A : Type) : Type := state → result A * state.

#[export] Instance M_ret : MRet M := fun A a st => (Return a, st).
#[export] Instance M_bind : MBind M := fun A B k m st =>
  match m st with
  | (Return a, st') => k a st'
  | (Raise e, st') => (Raise e, st')
  end.

Definition raise {A} (e : exception) : M A := fun st => (Raise e, st).

Definition lift {A} (r : result A) : M A := fun st => (r, st).

Definition get_self : M FrankEnergie := fun st => (Return (self st), st).

Definition set_self (c : FrankEnergie) : M unit :=
  fun st => (Return tt, mkState c (env st)).

(** [try: body / except ...]: what the body did to the state stays. *)
Definition try_except {A} (body : M A)
    (clauses : list (list exc_class * (exception → M A))) : M A :=
  fun st =>
    match body st with
    | (Return a, st') => (Return a, st')
    | (Raise e, st') => dispatch clauses raise e st'
    end.

Definition truthy_str (s : option string) : bool :=
  match s with
  | Some s => negb (String.eqb s "")
  | None => false
  end.

(** [FrankEnergie.__init__]. *)
Definition init (clientsession : option session)
    (auth_token refresh_token : option string) : FrankEnergie :=
  {| _session := clientsession;
     _close_session := bool_decide (clientsession = None);
     _auth := if truthy_str auth_token || truthy_str refresh_token
              then Some (mkAuth auth_token refresh_token)
              else None |}.

Definition is_authenticated (c : FrankEnergie) : bool :=
  match _auth c with
  | Some a => bool_decide (authToken a ≠ None)
  | None => false
  end.

Definition _ensure_session : M unit := fun st =>
  match _session (self st) with
  | None =>
      let fresh_session := sessions (env st) in
      (Return tt,
       {| self := {| _session := Some fresh_session;
                     _close_session := true;
                     _auth := _auth (self st) |};
          env := {| posted := posted (env st);
                    sessions := S (sessions (env st));
                    closed := closed (env st) |} |})
  | Some _ => (Return tt, st)
  end.

(** Lines 153 to 159. [headers.update(extra_headers)] overwrites the
    entries that [extra_headers] names and adds the others: the
    left-biased union. *)
Definition compose_headers (c : FrankEnergie)
    (extra_headers : option (gmap string string)) : gmap string string :=
  let headers : gmap string string :=
    {[ "Content-Type" := "application/json";
       "Accept" := "application/json" ]} in
  let headers :=
    match _auth c with
    | Some a =>
        match authToken a with
        | Some token => <[ "Authorization" := "Bearer " ++ token ]> headers
        | None => headers
        end
    | None => headers
    end in
  match extra_headers with
  | Some extra =>
      if negb (bool_decide (extra = ∅)) then extra ∪ headers else headers
  | None => headers
  end.

(** What the transport does with a request.  Either [session.post] fails
    (time-out, connection error, cancellation), or a response arrives
    with a status, with the text that [str()] shows for the
    [ClientResponseError] that [raise_for_status] would build from it, and
    with the outcome of [resp.json()]. *)
Inductive body_outcome : Type :=
  | Parsed (v : json)
  | Unparsable (e : exception).

Inductive transport_outcome : Type :=
  | Failed (e : exception)
  | Responded (status : Z) (detail : string) (body : body_outcome).

Record response : Type := mkResponse {
  resp_status : Z;
  resp_detail : string;
  resp_body : body_outcome
}.

(** aiohttp: [raise_for_status] raises when [status >= 400]. *)
Definition raise_for_status (resp : response) : result unit :=
  if 400 <=? resp_status resp then
    Raise {| exc_type := ClientResponseError;
             exc_str := resp_detail resp;
             exc_status := Some (resp_status resp) |}
  else Return tt.

Definition resp_json (resp : response) : result json :=
  match resp_body resp with
  | Parsed v => Return v
  | Unparsable e => Raise e
  end.

Section Pipeline.

Variable server : request → transport_outcome.

(** [self._session.post(...)]: the request goes out and is recorded. *)
Definition post (req : request) : M response := fun st =>
  let st' :=
    {| self := self st;
       env := {| posted := (posted (env st) ++ [req])%list;
                 sessions := sessions (env st);
                 closed := closed (env st) |} |} in
  match server req with
  | Failed e => (Raise e, st')
  | Responded status detail body =>
      (Return (mkResponse status detail body), st')
  end.

(** The three [except] clauses of [_query], in source order. *)
Definition _query_clauses : list (list exc_class * (exception → M json)) :=
  [ ([TimeoutError; ClientError; KeyError],
     fun error =>
       raise (new NetworkError ("Request failed: " ++ exc_str error)));
    ([ClientResponseError],
     fun error =>
       if bool_decide (exc_status error = Some 401) then
         raise (new AuthRequiredException "Authentication required.")
       else if bool_decide (exc_status error = Some 403) then
         raise (new AuthException "Forbidden: Invalid credentials.")
       else if bool_decide (exc_status error = Some 400) then
         raise (new RequestException "Bad request: Invalid query.")
       else if bool_decide (exc_status error = Some 500) then
         raise (new AuthException "Internal server error.")
       else
         raise (new AuthException ("Unexpected response: " ++ exc_str error)));
    ([Exception], fun error => raise error) ].

(** [FrankEnergie._query].  The argument is a [FrankEnergieQuery], so the
    branch for objects without [to_dict] is not taken. *)
Definition _query (q : FrankEnergieQuery)
    (extra_headers : option (gmap string string)) : M json :=
  c ← get_self;
  let headers := compose_headers c extra_headers in
  _ensure_session;;
  try_except
    (let payload := to_dict q in
     c ← get_self;
     resp ← post {| req_url := DATA_URL;
                    req_json := payload;
                    req_headers := headers;
                    req_timeout := 30;
                    req_session := _session c |};
     lift (raise_for_status resp);;
     response_data ← lift (resp_json resp);
     if negb (truthy response_data) then mret (JObj ∅)
     else
       lift (_handle_errors response_data);;
       mret response_data)
    _query_clauses.

End Pipeline.

End Client.

Export Client.

(* ===================================================================== *)
(** * The operation methods *)
(* ===================================================================== *)

Module Operations.

(** The deserialisers of the typed models ([models.py], collaborators). *)
Inductive decoder : Set :=
  | EnergyConsumption_from_dict
  | MonthSummary_from_dict
  | EnodeChargers_from_dict
  | Invoices_from_dict
  | Me_from_dict
  | UserSites_from_dict
  | User_from_dict
  | MarketPrices_from_dict
  | MarketPrices_from_be_dict
  | MarketPrices_from_userprices_dict
  | PeriodUsageAndCosts_from_dict
  | SmartBattery_from_dict
  | SmartBatteryDetails_from_dict
  | SmartBatterySessions_from_dict.

(** What an operation hands back: a typed model, the empty dict [{}],
    [SmartBatteries(list)], or the stored credentials. *)
Inductive value (model : Type) : Type :=
  | Typed (m : model)
  | EmptyDict
  | SmartBatteries (batteries : list model)
  | Credentials (a : option Authentication).
Arguments Typed {model} m.
Arguments EmptyDict {model}.
Arguments SmartBatteries {model} batteries.
Arguments Credentials {model} a.

Definition opt_str (s : option string) : json :=
  match s with Some s => JStr s | None => JNull end.

Section Methods.

Variable server : request → transport_outcome.
Variable model : Type.
Variable decode : decoder → json → result model.
Variable Authentication_from_dict : json → result Authentication.
(** [date.today()] and [datetime.now(timezone.utc).date()]. *)
Variable today : date.
Variable utc_today : date.

Abbreviation op := (M (value model)).

(** [if self._auth is None or not self.is_authenticated: raise ...]. *)
Definition require_authenticated : M unit :=
  c ← get_self;
  if bool_decide (_auth c = None) || negb (is_authenticated c) then
    raise (new AuthRequiredException "Authentication is required.")
  else mret tt.

(** [if self._auth is None: raise AuthRequiredException]. *)
Definition require_credentials (message : string) : M unit :=
  c ← get_self;
  if bool_decide (_auth c = None) then
    raise (new AuthRequiredException message)
  else mret tt.

Definition typed (d : decoder) (response : json) : op :=
  m ← lift (decode d response); mret (Typed m).

Definition login (username password : string) : op :=
  if String.eqb username "" || String.eqb password "" then
    raise (new ValueError "Username and password must be provided.")
  else
    q ← lift (new_query "mutation Login($email: String!, $password: String!)"
                "Login"
                (JObj {[ "email" := JStr username;
                         "password" := JStr password ]}));
    try_except
      (response ← _query server q None;
       (if negb (is_None response) then
          data ← lift (getitem response "data");
          if negb (is_None data) then
            a ← lift (Authentication_from_dict response);
            c ← get_self;
            set_self {| _session := _session c;
                        _close_session := _close_session c;
                        _auth := Some a |}
          else mret tt
        else mret tt);;
       c ← get_self;
       mret (Credentials (_auth c)))
      [ ([Exception], fun error => raise error) ].

Definition renew_token : op :=
  require_authenticated;;
  c ← get_self;
  q ← lift (new_query
              "mutation RenewToken($authToken: String!, $refreshToken: String!)"
              "RenewToken"
              (JObj {[ "authToken" := opt_str (_auth c ≫= authToken);
                       "refreshToken" := opt_str (_auth c ≫= refreshToken) ]}));
  response ← _query server q None;
  a ← lift (Authentication_from_dict response);
  c ← get_self;
  set_self {| _session := _session c;
              _close_session := _close_session c;
              _auth := Some a |};;
  mret (Credentials (Some a)).

Definition meter_readings (site_reference : string) : op :=
  require_authenticated;;
  q ← lift (new_query
              "query ActualAndExpectedMeterReadings($siteReference: String!)"
              "ActualAndExpectedMeterReadings"
              (JObj {[ "siteReference" := JStr site_reference ]}));
  response ← _query server q None;
  typed EnergyConsumption_from_dict response.

Definition month_summary (site_reference : string) : op :=
  require_authenticated;;
  q ← lift (new_query "query MonthSummary($siteReference: String!)"
              "MonthSummary"
              (JObj {[ "siteReference" := JStr site_reference ]}));
  try_except
    (response ← _query server q None;
     typed MonthSummary_from_dict response)
    [ ([Exception],
       fun e => raise (new AuthException
                         ("Failed to fetch month summary: " ++ exc_str e))) ].

Definition enode_chargers (site_reference : string) (start_date : date) : op :=
  c ← get_self;
  if bool_decide (_auth c = None) || negb (is_authenticated c) then
    mret EmptyDict
  else
    q ← lift (new_query "query EnodeChargers" "EnodeChargers"
                (JObj {[ "siteReference" := JStr site_reference ]}));
    try_except
      (response ← _query server q None;
       if is_None response then mret EmptyDict
       else
         has_data ← lift (contains response "data");
         if negb has_data then mret EmptyDict
         else
           data ← lift (getitem response "data");
           if is_None data then mret EmptyDict
           else
             has_chargers ← lift (contains data "enodeChargers");
             if negb has_chargers then mret EmptyDict
             else
               data ← lift (getitem response "data");
               chargers_data ← lift (getitem data "enodeChargers");
               lift (len chargers_data);;
               typed EnodeChargers_from_dict chargers_data)
      [ ([Exception], fun error => mret EmptyDict) ].

Definition invoices (site_reference : string) : op :=
  require_authenticated;;
  q ← lift (new_query "query Invoices($siteReference: String!)" "Invoices"
              (JObj {[ "siteReference" := JStr site_reference ]}));
  response ← _query server q None;
  typed Invoices_from_dict response.

Definition me (site_reference : option string) : op :=
  require_credentials "";;
  q ← lift (new_query "query Me($siteReference: String)" "Me"
              (JObj {[ "siteReference" := opt_str site_reference ]}));
  response ← _query server q None;
  typed Me_from_dict response.

Definition UserSites (site_reference : option string) : op :=
  require_credentials "";;
  q ← lift (new_query "query UserSites" "UserSites" (JObj ∅));
  response ← _query server q None;
  typed UserSites_from_dict response.

Definition user_country : op :=
  require_credentials "";;
  q ← lift (new_query "query UserCountry" "UserCountry" (JObj ∅));
  response ← _query server q None;
  typed Me_from_dict response.

Definition user (site_reference : option string) : op :=
  require_credentials "";;
  q ← lift (new_query "query Me($siteReference: String)" "Me"
              (JObj {[ "siteReference" := opt_str site_reference ]}));
  response ← _query server q None;
  typed User_from_dict response.

Definition be_prices (start_date end_date : option date) : op :=
  let start_date := default utc_today start_date in
  end_date ← match end_date with
             | Some d => mret d
             | None => lift (next_day start_date)
             end;
  let headers : gmap string string := {[ "x-country" := "BE" ]} in
  q ← lift (new_query "query MarketPrices ($date: String!)" "MarketPrices"
              (JObj {[ "date" := JStr (isoformat start_date) ]}));
  response ← _query server q (Some headers);
  typed MarketPrices_from_be_dict response.

Definition prices (start_date end_date : option date) : op :=
  let start_date := default today start_date in
  end_date ← match end_date with
             | Some d => mret d
             | None => lift (next_day today)
             end;
  q ← lift (new_query "query MarketPrices($startDate: Date!, $endDate: Date!)"
              "MarketPrices"
              (JObj {[ "startDate" := JStr (isoformat start_date);
                       "endDate" := JStr (isoformat end_date) ]}));
  response ← _query server q None;
  typed MarketPrices_from_dict response.

Definition user_prices (site_reference : string)
    (start_date end_date : option date) : op :=
  require_credentials "";;
  let start_date := default today start_date in
  end_date ← match end_date with
             | Some d => mret d
             | None => lift (next_day today)
             end;
  q ← lift (new_query
              "query MarketPrices($date: String!, $siteReference: String!)"
              "MarketPrices"
              (JObj {[ "date" := JStr (isoformat start_date);
                       "siteReference" := JStr site_reference ]}));
  response ← _query server q None;
  typed MarketPrices_from_userprices_dict response.

Definition period_usage_and_costs (site_reference start_date : string) : op :=
  if String.eqb site_reference "" then
    raise (new ValueError "De 'site_reference' mag niet leeg zijn.")
  else
    require_credentials "Authenticatie is vereist om deze query uit te voeren.";;
    q ← lift (new_query
                "query PeriodUsageAndCosts($date: String!, $siteReference: String!)"
                "PeriodUsageAndCosts"
                (JObj {[ "siteReference" := JStr site_reference;
                         "date" := JStr start_date ]}));
    try_except
      (response ← _query server q None;
       typed PeriodUsageAndCosts_from_dict response)
      [ ([Exception],
         fun err => raise (new AuthException
            "Kon verbruik en kosten niet ophalen voor opgegeven periode.")) ].

Definition smart_batteries : op :=
  require_credentials "";;
  q ← lift (new_query "query SmartBatteries" "SmartBatteries" JNull);
  response ← _query server q None;
  if negb (truthy response) then mret (SmartBatteries [])
  else
    errors ← lift (get response "errors");
    if truthy errors then mret (SmartBatteries [])
    else
      data ← lift (get response "data");
      if negb (truthy data) then mret (SmartBatteries [])
      else
        data ← lift (get_or_empty response "data");
        batteries_data ← lift (get data "smartBatteries");
        if negb (truthy batteries_data) then mret (SmartBatteries [])
        else
          try_except
            (items ← lift (iterate batteries_data);
             smart_batteries ← lift (mapM (decode SmartBattery_from_dict) items);
             mret (SmartBatteries smart_batteries))
            [ ([KeyError; ValueError; TypeError],
               fun err => mret (SmartBatteries [])) ].

Definition smart_battery_details (device_id : string) : op :=
  require_credentials "";;
  if String.eqb device_id "" then
    raise (new ValueError
             "Missing required device_id for smart_battery_sessions")
  else
    q ← lift (new_query "query SmartBattery($deviceId: String!)" "SmartBattery"
                (JObj {[ "deviceId" := JStr device_id ]}));
    response ← _query server q None;
    if is_None response then
      raise (new AuthException
               "No response data received for smart battery details")
    else
      data ← lift (getitem response "data");
      has_battery ← lift (contains data "smartBattery");
      incomplete ←
        (if negb has_battery then mret true
         else
           data ← lift (getitem response "data");
           has_summary ← lift (contains data "smartBatterySummary");
           mret (negb has_summary));
      if incomplete : bool then
        raise (new AuthException
                 "Incomplete response data for smart battery details")
      else
        data ← lift (getitem response "data");
        battery ← lift (getitem data "smartBattery");
        data ← lift (getitem response "data");
        summary ← lift (getitem data "smartBatterySummary");
        typed SmartBatteryDetails_from_dict
          (JObj {[ "smartBattery" := battery;
                   "smartBatterySummary" := summary ]}).

Definition smart_battery_sessions (device_id : string)
    (start_date end_date : date) : op :=
  require_credentials "";;
  if String.eqb device_id "" then
    raise (new ValueError
             "Missing required device_id for smart_battery_sessions")
  else
    q ← lift (new_query
                "query SmartBatterySessions($startDate: String!, $endDate: String!, $deviceId: String!)"
                "SmartBatterySessions"
                (JObj {[ "deviceId" := JStr device_id;
                         "startDate" := JStr (isoformat start_date);
                         "endDate" := JStr (isoformat end_date) ]}));
    response ← _query server q None;
    typed SmartBatterySessions_from_dict response.

(** The calls to the operations that start by checking the
    credentials. *)
Inductive auth_call : Type :=
  | Call_renew_token
  | Call_meter_readings (site_reference : string)
  | Call_month_summary (site_reference : string)
  | Call_enode_chargers (site_reference : string) (start_date : date)
  | Call_invoices (site_reference : string)
  | Call_me (site_reference : option string)
  | Call_UserSites (site_reference : option string)
  | Call_user_country
  | Call_user (site_reference : option string)
  | Call_user_prices (site_reference : string)
      (start_date end_date : option date)
  | Call_period_usage_and_costs (site_reference start_date : string)
  | Call_smart_batteries
  | Call_smart_battery_details (device_id : string)
  | Call_smart_battery_sessions (device_id : string)
      (start_date end_date : date).

Definition perform (call : auth_call) : op :=
  match call with
  | Call_renew_token => renew_token
  | Call_meter_readings s => meter_readings s
  | Call_month_summary s => month_summary s
  | Call_enode_chargers s d => enode_chargers s d
  | Call_invoices s => invoices s
  | Call_me s => me s
  | Call_UserSites s => UserSites s
  | Call_user_country => user_country
  | Call_user s => user s
  | Call_user_prices s a b => user_prices s a b
  | Call_period_usage_and_costs s d => period_usage_and_costs s d
  | Call_smart_batteries => smart_batteries
  | Call_smart_battery_details d => smart_battery_details d
  | Call_smart_battery_sessions d a b => smart_battery_sessions d a b
  end.

End Methods.

End Operations.

Export Operations.

(* ===================================================================== *)
(** * Entering and leaving the client: [__aenter__], [__aexit__] *)
(* ===================================================================== *)

Module Lifecycle.

(** Every name that the body of [class FrankEnergie] binds, in source
    order.  The class has no base class but [object]. *)
Definition class_body : list string :=
  [ "DATA_URL"; "__init__"; "auth"; "is_authenticated";
    "generate_system_user_agent"; "_ensure_session"; "_query";
    "_process_diagnostic_data"; "_handle_errors"; "LOGIN_QUERY"; "login";
    "renew_token"; "meter_readings"; "month_summary"; "enode_chargers";
    "invoices"; "me"; "UserSites"; "user_country"; "user"; "be_prices";
    "prices"; "user_prices"; "period_usage_and_costs"; "smart_batteries";
    "smart_battery_details"; "smart_battery_sessions";
    "_validate_not_future_date"; "_validate_start_date_format";
    "__aenter__"; "__aexit__"; "introspect_schema"; "get_diagnostic_data" ].

(** The attributes that [__init__] and [_ensure_session] assign. *)
Definition instance_attributes : list string :=
  [ "_session"; "_close_session"; "_auth" ].

(** What every instance inherits from [object]. *)
Definition object_attributes : list string :=
  [ "__class__"; "__delattr__"; "__dict__"; "__dir__"; "__doc__"; "__eq__";
    "__format__"; "__ge__"; "__getattribute__"; "__getstate__"; "__gt__";
    "__hash__"; "__init_subclass__"; "__le__"; "__lt__"; "__module__";
    "__ne__"; "__new__"; "__reduce__"; "__reduce_ex__"; "__repr__";
    "__setattr__"; "__sizeof__"; "__str__"; "__subclasshook__";
    "__weakref__" ].

Definition hasattr (name : string) : bool :=
  bool_decide (name ∈ (instance_attributes ++ class_body ++ object_attributes)%list).

Fixpoint assoc {A} (name : string) (table : list (string * A)) : option A :=
  match table with
  | [] => None
  | (k, v) :: rest => if String.eqb name k then Some v else assoc name rest
  end.

Section Methods.

Variable server : request → transport_outcome.
Variable model : Type.
Variable decode : decoder → json → result model.
Variable Authentication_from_dict : json → result Authentication.
Variable today : date.
Variable utc_today : date.

Definition discard (m : M (value model)) : M unit := m;; mret tt.

Definition __aenter__ : M unit := mret tt.

(** The coroutine methods that can be called with [self] alone. *)
Definition awaitable_without_arguments : list (string * M unit) :=
  [ ("_ensure_session", _ensure_session);
    ("renew_token",
     discard (renew_token server model Authentication_from_dict));
    ("me", discard (me server model decode None));
    ("UserSites", discard (UserSites server model decode None));
    ("user_country", discard (user_country server model decode));
    ("user", discard (user server model decode None));
    ("be_prices", discard (be_prices server model decode utc_today None None));
    ("prices", discard (prices server model decode today None None));
    ("smart_batteries", discard (smart_batteries server model decode));
    ("__aenter__", __aenter__) ].

(** [await self.<name>()]: attribute lookup, call, await.  A name that
    is bound to something else (a property, a constant, a method that
    needs arguments or is not a coroutine) ends in a [TypeError]; a name
    that is not bound at all in an [AttributeError]. *)
Definition await_method (name : string) : M unit :=
  match assoc name awaitable_without_arguments with
  | Some coroutine => coroutine
  | None =>
      if hasattr name then
        raise (new TypeError
                 ("'" ++ name ++ "' cannot be called and awaited this way"))
      else
        raise (new AttributeError
                 ("'FrankEnergie' object has no attribute '" ++ name ++ "'"))
  end.

(** [await self.close()]. *)
Definition __aexit__ : M unit := await_method "close".

End Methods.

End Lifecycle.

Export Lifecycle.

(* ===================================================================== *)
(** * The specification's vocabulary *)
(* ===================================================================== *)

Module Spec.

(** What the table of section 4.3 prescribes for one error message. *)
Inductive action : Set :=
  | RaiseWith (e : exception)
  | Swallow
  | LogOnly.

(** The rows of the table that compare the whole message. *)
Definition exact_rules : list (string * action) :=
  [ ("user-error:password-invalid",
     RaiseWith (new AuthException "Invalid password"));
    ("user-error:auth-not-authorised",
     RaiseWith (new AuthException "Not authorized"));
    ("user-error:auth-required",
     RaiseWith (new AuthRequiredException "Authentication required"));
    ("Graphql validation error",
     RaiseWith (new AuthException "Request failed: Graphql validation error"));
    ("user-error:smart-trading-not-enabled",
     RaiseWith (new SmartTradingNotEnabledException
                  "Smart trading is not enabled for this user."));
    ("user-error:smart-charging-not-enabled",
     RaiseWith (new SmartChargingNotEnabledException
                  "Smart charging is not enabled for this user."));
    ("'Base' niet aanwezig in prijzen verzameling", LogOnly);
    ("request-error:request-not-supported-in-country",
     RaiseWith (new AuthException "Request not supported in the user's country")) ].

(** The rows that compare the start of the message. *)
Definition prefix_rules (message : string) : list (string * action) :=
  [ ("No marketprices found for segment", Swallow);
    ("No connections found for user",
     RaiseWith (new AuthException ("Request failed: " ++ message))) ].

Fixpoint first_rule (test : string → bool) (rules : list (string * action))
    : option action :=
  match rules with
  | [] => None
  | (pattern, a) :: rest => if test pattern then Some a else first_rule test rest
  end.

(** Exact rows first, then prefix rows, then "anything else". *)
Definition action_for (message : string) : action :=
  match first_rule (String.eqb message) exact_rules with
  | Some a => a
  | None =>
      match first_rule (fun p => String.prefix p message) (prefix_rules message) with
      | Some a => a
      | None => LogOnly
      end
  end.

(** The message of an error entry, when the entry is an object whose
    [message] is a string. *)
Definition entry_message (entry : json) : option string :=
  match entry with
  | JObj fields =>
      match fields !! "message" with
      | Some (JStr s) => Some s
      | _ => None
      end
  | _ => None
  end.

(** An entry that is an object without a [message] key. *)
Definition lacks_message (entry : json) : Prop :=
  ∃ fields, entry = JObj fields ∧ fields !! "message" = None.

(** An entry that the classifier only logs. *)
Definition only_logged (entry : json) : Prop :=
  ∃ s, entry_message entry = Some s ∧ action_for s = LogOnly.

(** How the classifier must end on an entry with the given action, the
    entries after it being [rest]. *)
Definition outcome (a : action) (rest : result unit) : result unit :=
  match a with
  | RaiseWith e => Raise e
  | Swallow => Return tt
  | LogOnly => rest
  end.

(** The access token of the client, if it has one. *)
Definition access_token (c : FrankEnergie) : option string :=
  _auth c ≫= authToken.

(** The request that [_query] posts when it is called in state [st]. *)
Definition request_of (q : FrankEnergieQuery)
    (extra_headers : option (gmap string string)) (st : state) : request :=
  {| req_url := DATA_URL;
     req_json := to_dict q;
     req_headers := compose_headers (self st) extra_headers;
     req_timeout := 30;
     req_session := _session (self (_ensure_session st).2) |}.

(** The state in which [_query] ends: the session exists and the request
    has been recorded. *)
Definition after_post (q : FrankEnergieQuery)
    (extra_headers : option (gmap string string)) (st : state) : state :=
  let st1 := (_ensure_session st).2 in
  {| self := self st1;
     env := {| posted := (posted (env st1) ++ [request_of q extra_headers st])%list;
               sessions := sessions (env st1);
               closed := closed (env st1) |} |}.

(** The exception that leaves [_query] when [e] is raised inside its [try]
    block, read off the clauses from top to bottom. *)
Definition leaves_query (e : exception) : exception :=
  if catches [TimeoutError; ClientError; KeyError] e then
    new NetworkError ("Request failed: " ++ exc_str e)
  else if catches [ClientResponseError] e then
    if bool_decide (exc_status e = Some 401) then
      new AuthRequiredException "Authentication required."
    else if bool_decide (exc_status e = Some 403) then
      new AuthException "Forbidden: Invalid credentials."
    else if bool_decide (exc_status e = Some 400) then
      new RequestException "Bad request: Invalid query."
    else if bool_decide (exc_status e = Some 500) then
      new AuthException "Internal server error."
    else new AuthException ("Unexpected response: " ++ exc_str e)
  else e.

(** The exception kinds that section 4.2 of the specification assigns to
    the status codes. *)
Definition mapped_kind (status : Z) : exc_class :=
  if status =? 401 then AuthRequiredException
  else if status =? 403 then AuthException
  else if status =? 400 then RequestException
  else if status =? 500 then AuthException
  else AuthException.

(** How each operation that needs credentials starts (read off the first
    statements of the methods). *)
Inductive guard : Set :=
  | TokenGuard
  | CredentialsGuard (message : string)
  | SkipGuard
  | ArgumentGuard (e : exception).

Definition guard_of (call : auth_call) : guard :=
  match call with
  | Call_renew_token | Call_meter_readings _ | Call_month_summary _
  | Call_invoices _ => TokenGuard
  | Call_enode_chargers _ _ => SkipGuard
  | Call_period_usage_and_costs site_reference _ =>
      if String.eqb site_reference "" then
        ArgumentGuard (new ValueError "De 'site_reference' mag niet leeg zijn.")
      else
        CredentialsGuard "Authenticatie is vereist om deze query uit te voeren."
  | Call_me _ | Call_UserSites _ | Call_user_country | Call_user _
  | Call_user_prices _ _ _ | Call_smart_batteries
  | Call_smart_battery_details _ | Call_smart_battery_sessions _ _ _ =>
      CredentialsGuard ""
  end.

(** The queries that the two tolerant operations send. *)
Definition enode_chargers_query (site_reference : string) : FrankEnergieQuery :=
  mkQuery "query EnodeChargers" "EnodeChargers"
    {[ "siteReference" := JStr site_reference ]}.

Definition smart_batteries_query : FrankEnergieQuery :=
  mkQuery "query SmartBatteries" "SmartBatteries" ∅.

End Spec.

Export Spec.

(* ===================================================================== *)
(** * Concrete clients, servers and envelopes *)
(* ===================================================================== *)

Module Examples.

Definition empty_world : world := mkWorld [] 0 [].

(** [FrankEnergie(auth_token="A", refresh_token="R")]. *)
Definition logged_in : state := mkState (init None (Some "A") (Some "R")) empty_world.

(** [FrankEnergie()]. *)
Definition anonymous : state := mkState (init None None None) empty_world.

(** [FrankEnergie(refresh_token="R")]: credentials without an access
    token. *)
Definition refresh_only : state := mkState (init None None (Some "R")) empty_world.

(** [FrankEnergie(clientsession=s)] with a session of the caller's. *)
Definition borrowing : state :=
  mkState (init (Some 0%nat) (Some "A") None) (mkWorld [] 1 []).

Definition country_query : FrankEnergieQuery :=
  mkQuery "query UserCountry" "UserCountry" ∅.

Definition entry_of (message : string) : json :=
  JObj {[ "message" := JStr message ]}.

Definition envelope_of (errors : list json) : json :=
  JObj {[ "errors" := JArr errors ]}.

(** A server that answers every request alike. *)
Definition answers (status : Z) (detail : string) (body : json)
    : request → transport_outcome :=
  fun _ => Responded status detail (Parsed body).

Definition unauthorized : request → transport_outcome :=
  answers 401 "401, message='Unauthorized'" JNull.

Definition no_prices : json :=
  entry_of "No marketprices found for segment X".

Definition auth_required : json := entry_of "user-error:auth-required".

Definition base_missing : json :=
  entry_of "'Base' niet aanwezig in prijzen verzameling".

(** An entry with a [path] and no [message]. *)
Definition without_message : json := JObj {[ "path" := JArr [JStr "me"] ]}.

(** Deserialisers for a model that keeps the JSON it was given. *)
Definition keep (d : decoder) (v : json) : result json := Return v.

Definition tokens_of (v : json) : result Authentication :=
  Return (mkAuth (Some "A2") (Some "R2")).

Definition a_day : date := mkDate 2025 6 17.

End Examples.

Export Examples.

(* ===================================================================== *)
(** * Vocabulary for the further properties *)
(* ===================================================================== *)

Module Frames.

(** The messages on which the classifier raises by comparing the whole
    message (lines 242 to 270). *)
Definition raising_messages : list string :=
  [ "user-error:password-invalid";
    "user-error:auth-not-authorised";
    "user-error:auth-required";
    "Graphql validation error";
    "user-error:smart-trading-not-enabled";
    "user-error:smart-charging-not-enabled";
    "request-error:request-not-supported-in-country" ].

(** A message on which the classifier neither raises nor returns. *)
Definition passes_by (message : string) : Prop :=
  (message ∉ raising_messages)
  ∧ String.prefix "No marketprices found for segment" message = false
  ∧ String.prefix "No connections found for user" message = false.

(** The exception classes that [_handle_errors] can raise. *)
Definition classifier_kinds : list exc_class :=
  [ AuthException; AuthRequiredException; SmartTradingNotEnabledException;
    SmartChargingNotEnabledException; KeyError; TypeError; AttributeError ].

(** What no modelled coroutine undoes: a session that is closed or open
    stays so, the requests recorded stay recorded in their order, no
    session object disappears, and a session that the client holds stays
    the client's session with the same ownership mark. *)
Record extends (st st' : state) : Prop := mkExtends {
  ext_closed : closed (env st') = closed (env st);
  ext_posted : ∃ more, posted (env st') = (posted (env st) ++ more)%list;
  ext_sessions : (sessions (env st) ≤ sessions (env st'))%nat;
  ext_session : ∀ s, _session (self st) = Some s →
                _session (self st') = Some s
                ∧ _close_session (self st') = _close_session (self st)
}.

(** The credentials are the same object before and after. *)
Definition same_credentials (st st' : state) : Prop :=
  _auth (self st') = _auth (self st).

Definition steady (st st' : state) : Prop :=
  extends st st' ∧ same_credentials st st'.

(** A coroutine whose every run relates the state it starts in to the
    state it ends in, whether it returns or raises. *)
Definition respects (R : state → state → Prop) {A} (m : M A) : Prop :=
  ∀ st, R st (m st).2.

(** The calls to the operations that do not look at the credentials
    first. *)
Inductive open_call : Type :=
  | Call_login (username password : string)
  | Call_prices (start_date end_date : option date)
  | Call_be_prices (start_date end_date : option date).

(** The queries that the operations below send. *)
Definition login_query (username password : string) : FrankEnergieQuery :=
  mkQuery "mutation Login($email: String!, $password: String!)" "Login"
    {[ "email" := JStr username; "password" := JStr password ]}.

Definition renew_token_query (c : FrankEnergie) : FrankEnergieQuery :=
  mkQuery "mutation RenewToken($authToken: String!, $refreshToken: String!)"
    "RenewToken"
    {[ "authToken" := opt_str (_auth c ≫= authToken);
       "refreshToken" := opt_str (_auth c ≫= refreshToken) ]}.

Definition month_summary_query (site_reference : string) : FrankEnergieQuery :=
  mkQuery "query MonthSummary($siteReference: String!)" "MonthSummary"
    {[ "siteReference" := JStr site_reference ]}.

Definition period_usage_query (site_reference start_date : string)
    : FrankEnergieQuery :=
  mkQuery "query PeriodUsageAndCosts($date: String!, $siteReference: String!)"
    "PeriodUsageAndCosts"
    {[ "siteReference" := JStr site_reference; "date" := JStr start_date ]}.

Definition smart_battery_query (device_id : string) : FrankEnergieQuery :=
  mkQuery "query SmartBattery($deviceId: String!)" "SmartBattery"
    {[ "deviceId" := JStr device_id ]}.

Definition be_prices_query (start_date : date) : FrankEnergieQuery :=
  mkQuery "query MarketPrices ($date: String!)" "MarketPrices"
    {[ "date" := JStr (isoformat start_date) ]}.

Definition meter_readings_query (site_reference : string) : FrankEnergieQuery :=
  mkQuery "query ActualAndExpectedMeterReadings($siteReference: String!)"
    "ActualAndExpectedMeterReadings"
    {[ "siteReference" := JStr site_reference ]}.

Definition invoices_query (site_reference : string) : FrankEnergieQuery :=
  mkQuery "query Invoices($siteReference: String!)" "Invoices"
    {[ "siteReference" := JStr site_reference ]}.

Definition me_query (site_reference : option string) : FrankEnergieQuery :=
  mkQuery "query Me($siteReference: String)" "Me"
    {[ "siteReference" := opt_str site_reference ]}.

Definition user_sites_query : FrankEnergieQuery :=
  mkQuery "query UserSites" "UserSites" ∅.

Definition user_prices_query (site_reference : string) (start_date : date)
    : FrankEnergieQuery :=
  mkQuery "query MarketPrices($date: String!, $siteReference: String!)"
    "MarketPrices"
    {[ "date" := JStr (isoformat start_date);
       "siteReference" := JStr site_reference ]}.

Definition smart_battery_sessions_query (device_id : string)
    (start_date end_date : date) : FrankEnergieQuery :=
  mkQuery
    "query SmartBatterySessions($startDate: String!, $endDate: String!, $deviceId: String!)"
    "SmartBatterySessions"
    {[ "deviceId" := JStr device_id;
       "startDate" := JStr (isoformat start_date);
       "endDate" := JStr (isoformat end_date) ]}.

(** What a call does between its check of the credentials and its call of
    [_query], on the client [c] and with [date.today()] being [today]: it
    builds the query of the table below, unless a statement in between
    raises (an empty [device_id], lines 751 and 800; the day after
    [today] when there is none, line 638). *)
Definition built_query (today : date) (c : FrankEnergie) (call : auth_call)
    : result FrankEnergieQuery :=
  match call with
  | Call_renew_token => Return (renew_token_query c)
  | Call_meter_readings site_reference =>
      Return (meter_readings_query site_reference)
  | Call_month_summary site_reference =>
      Return (month_summary_query site_reference)
  | Call_enode_chargers site_reference _ =>
      Return (enode_chargers_query site_reference)
  | Call_invoices site_reference => Return (invoices_query site_reference)
  | Call_me site_reference | Call_user site_reference =>
      Return (me_query site_reference)
  | Call_UserSites _ => Return user_sites_query
  | Call_user_country => Return country_query
  | Call_user_prices site_reference start_date end_date =>
      match end_date with Some d => Return d | None => next_day today end ≫= fun _ =>
      Return (user_prices_query site_reference (default today start_date))
  | Call_period_usage_and_costs site_reference start_date =>
      Return (period_usage_query site_reference start_date)
  | Call_smart_batteries => Return smart_batteries_query
  | Call_smart_battery_details device_id =>
      if String.eqb device_id "" then
        Raise (new ValueError
                 "Missing required device_id for smart_battery_sessions")
      else Return (smart_battery_query device_id)
  | Call_smart_battery_sessions device_id start_date end_date =>
      if String.eqb device_id "" then
        Raise (new ValueError
                 "Missing required device_id for smart_battery_sessions")
      else Return (smart_battery_sessions_query device_id start_date end_date)
  end.

(** The client with its credentials replaced. *)
Definition with_credentials (a : Authentication) (st : state) : state :=
  {| self := {| _session := _session (self st);
                _close_session := _close_session (self st);
                _auth := Some a |};
     env := env st |}.

Section OpenCalls.

Variable server : request → transport_outcome.
Variable model : Type.
Variable decode : decoder → json → result model.
Variable Authentication_from_dict : json → result Authentication.
Variable today : date.
Variable utc_today : date.

Definition perform_open (call : open_call) : M (value model) :=
  match call with
  | Call_login username password =>
      login server model Authentication_from_dict username password
  | Call_prices start_date end_date =>
      prices server model decode today start_date end_date
  | Call_be_prices start_date end_date =>
      be_prices server model decode utc_today start_date end_date
  end.

End OpenCalls.

End Frames.

Export Frames.

(* ===================================================================== *)
(** * Properties of the error classifier *)
(* ===================================================================== *)

Section ClassifierFacts.

Implicit Types (fields : gmap string json) (entry : json) (s : string).

Lemma eqb_literal s lit : String.eqb s lit = true → s = lit.
Proof. apply String.eqb_eq. Qed.

(** The cascade of comparisons in [_handle_errors] implements the table. *)
Lemma classify_table fields s :
  fields !! "message" = Some (JStr s) →
  classify (JObj fields) =
    match action_for s with
    | RaiseWith e => Raise e
    | Swallow => Return Returned
    | LogOnly => Return Next
    end.
Proof.
  intros Hmsg. unfold classify, action_for. cbn. rewrite Hmsg. cbn.
  repeat match goal with
  | |- context [String.eqb s ?lit] =>
      let E := fresh "E" in
      destruct (String.eqb s lit) eqn:E;
      [ apply eqb_literal in E; subst s; vm_compute; reflexivity | ]
  end.
  destruct (String.prefix "No marketprices found for segment" s); [done|].
  destruct (String.prefix "No connections found for user" s); done.
Qed.

(** A message that starts with [No marketprices found for segment] is none
    of the exact rows, so the table swallows it. *)
Lemma action_for_no_marketprices s :
  String.prefix "No marketprices found for segment" s = true →
  action_for s = Swallow.
Proof.
  intros Hprefix. unfold action_for.
  destruct (first_rule (String.eqb s) exact_rules) eqn:Hexact.
  - exfalso. revert Hexact. unfold exact_rules. cbn [first_rule].
    repeat match goal with
    | |- context [String.eqb s ?lit] =>
        let E := fresh "E" in
        destruct (String.eqb s lit) eqn:E;
        [ apply eqb_literal in E; subst s; vm_compute in Hprefix;
          discriminate | ]
    end.
    discriminate.
  - cbn [prefix_rules first_rule]. by rewrite Hprefix.
Qed.

Lemma classify_entry entry s :
  entry_message entry = Some s →
  classify entry =
    match action_for s with
    | RaiseWith e => Raise e
    | Swallow => Return Returned
    | LogOnly => Return Next
    end.
Proof.
  intros H. destruct entry as [| | | |?|fields]; try discriminate H.
  unfold entry_message in H.
  destruct (fields !! "message") as [[]|] eqn:E; try discriminate H.
  injection H as ->. by apply classify_table.
Qed.

Lemma classify_only_logged entry : only_logged entry → classify entry = Return Next.
Proof. intros (s & Hs & Ha). rewrite (classify_entry _ _ Hs), Ha. done. Qed.

Lemma classify_lacks_message entry :
  lacks_message entry → classify entry = Raise (new KeyError "'message'").
Proof. intros (fields & -> & Hnone). unfold classify. cbn. by rewrite Hnone. Qed.

(** The loop skips a prefix of entries that are only logged. *)
Lemma for_each_skip (pre rest : list json) :
  Forall only_logged pre →
  for_each classify (pre ++ rest) = for_each classify rest.
Proof.
  induction 1 as [|p pre Hp _ IH]; [done|].
  cbn. by rewrite (classify_only_logged _ Hp).
Qed.

Lemma for_each_all_logged (entries : list json) :
  Forall only_logged entries → for_each classify entries = Return tt.
Proof.
  intros H. rewrite <- (app_nil_r entries). by rewrite for_each_skip.
Qed.

(** An envelope with a non-empty [errors] array is classified by the loop. *)
Lemma handle_errors_array fields (entries : list json) :
  fields !! "errors" = Some (JArr entries) →
  _handle_errors (JObj fields) = for_each classify entries.
Proof.
  intros Herr. unfold _handle_errors. cbn.
  rewrite bool_decide_eq_false_2.
  2:{ intros ->. by rewrite lookup_empty in Herr. }
  cbn. rewrite Herr. cbn. by destruct entries.
Qed.

End ClassifierFacts.

(* ===================================================================== *)
(** * Properties of the request pipeline *)
(* ===================================================================== *)

Section PipelineFacts.

Variable server : request → transport_outcome.

Implicit Types (q : FrankEnergieQuery) (extra : option (gmap string string))
  (st : state) (e : exception).

Lemma dispatch_query_clauses e st :
  dispatch _query_clauses raise e st = (Raise (leaves_query e), st).
Proof.
  unfold _query_clauses, leaves_query. cbn [dispatch].
  destruct (catches [TimeoutError; ClientError; KeyError] e); [done|].
  destruct (catches [ClientResponseError] e).
  - repeat case_bool_decide; done.
  - by destruct (catches [Exception] e).
Qed.

(** One call of [_query], step by step. *)
Lemma query_run q extra st :
  _query server q extra st =
    (match server (request_of q extra st) with
     | Failed e => Raise (leaves_query e)
     | Responded status detail body =>
         if 400 <=? status then
           Raise (leaves_query {| exc_type := ClientResponseError;
                                  exc_str := detail;
                                  exc_status := Some status |})
         else
           match body with
           | Unparsable e => Raise (leaves_query e)
           | Parsed v =>
               if negb (truthy v) then Return (JObj ∅)
               else match _handle_errors v with
                    | Return _ => Return v
                    | Raise e => Raise (leaves_query e)
                    end
           end
     end,
     after_post q extra st).
Proof.
  unfold _query, after_post, request_of.
  unfold mbind, M_bind, get_self, try_except, post, lift, mret, M_ret.
  destruct (_ensure_session st) as [[[]|e0] st1] eqn:Hs.
  2:{ unfold _ensure_session in Hs. by destruct (_session (self st)). }
  cbn [snd fst].
  destruct (server _) as [e|status detail body].
  - apply dispatch_query_clauses.
  - unfold raise_for_status, resp_json. cbn [resp_status resp_detail resp_body].
    destruct (400 <=? status); [apply dispatch_query_clauses|].
    destruct body as [v|e]; [|apply dispatch_query_clauses].
    destruct (negb (truthy v)); [done|].
    destruct (_handle_errors v) as [[]|e]; [done|apply dispatch_query_clauses].
Qed.

(** A [ClientResponseError] never reaches the second [except] clause: the
    first clause lists its base class [ClientError]. *)
Lemma response_error_caught_first e :
  catches [ClientResponseError] e = true →
  catches [TimeoutError; ClientError; KeyError] e = true.
Proof.
  unfold catches, isinstance. destruct (exc_type e); vm_compute; congruence.
Qed.

Lemma leaves_query_response_error detail status :
  leaves_query {| exc_type := ClientResponseError;
                  exc_str := detail;
                  exc_status := Some status |}
  = new NetworkError ("Request failed: " ++ detail).
Proof. reflexivity. Qed.

End PipelineFacts.

(* ===================================================================== *)
(** * The claims about the classifier and the pipeline *)
(* ===================================================================== *)

Section PipelineClaims.

Variable server : request → transport_outcome.

Implicit Types (q : FrankEnergieQuery) (extra : option (gmap string string))
  (st : state) (fields entry : gmap string json).

(** C1.  The claim is that [_query] turns a non-2xx status into the mapped
    exception kind (401 into [AuthRequiredException], 403 and 500 into
    [AuthException], 400 into [RequestException]).  The code does not: for
    every response whose status is 400 or above, [raise_for_status] raises
    a [ClientResponseError], the first [except] clause catches it through
    its base class [ClientError], and [_query] raises [NetworkError] with
    the text of the response error; the status is never inspected, so the
    kind raised differs from the mapped one. *)
Theorem query_error_status_raises_NetworkError q extra st status detail body :
  400 ≤ status →
  server (request_of q extra st) = Responded status detail body →
  _query server q extra st =
    (Raise (new NetworkError ("Request failed: " ++ detail)), after_post q extra st)
  ∧ NetworkError ≠ mapped_kind status.
Proof.
  intros Hstatus Hserver. split.
  - rewrite query_run, Hserver.
    destruct (Z.leb_spec 400 status) as [_|?]; [|lia].
    by rewrite leaves_query_response_error.
  - unfold mapped_kind. repeat case_match; discriminate.
Qed.

(** The transport half of C1 holds: a time-out or a connection failure of
    [session.post] leaves [_query] as a [NetworkError]. *)
Lemma query_transport_failure_raises_NetworkError q extra st e :
  server (request_of q extra st) = Failed e →
  isinstance e TimeoutError = true ∨ isinstance e ClientError = true →
  _query server q extra st =
    (Raise (new NetworkError ("Request failed: " ++ exc_str e)), after_post q extra st).
Proof.
  intros Hserver He. rewrite query_run, Hserver. unfold leaves_query.
  replace (catches [TimeoutError; ClientError; KeyError] e) with true; [done|].
  symmetry. unfold catches. cbn [existsb].
  destruct He as [-> | ->]; [done|]. by rewrite orb_true_r.
Qed.

(** C7.  An envelope whose [errors] array is the single entry with message
    [user-error:auth-required] makes the classifier raise
    [AuthRequiredException], and [_query] raises it in turn instead of
    returning the envelope; a single entry whose message starts with
    [No marketprices found for segment] makes the classifier return
    normally, and [_query] returns the envelope. *)
Theorem single_entry_auth_required_and_no_marketprices fields entry s :
  fields !! "errors" = Some (JArr [JObj entry]) →
  entry !! "message" = Some (JStr s) →
  (s = "user-error:auth-required" →
     _handle_errors (JObj fields)
       = Raise (new AuthRequiredException "Authentication required")
     ∧ ∀ q extra st status detail,
         status < 400 →
         server (request_of q extra st) = Responded status detail (Parsed (JObj fields)) →
         (_query server q extra st).1
           = Raise (new AuthRequiredException "Authentication required"))
  ∧ (String.prefix "No marketprices found for segment" s = true →
     _handle_errors (JObj fields) = Return tt
     ∧ ∀ q extra st status detail,
         status < 400 →
         server (request_of q extra st) = Responded status detail (Parsed (JObj fields)) →
         (_query server q extra st).1 = Return (JObj fields)).
Proof.
  intros Herrors Hmessage.
  assert (Htruthy : truthy (JObj fields) = true).
  { cbn. rewrite bool_decide_eq_false_2; [done|].
    intros ->. by rewrite lookup_empty in Herrors. }
  assert (Hloop : _handle_errors (JObj fields) =
                  outcome (action_for s) (Return tt)).
  { rewrite (handle_errors_array _ _ Herrors). cbn [for_each].
    rewrite (classify_table _ _ Hmessage). by destruct (action_for s). }
  split.
  - intros ->. split; [exact Hloop|].
    intros q extra st status detail Hstatus Hserver.
    rewrite query_run, Hserver. cbn [fst].
    destruct (Z.leb_spec 400 status) as [?|_]; [lia|].
    rewrite Htruthy. cbn [negb]. by rewrite Hloop.
  - intros Hprefix.
    rewrite (action_for_no_marketprices _ Hprefix) in Hloop. split; [exact Hloop|].
    intros q extra st status detail Hstatus Hserver.
    rewrite query_run, Hserver. cbn [fst].
    destruct (Z.leb_spec 400 status) as [?|_]; [lia|].
    rewrite Htruthy. cbn [negb]. by rewrite Hloop.
Qed.

(** C10.  A 2xx response whose body has an [errors] array in which the
    classifier reaches an entry without a [message] key makes [_query]
    raise [NetworkError]: the [KeyError] of the lookup is caught by the
    clause meant for transport failures. *)
Theorem missing_message_key_raises_NetworkError
    q extra st status detail fields (pre post : list json) (e : json) :
  200 ≤ status ≤ 299 →
  server (request_of q extra st) = Responded status detail (Parsed (JObj fields)) →
  fields !! "errors" = Some (JArr (pre ++ e :: post)) →
  Forall only_logged pre →
  lacks_message e →
  _query server q extra st =
    (Raise (new NetworkError "Request failed: 'message'"), after_post q extra st).
Proof.
  intros Hstatus Hserver Herrors Hpre He.
  rewrite query_run, Hserver.
  destruct (Z.leb_spec 400 status) as [?|_]; [lia|].
  assert (Htruthy : truthy (JObj fields) = true).
  { cbn. rewrite bool_decide_eq_false_2; [done|].
    intros ->. by rewrite lookup_empty in Herrors. }
  rewrite Htruthy. cbn [negb].
  rewrite (handle_errors_array _ _ Herrors), (for_each_skip _ _ Hpre).
  cbn [for_each]. by rewrite (classify_lacks_message _ He).
Qed.

End PipelineClaims.

Section ClassifierClaims.

Implicit Types (fields : gmap string json).

(** C4, as amended.  The classifier handles the entries of the [errors]
    array in array order.  After entries that are only logged (the Dutch
    ['Base'] message, any unrecognised message) it reaches the next entry:
    if that entry raises, the exception leaves the classifier at once; if
    it is a [No marketprices found for segment] message the classifier
    returns at once, without looking at the entries behind it; if it is
    only logged, classification goes on with the entries behind it. *)
Theorem classifier_follows_array_order fields (pre post : list json) (e : json) s :
  fields !! "errors" = Some (JArr (pre ++ e :: post)) →
  Forall only_logged pre →
  entry_message e = Some s →
  _handle_errors (JObj fields) = outcome (action_for s) (for_each classify post)
  ∧ action_for "'Base' niet aanwezig in prijzen verzameling" = LogOnly
  ∧ (String.prefix "No marketprices found for segment" s = true →
     _handle_errors (JObj fields) = Return tt).
Proof.
  intros Herrors Hpre Hs.
  assert (Hloop : _handle_errors (JObj fields)
                  = outcome (action_for s) (for_each classify post)).
  { rewrite (handle_errors_array _ _ Herrors), (for_each_skip _ _ Hpre).
    cbn [for_each]. rewrite (classify_entry _ _ Hs).
    by destruct (action_for s). }
  split; [exact Hloop|]. split; [reflexivity|].
  intros Hprefix. rewrite Hloop.
  by rewrite (action_for_no_marketprices _ Hprefix).
Qed.

End ClassifierClaims.

Section HeaderClaims.

Variable server : request → transport_outcome.

(** C8.  The headers of every request that the pipeline sends are composed
    in three steps: [Content-Type: application/json] and
    [Accept: application/json] always; [Authorization: Bearer <token>]
    exactly when the client has an access token; the entries of
    [extra_headers] last, so that each of them replaces the header of the
    same name.  Header by header: a name that [extra_headers] gives has the
    value given there; otherwise [Content-Type] and [Accept] are
    [application/json], [Authorization] is present if and only if there is
    an access token and is then [Bearer] followed by it, and no other
    header is present. *)
Theorem composed_headers (c : FrankEnergie) (extra_headers : option (gmap string string))
    (q : FrankEnergieQuery) (st : state) :
  let extra : gmap string string := default ∅ extra_headers in
  let headers := compose_headers c extra_headers in
  (∀ name, headers !! name =
     match extra !! name with
     | Some v => Some v
     | None =>
         if String.eqb name "Content-Type" then Some "application/json"
         else if String.eqb name "Accept" then Some "application/json"
         else if String.eqb name "Authorization" then
           (fun token => "Bearer " ++ token) <$> access_token c
         else None
     end)
  ∧ (extra !! "Authorization" = None →
     (is_Some (headers !! "Authorization") ↔ is_Some (access_token c)))
  ∧ posted (env (_query server q extra_headers st).2)
    = (posted (env st)
       ++ [ {| req_url := DATA_URL;
               req_json := to_dict q;
               req_headers := compose_headers (self st) extra_headers;
               req_timeout := 30;
               req_session := _session (self (_ensure_session st).2) |} ])%list.
Proof.
  intros extra headers.
  assert (Hunion : headers = extra ∪
            match access_token c with
            | Some token =>
                <[ "Authorization" := "Bearer " ++ token ]>
                  ({[ "Content-Type" := "application/json";
                      "Accept" := "application/json" ]} : gmap string string)
            | None => {[ "Content-Type" := "application/json";
                         "Accept" := "application/json" ]}
            end).
  { subst headers extra. unfold compose_headers, access_token.
    destruct (_auth c) as [[[token|] refresh]|]; cbn [authToken mbind option_bind];
      (destruct extra_headers as [extra|]; cbn [default from_option id];
       [ case_bool_decide as Hempty; cbn [negb]; [|done];
         subst extra; by rewrite map_empty_union
       | by rewrite map_empty_union ]). }
  assert (Hlookup : ∀ name, headers !! name =
     match extra !! name with
     | Some v => Some v
     | None =>
         if String.eqb name "Content-Type" then Some "application/json"
         else if String.eqb name "Accept" then Some "application/json"
         else if String.eqb name "Authorization" then
           (fun token => "Bearer " ++ token) <$> access_token c
         else None
     end).
  { intros name. rewrite Hunion, lookup_union.
    destruct (extra !! name) as [v|] eqn:Hextra.
    { by rewrite (union_Some_l _ _). }
    rewrite (left_id_L None (∪)).
    destruct (String.eqb_spec name "Content-Type") as [->|Hct].
    { by destruct (access_token c). }
    destruct (String.eqb_spec name "Accept") as [->|Hacc].
    { by destruct (access_token c). }
    destruct (String.eqb_spec name "Authorization") as [->|Hauth].
    { by destruct (access_token c). }
    destruct (access_token c).
    - rewrite lookup_insert_ne by done.
      rewrite lookup_insert_ne by done. by rewrite lookup_singleton_ne.
    - rewrite lookup_insert_ne by done. by rewrite lookup_singleton_ne. }
  split; [exact Hlookup|]. split.
  - intros Hnone. rewrite Hlookup, Hnone. cbn.
    destruct (access_token c); cbn; split; intros [? ?]; eauto; discriminate.
  - rewrite query_run. cbn [snd]. unfold after_post. cbn [env posted].
    unfold request_of, _ensure_session. destruct (_session (self st)); reflexivity.
Qed.

End HeaderClaims.

(* ===================================================================== *)
(** * The claim about redaction *)
(* ===================================================================== *)

Section RedactionClaims.

Import Heap.

Implicit Types (h : list (gmap string value)) (q : Heap.FrankEnergieQuery)
  (vars : gmap string value).

Lemma to_dict_variables q :
  ({[ "query" := Scalar (SStr (Heap.query q));
      "operationName" := Scalar (SStr (Heap.operation_name q));
      "variables" := Ref (Heap.variables q) ]} : gmap string value)
    !! "variables" = Some (Ref (Heap.variables q)).
Proof.
  rewrite lookup_insert_ne by done.
  rewrite lookup_insert_ne by done.
  by rewrite lookup_singleton_eq.
Qed.

(** [sanitize_query] on a query whose variables hold a password: the dict
    it returns is new, but its ["variables"] entry is the query's own dict,
    and that dict is the one that receives the mask. *)
Lemma sanitize_query_run q h vars pw :
  h !! Heap.variables q = Some vars →
  vars !! "password" = Some pw →
  Heap.sanitize_query q h =
    (Return (List.length h),
     <[ Heap.variables q := <[ "password" := Scalar (SStr "****") ]> vars ]>
       (h ++ [ {[ "query" := Scalar (SStr (Heap.query q));
                  "operationName" := Scalar (SStr (Heap.operation_name q));
                  "variables" := Ref (Heap.variables q) ]} ])%list).
Proof.
  intros Hvars Hpw.
  unfold Heap.sanitize_query, Heap.to_dict, alloc, load, Heap.contains, store_item.
  rewrite list_lookup_middle by done.
  rewrite to_dict_variables.
  rewrite (lookup_app_l_Some _ _ _ _ Hvars).
  rewrite Hpw. rewrite bool_decide_eq_true_2 by eauto.
  reflexivity.
Qed.

(** C2.  The claim is that redaction masks the password in a copy and leaves
    the variables of the query object, and with them the payload sent
    later, as they were.  The first half holds and the second does not:
    the dict that [sanitize_query] returns shares the variables dict of
    the query, so the mask is written into the query's own variables. *)
Theorem sanitize_query_masks_the_query_itself q h vars pw :
  h !! Heap.variables q = Some vars →
  vars !! "password" = Some pw →
  ∃ sanitized h',
    Heap.sanitize_query q h = (Return sanitized, h')
    ∧ (h' !! sanitized ≫= (.!! "variables")) = Some (Ref (Heap.variables q))
    ∧ (h' !! Heap.variables q ≫= (.!! "password")) = Some (Scalar (SStr "****"))
    ∧ (∀ l d, l ≠ Heap.variables q → h !! l = Some d → h' !! l = Some d).
Proof.
  intros Hvars Hpw.
  pose proof (lookup_lt_Some _ _ _ Hvars) as Hlt.
  eexists _, _. split; [by apply (sanitize_query_run q h vars pw)|].
  split; [|split].
  - rewrite list_lookup_insert_ne by lia.
    rewrite list_lookup_middle by done. cbn. apply to_dict_variables.
  - rewrite list_lookup_insert_eq by (rewrite length_app; cbn; lia).
    cbn. by rewrite lookup_insert_eq.
  - intros l d Hne Hl.
    rewrite list_lookup_insert_ne by done.
    by apply lookup_app_l_Some.
Qed.

End RedactionClaims.

(* ===================================================================== *)
(** * Properties of the operation methods *)
(* ===================================================================== *)

Section OperationFacts.

Variable server : request → transport_outcome.
Variable model : Type.
Variable decode : decoder → json → result model.
Variable Authentication_from_dict : json → result Authentication.
Variable today : date.

Implicit Types (st : state) (e : exception).

Lemma bind_raise {A B} (m : M A) (k : A → M B) st e st' :
  m st = (Raise e, st') → (m ≫= k) st = (Raise e, st').
Proof. intros H. unfold mbind, M_bind. by rewrite H. Qed.

Lemma bind_return {A B} (m : M A) (k : A → M B) st a st' :
  m st = (Return a, st') → (m ≫= k) st = k a st'.
Proof. intros H. unfold mbind, M_bind. by rewrite H. Qed.

Lemma require_credentials_missing message st :
  _auth (self st) = None →
  require_credentials message st = (Raise (new AuthRequiredException message), st).
Proof.
  intros H. unfold require_credentials, mbind, M_bind, get_self.
  by rewrite H.
Qed.

Lemma require_credentials_present message st :
  _auth (self st) ≠ None → require_credentials message st = (Return tt, st).
Proof.
  intros H. unfold require_credentials, mbind, M_bind, get_self.
  by rewrite bool_decide_eq_false_2.
Qed.

Lemma require_authenticated_fails st :
  is_authenticated (self st) = false →
  require_authenticated st =
    (Raise (new AuthRequiredException "Authentication is required."), st).
Proof.
  intros H. unfold require_authenticated, mbind, M_bind, get_self.
  rewrite H. cbn [negb]. by rewrite orb_true_r.
Qed.

Lemma authenticated_has_credentials st :
  is_authenticated (self st) = true → _auth (self st) ≠ None.
Proof. unfold is_authenticated. by destruct (_auth (self st)). Qed.

(** A [try] with the single clause [except Exception]. *)
Lemma try_except_Exception {A} (body : M A) (handler : exception → M A) st :
  try_except body [([Exception], handler)] st =
    match body st with
    | (Return a, st') => (Return a, st')
    | (Raise e, st') =>
        if isinstance e Exception then handler e st' else (Raise e, st')
    end.
Proof.
  unfold try_except. destruct (body st) as [[a|e] st']; [done|].
  cbn [dispatch]. unfold catches. cbn [existsb]. rewrite orb_false_r.
  by destruct (isinstance e Exception).
Qed.

(** Every exception that the interpreter raises for an operation on a JSON
    value is an [Exception]. *)
Lemma getitem_raises_Exception v key e :
  getitem v key = Raise e → isinstance e Exception = true.
Proof.
  destruct v as [| | | | |fields]; cbn; try (intros [= <-]; reflexivity).
  destruct (fields !! key); intros [= <-]; reflexivity || discriminate.
Qed.

Lemma contains_raises_Exception v key e :
  Json.contains v key = Raise e → isinstance e Exception = true.
Proof. destruct v; cbn; intros [= <-] || discriminate; reflexivity. Qed.

Lemma len_raises_Exception v e :
  len v = Raise e → isinstance e Exception = true.
Proof. destruct v; cbn; intros [= <-] || discriminate; reflexivity. Qed.

End OperationFacts.

Section OperationClaims.

Variable server : request → transport_outcome.
Variable model : Type.
Variable decode : decoder → json → result model.
Variable Authentication_from_dict : json → result Authentication.
Variable today : date.

Implicit Types (st : state) (e : exception).

(** C5, as amended.  On an authenticated client:
    - [enode_chargers] returns the empty dict whenever the pipeline raises
      an [Exception] (transport, status, classifier) and whenever the
      deserialiser does;
    - [smart_batteries] returns the empty [SmartBatteries] when the
      deserialiser raises [KeyError], [ValueError] or [TypeError], and when
      the envelope is empty; an exception that the pipeline raises, the
      classifier's included, is not caught and reaches the caller. *)
Theorem tolerant_operations (site_reference : string) (start_date : date) st :
  is_authenticated (self st) = true →
  (∀ e st',
     _query server (enode_chargers_query site_reference) None st = (Raise e, st') →
     isinstance e Exception = true →
     enode_chargers server model decode site_reference start_date st
     = (Return EmptyDict, st'))
  ∧ (∀ fields data chargers e st',
       _query server (enode_chargers_query site_reference) None st
       = (Return (JObj fields), st') →
       fields !! "data" = Some (JObj data) →
       data !! "enodeChargers" = Some chargers →
       decode EnodeChargers_from_dict chargers = Raise e →
       isinstance e Exception = true →
       enode_chargers server model decode site_reference start_date st
       = (Return EmptyDict, st'))
  ∧ (∀ e st',
       _query server smart_batteries_query None st = (Raise e, st') →
       smart_batteries server model decode st = (Raise e, st'))
  ∧ (∀ response st',
       _query server smart_batteries_query None st = (Return response, st') →
       truthy response = false →
       smart_batteries server model decode st = (Return (SmartBatteries []), st'))
  ∧ (∀ fields data (items : list json) e st',
       _query server smart_batteries_query None st = (Return (JObj fields), st') →
       fields !! "errors" = None →
       fields !! "data" = Some (JObj data) →
       data !! "smartBatteries" = Some (JArr items) →
       items ≠ [] →
       mapM (decode SmartBattery_from_dict) items = Raise e →
       catches [KeyError; ValueError; TypeError] e = true →
       smart_batteries server model decode st = (Return (SmartBatteries []), st')).
Proof.
  intros Hauth.
  pose proof (authenticated_has_credentials _ Hauth) as Hcreds.
  assert (Hguard : bool_decide (_auth (self st) = None)
                   || negb (is_authenticated (self st)) = false).
  { rewrite Hauth. cbn [negb]. rewrite orb_false_r.
    by apply bool_decide_eq_false_2. }
  repeat split.
  - intros e st' Hquery He.
    unfold enode_chargers, mbind at 1, M_bind at 1, get_self.
    rewrite Hguard. change (lift (new_query _ _ _) ≫= ?k) with
      (k (enode_chargers_query site_reference)); cbv beta.
    rewrite try_except_Exception, (bind_raise _ _ _ _ _ Hquery), He. done.
  - intros fields data chargers e st' Hquery Hdata Hchargers Hdecode He.
    unfold enode_chargers, mbind at 1, M_bind at 1, get_self.
    rewrite Hguard. change (lift (new_query _ _ _) ≫= ?k) with
      (k (enode_chargers_query site_reference)); cbv beta.
    rewrite try_except_Exception, (bind_return _ _ _ _ _ Hquery).
    cbn [is_None]. unfold lift, mbind, M_bind. cbn [Json.contains getitem].
    rewrite Hdata. rewrite bool_decide_eq_true_2 by eauto.
    cbn [negb is_None Json.contains].
    rewrite Hchargers. rewrite bool_decide_eq_true_2 by eauto.
    cbn [negb getitem]. rewrite Hchargers.
    destruct (len chargers) as [n|e'] eqn:Hlen.
    + unfold typed, lift, mbind, M_bind. rewrite Hdecode, He. done.
    + by rewrite (len_raises_Exception _ _ Hlen).
  - intros e st' Hquery.
    unfold smart_batteries. rewrite (bind_return _ _ _ _ _ (require_credentials_present "" st Hcreds)).
    change (lift (new_query _ _ _) ≫= ?k) with (k smart_batteries_query);
      cbv beta.
    by apply bind_raise.
  - intros response st' Hquery Hfalsy.
    unfold smart_batteries. rewrite (bind_return _ _ _ _ _ (require_credentials_present "" st Hcreds)).
    change (lift (new_query _ _ _) ≫= ?k) with (k smart_batteries_query);
      cbv beta.
    rewrite (bind_return _ _ _ _ _ Hquery), Hfalsy. done.
  - intros fields data items e st' Hquery Herrors Hdata Hitems Hne Hdecode He.
    unfold smart_batteries. rewrite (bind_return _ _ _ _ _ (require_credentials_present "" st Hcreds)).
    change (lift (new_query _ _ _) ≫= ?k) with (k smart_batteries_query);
      cbv beta.
    rewrite (bind_return _ _ _ _ _ Hquery).
    assert (Htruthy : truthy (JObj fields) = true).
    { cbn. rewrite bool_decide_eq_false_2; [done|].
      intros ->. by rewrite lookup_empty in Hdata. }
    assert (Htruthy' : truthy (JObj data) = true).
    { cbn. rewrite bool_decide_eq_false_2; [done|].
      intros ->. by rewrite lookup_empty in Hitems. }
    rewrite Htruthy. cbn [negb].
    unfold lift, mbind at 1, M_bind at 1. cbn [get]. rewrite Herrors.
    cbn [default from_option truthy].
    unfold mbind at 1, M_bind at 1. rewrite Hdata. cbn [default from_option id].
    rewrite Htruthy'. cbn [negb].
    unfold mbind at 1, M_bind at 1. cbn [get_or_empty]. rewrite Hdata.
    cbn [default from_option id].
    unfold mbind at 1, M_bind at 1. cbn [get]. rewrite Hitems.
    cbn [default from_option id].
    replace (truthy (JArr items)) with true by (by destruct items).
    cbn [negb]. unfold try_except, mbind, M_bind. cbn [iterate].
    change (result_bind ?A ?B ?k ?r) with (rbind r k). cbn [rbind].
    rewrite Hdecode. cbn [dispatch]. by rewrite He.
Qed.

End OperationClaims.

(* ===================================================================== *)
(** * The claim about the session *)
(* ===================================================================== *)

Section SessionClaims.

Variable server : request → transport_outcome.
Variable model : Type.
Variable decode : decoder → json → result model.
Variable Authentication_from_dict : json → result Authentication.
Variable today : date.
Variable utc_today : date.

(** [_query] opens a session when the client has none and marks it as the
    client's to close; it never closes one. *)
Lemma query_keeps_sessions_open q extra st :
  closed (env (_query server q extra st).2) = closed (env st)
  ∧ (_session (self st) = None →
     _session (self (_query server q extra st).2) = Some (sessions (env st))
     ∧ _close_session (self (_query server q extra st).2) = true).
Proof.
  rewrite query_run. cbn [snd]. unfold after_post, _ensure_session.
  destruct (_session (self st)); cbn; split; done.
Qed.

(** C6.  The claim is that leaving the client closes a session that the
    client created itself.  The code does not: [__aexit__] awaits
    [self.close()], the class defines no [close], so leaving raises
    [AttributeError] and every session, the client's own included, stays
    open.  (That a session of the caller's is never closed holds.) *)
Theorem aexit_closes_nothing (st : state) :
  __aexit__ server model decode Authentication_from_dict today utc_today st
  = (Raise (new AttributeError "'FrankEnergie' object has no attribute 'close'"),
     st).
Proof. reflexivity. Qed.

End SessionClaims.

(* ===================================================================== *)
(** * Properties of the date helpers *)
(* ===================================================================== *)

Section DateFacts.

Lemma unmatchable_step r :
  unmatchable r = true → nullable r = false ∧ ∀ a, unmatchable (deriv a r) = true.
Proof.
  induction r as [| |p|c|r1 IH1 r2 IH2|r1 IH1 r2 IH2|r IH]; cbn; try discriminate.
  - done.
  - intros [H|H]%orb_true_iff.
    + destruct (IH1 H) as [-> Hd]. split; [done|]. intros a. cbn. by rewrite Hd.
    + destruct (IH2 H) as [Hn Hd]. rewrite Hn, andb_false_r. split; [done|].
      intros a. destruct (nullable r1); cbn; rewrite ?H, ?Hd, ?orb_true_r; done.
  - intros [H1 H2]%andb_true_iff.
    destruct (IH1 H1) as [-> Hd1], (IH2 H2) as [-> Hd2]. split; [done|].
    intros a. by rewrite Hd1, Hd2.
Qed.

Lemma fullmatch_unmatchable r s : unmatchable r = true → fullmatch r s = false.
Proof.
  revert r. induction s as [|a s IH]; intros r H; cbn.
  - by apply unmatchable_step.
  - apply IH. by apply unmatchable_step.
Qed.

Lemma fullmatch_cons r a s : fullmatch r (String a s) = fullmatch (deriv a r) s.
Proof. reflexivity. Qed.

Ltac eat :=
  match goal with
  | |- fullmatch _ (String ?c _) = _ =>
      rewrite (fullmatch_cons _ c _);
      cbn [deriv nullable start_date_pattern between times upto Nat.sub andb orb];
      repeat match goal with
        | |- context [if is_digit c then _ else _] => destruct (is_digit c) eqn:?
        | |- context [if Ascii.eqb c dash then _ else _] => destruct (Ascii.eqb c dash) eqn:?
        end;
      cbn [deriv nullable andb orb];
      try (rewrite fullmatch_unmatchable by reflexivity; cbn [andb orb]; reflexivity)
  end.

Lemma fullmatch_start_date_pattern s :
  fullmatch start_date_pattern s = is_YYYY s || is_YYYY_MM s || is_YYYY_MM_DD s.
Proof.
  unfold is_YYYY, is_YYYY_MM, is_YYYY_MM_DD.
  do 11 (destruct s as [|? s]; [cbn [String.list_ascii_of_string]; repeat eat; try reflexivity|]).
  cbn [String.list_ascii_of_string]. repeat eat.
Qed.

Lemma digit_value_char c :
  is_digit c = true → 0 ≤ digit_value c ≤ 9 ∧ digit_char (digit_value c) = c.
Proof.
  unfold is_digit, digit_value, digit_char. intros [H1 H2]%andb_true_iff.
  apply Nat.leb_le in H1, H2. split; [lia|].
  rewrite Z.mod_small by lia.
  replace (48 + Z.to_nat (Z.of_nat (nat_of_ascii c) - 48))%nat with (nat_of_ascii c) by lia.
  apply ascii_nat_embedding.
Qed.

Lemma digit_char_value n :
  is_digit (digit_char n) = true ∧ digit_value (digit_char n) = n mod 10.
Proof.
  unfold is_digit, digit_value, digit_char.
  pose proof (Z.mod_pos_bound n 10 ltac:(lia)) as Hb.
  rewrite nat_ascii_embedding by lia. split.
  - apply andb_true_iff. split; apply Nat.leb_le; lia.
  - lia.
Qed.

Lemma digit_char_eq c n :
  is_digit c = true → n mod 10 = digit_value c → digit_char n = c.
Proof.
  intros H E. destruct (digit_value_char c H) as [Hb <-].
  unfold digit_char. rewrite E.
  by rewrite (Z.mod_small (digit_value c) 10) by lia.
Qed.

Lemma digit_not_dash c : is_digit c = true → Ascii.eqb c dash = false.
Proof.
  intros H. apply Ascii.eqb_neq. intros ->. vm_compute in H. discriminate.
Qed.

Lemma digit_not_space c : is_digit c = true → Ascii.eqb c " " = false.
Proof.
  intros H. apply Ascii.eqb_neq. intros ->. vm_compute in H. discriminate.
Qed.

Lemma days_in_month_bound y m : 28 ≤ days_in_month y m ≤ 31.
Proof. unfold days_in_month. repeat case_match; lia. Qed.

Lemma strptime_isoformat d : valid_date d = true → strptime_ymd (isoformat d) = Return d.
Proof.
  destruct d as [y m dd]. unfold valid_date. cbn [year month day].
  intros H. pose proof H as Hvalid.
  repeat (apply andb_true_iff in H; destruct H as [H ?]).
  repeat match goal with H : (_ <=? _) = true |- _ => apply Z.leb_le in H end.
  pose proof (days_in_month_bound y m).
  unfold strptime_ymd, isoformat, pad4, pad2. cbn [year month day].
  cbv [String.append String.list_ascii_of_string].
  destruct (digit_char_value (y / 1000)) as [-> ->].
  destruct (digit_char_value (y / 100)) as [-> ->].
  destruct (digit_char_value (y / 10)) as [-> ->].
  destruct (digit_char_value y) as [-> ->].
  cbn [andb]. change (Ascii.eqb "-" dash) with true. cbn [andb].
  unfold month_field.
  destruct (digit_char_value (m / 10)) as [-> ->].
  destruct (digit_char_value m) as [-> ->]. cbn [andb].
  replace (10 * ((m / 10) mod 10) + m mod 10) with m by (Z.div_mod_to_equations; lia).
  rewrite (proj2 (Z.leb_le 1 m)), (proj2 (Z.leb_le m 12)) by lia. cbn [andb].
  change (Ascii.eqb "-" dash) with true. cbn match.
  unfold day_field.
  destruct (digit_char_value (dd / 10)) as [-> ->].
  destruct (digit_char_value dd) as [-> ->]. cbn [andb].
  replace (10 * ((dd / 10) mod 10) + dd mod 10) with dd by (Z.div_mod_to_equations; lia).
  rewrite (proj2 (Z.leb_le 1 dd)), (proj2 (Z.leb_le dd 31)) by lia. cbn [andb].
  replace (1000 * ((y / 1000) mod 10) + 100 * ((y / 100) mod 10) + 10 * ((y / 10) mod 10) + y mod 10) with y by (Z.div_mod_to_equations; lia).
  unfold valid_date. cbn [year month day]. by rewrite Hvalid.
Qed.

Lemma layout_full_date s :
  is_YYYY_MM_DD s = true →
  ∃ y1 y2 y3 y4 m1 m2 d1 d2,
    s = String y1 (String y2 (String y3 (String y4 (String dash
          (String m1 (String m2 (String dash (String d1 (String d2 "")))))))))
    ∧ is_digit y1 = true ∧ is_digit y2 = true ∧ is_digit y3 = true
    ∧ is_digit y4 = true ∧ is_digit m1 = true ∧ is_digit m2 = true
    ∧ is_digit d1 = true ∧ is_digit d2 = true.
Proof.
  unfold is_YYYY_MM_DD. intros H.
  do 10 (destruct s as [|? s]; [discriminate H|]).
  destruct s; [|discriminate H].
  cbv [String.list_ascii_of_string] in H.
  repeat (apply andb_true_iff in H; destruct H as [H ?]).
  repeat match goal with
  | E : Ascii.eqb _ dash = true |- _ => apply Ascii.eqb_eq in E; subst
  end.
  do 8 eexists. split; [reflexivity|]. repeat split; try assumption.
  apply andb_true_iff. by split.
Qed.

Lemma strptime_full_date s d :
  is_YYYY_MM_DD s = true →
  strptime_ymd s = Return d →
  s = isoformat d ∧ valid_date d = true.
Proof.
  intros (y1 & y2 & y3 & y4 & m1 & m2 & d1 & d2 & -> & Hy1 & Hy2 & Hy3 & Hy4
          & Hm1 & Hm2 & Hd1 & Hd2)%layout_full_date.
  unfold strptime_ymd. cbv [String.list_ascii_of_string].
  rewrite Hy1, Hy2, Hy3, Hy4. change (Ascii.eqb dash dash) with true.
  cbn [andb]. unfold month_field. rewrite Hm1, Hm2. cbn [andb].
  destruct (digit_value_char _ Hy1) as [? Ey1], (digit_value_char _ Hy2) as [? Ey2],
    (digit_value_char _ Hy3) as [? Ey3], (digit_value_char _ Hy4) as [? Ey4],
    (digit_value_char _ Hm1) as [? Em1], (digit_value_char _ Hm2) as [? Em2],
    (digit_value_char _ Hd1) as [? Ed1], (digit_value_char _ Hd2) as [? Ed2].
  destruct ((1 <=? 10 * digit_value m1 + digit_value m2)
            && (10 * digit_value m1 + digit_value m2 <=? 12)) eqn:Hmonth.
  2:{ destruct (1 <=? digit_value m1); [|discriminate].
      rewrite (digit_not_dash _ Hm2). discriminate. }
  change (Ascii.eqb dash dash) with true. cbn match.
  unfold day_field. rewrite Hd1, Hd2. cbn [andb].
  destruct ((1 <=? 10 * digit_value d1 + digit_value d2)
            && (10 * digit_value d1 + digit_value d2 <=? 31)) eqn:Hday.
  2:{ destruct (1 <=? digit_value d1); [discriminate|].
      rewrite (digit_not_space _ Hd1). cbn [andb]. discriminate. }
  match goal with
  | |- (if valid_date ?p then _ else _) = _ → _ =>
      destruct (valid_date p) eqn:Hvalid; [|case_match; discriminate]
  end.
  intros [= <-]. split; [|exact Hvalid].
  unfold isoformat, pad4, pad2. cbn [year month day].
  cbv [String.append].
  apply andb_true_iff in Hmonth as [?%Z.leb_le ?%Z.leb_le].
  apply andb_true_iff in Hday as [?%Z.leb_le ?%Z.leb_le].
  repeat (apply (f_equal2 String);
          [ first [ reflexivity
                  | symmetry; apply digit_char_eq;
                    [assumption | Z.div_mod_to_equations; lia] ] | ]).
  reflexivity.
Qed.

Lemma layout_lengths s :
  (is_YYYY s = true → String.length s = 4%nat)
  ∧ (is_YYYY_MM s = true → String.length s = 7%nat)
  ∧ (is_YYYY_MM_DD s = true → String.length s = 10%nat).
Proof.
  unfold is_YYYY, is_YYYY_MM, is_YYYY_MM_DD.
  do 11 (destruct s as [|? s]; [repeat split; intros H; done || discriminate H|]).
  repeat split; intros H; discriminate H.
Qed.

(** Inside the [try] block every failure is a [ValueError], and the
    [except ValueError] clause turns it into a [ValueError] again. *)
Lemma check_full_date_outcome utc_today s :
  check_full_date utc_today s =
    match strptime_ymd s with
    | Return d =>
        if date_gt d utc_today then
          Raise (new ValueError
            ("De 'start_date' heeft geen geldig datumformaat: " ++
             "De 'start_date' mag niet in de toekomst liggen."))
        else Return tt
    | Raise e =>
        Raise (new ValueError
          ("De 'start_date' heeft geen geldig datumformaat: " ++ exc_str e))
    end
  ∧ (∀ e, strptime_ymd s = Raise e → exc_type e = ValueError).
Proof.
  assert (Hclass : ∀ e, strptime_ymd s = Raise e → exc_type e = ValueError).
  { unfold strptime_ymd. intros e.
    repeat case_match; intros [= <-]; reflexivity. }
  split; [|exact Hclass].
  unfold check_full_date, mbind, result_bind, rbind.
  destruct (strptime_ymd s) as [d|e] eqn:Hparse.
  - destruct (date_gt d utc_today); reflexivity.
  - cbn [dispatch]. unfold catches, isinstance. cbn [existsb].
    rewrite (Hclass e eq_refl). reflexivity.
Qed.

End DateFacts.

Section DateClaims.

(** C9.  The date-validation helper accepts exactly the strings that match
    [\d{4}(-\d{2}){0,2}], that is the layouts [YYYY], [YYYY-MM] and
    [YYYY-MM-DD], where a string of ten characters must in addition be the
    ISO form of a real calendar date that is not after the current UTC
    date; every other string is refused with a [ValueError].  So ["2023"],
    ["2023-02"] and ["2023-02-15"] pass the pattern, ["bad-date"] raises a
    [ValueError], and ["2099-01-01"] raises a [ValueError] as long as the
    current UTC date is before it. *)
Theorem start_date_format_validation (utc_today : date) (s : string) :
  fullmatch start_date_pattern s = is_YYYY s || is_YYYY_MM s || is_YYYY_MM_DD s
  ∧ (_validate_start_date_format utc_today (inl s) = Return tt ↔
       fullmatch start_date_pattern s = true
       ∧ (String.length s = 10%nat →
          ∃ d, s = isoformat d ∧ valid_date d = true
               ∧ date_gt d utc_today = false))
  ∧ (_validate_start_date_format utc_today (inl s) = Return tt
     ∨ ∃ message,
         _validate_start_date_format utc_today (inl s)
         = Raise (new ValueError message))
  ∧ fullmatch start_date_pattern "2023" = true
  ∧ fullmatch start_date_pattern "2023-02" = true
  ∧ fullmatch start_date_pattern "2023-02-15" = true
  ∧ fullmatch start_date_pattern "bad-date" = false
  ∧ (∃ message,
       _validate_start_date_format utc_today (inl "bad-date")
       = Raise (new ValueError message))
  ∧ (date_gt (mkDate 2099 1 1) utc_today = true →
     ∃ message,
       _validate_start_date_format utc_today (inl "2099-01-01")
       = Raise (new ValueError message)).
Proof.
  split; [apply fullmatch_start_date_pattern|].
  assert (Hresult : ∀ t,
    _validate_start_date_format utc_today (inl t) = Return tt
    ∨ ∃ message,
        _validate_start_date_format utc_today (inl t)
        = Raise (new ValueError message)).
  { intros t. unfold _validate_start_date_format.
    destruct (fullmatch start_date_pattern t); cbn [negb]; [|eauto].
    destruct (String.length t =? 10)%nat; [|eauto].
    rewrite (proj1 (check_full_date_outcome utc_today t)).
    destruct (strptime_ymd t) as [d|e]; [|eauto].
    destruct (date_gt d utc_today); eauto. }
  split; [|split; [apply Hresult|]].
  - unfold _validate_start_date_format.
    destruct (fullmatch start_date_pattern s) eqn:Hmatch; cbn [negb].
    2:{ split; [discriminate|]. intros [? _]. discriminate. }
    destruct (Nat.eqb_spec (String.length s) 10) as [Hlen|Hlen].
    2:{ split; [|done]. intros _. split; [done|]. intros ?. done. }
    rewrite (proj1 (check_full_date_outcome utc_today s)).
    assert (Hlayout : is_YYYY_MM_DD s = true).
    { rewrite fullmatch_start_date_pattern in Hmatch.
      destruct (layout_lengths s) as (H4 & H7 & _).
      destruct (is_YYYY s); [specialize (H4 eq_refl); lia|].
      destruct (is_YYYY_MM s); [specialize (H7 eq_refl); lia|].
      exact Hmatch. }
    split.
    + intros Hok. split; [done|]. intros _.
      destruct (strptime_ymd s) as [d|e] eqn:Hparse; [|discriminate].
      destruct (date_gt d utc_today) eqn:Hfuture; [discriminate|].
      destruct (strptime_full_date s d Hlayout Hparse) as [-> Hvalid].
      eauto.
    + intros [_ Hdate]. destruct (Hdate Hlen) as (d & -> & Hvalid & Hfuture).
      by rewrite (strptime_isoformat d Hvalid), Hfuture.
  - repeat split; try reflexivity.
    + destruct (Hresult "bad-date") as [H|H]; [|exact H].
      vm_compute in H. discriminate.
    + intros Hfuture. unfold _validate_start_date_format.
      change (fullmatch start_date_pattern "2099-01-01") with true.
      cbn [negb String.length Nat.eqb].
      rewrite (proj1 (check_full_date_outcome utc_today "2099-01-01")).
      assert (Hparse : strptime_ymd "2099-01-01" = Return (mkDate 2099 1 1))
        by (vm_compute; reflexivity).
      rewrite Hparse, Hfuture. eauto.
Qed.

(** A [date] argument goes through its ISO form: a valid date is accepted
    exactly when it is not in the future. *)
Lemma start_date_as_date (utc_today d : date) :
  valid_date d = true →
  _validate_start_date_format utc_today (inr d)
  = if date_gt d utc_today then
      Raise (new ValueError
        ("De 'start_date' heeft geen geldig datumformaat: " ++
         "De 'start_date' mag niet in de toekomst liggen."))
    else Return tt.
Proof.
  intros Hvalid. unfold _validate_start_date_format.
  assert (Hlayout : is_YYYY_MM_DD (isoformat d) = true).
  { unfold is_YYYY_MM_DD, isoformat, pad4, pad2.
    cbv [String.append String.list_ascii_of_string].
    rewrite !(proj1 (digit_char_value _)). reflexivity. }
  rewrite fullmatch_start_date_pattern, Hlayout, !orb_true_r. cbn [negb].
  destruct (layout_lengths (isoformat d)) as (_ & _ & Hlen).
  rewrite (Hlen Hlayout). cbn [Nat.eqb].
  rewrite (proj1 (check_full_date_outcome utc_today _)).
  by rewrite (strptime_isoformat d Hvalid).
Qed.

End DateClaims.

(* ===================================================================== *)
(** * The claims on concrete inputs *)
(* ===================================================================== *)

(** C1 at a 401 response. *)
Lemma query_error_status_at_401 :
  _query unauthorized country_query None logged_in =
    (Raise (new NetworkError "Request failed: 401, message='Unauthorized'"),
     after_post country_query None logged_in)
  ∧ NetworkError ≠ mapped_kind 401.
Proof.
  apply (query_error_status_raises_NetworkError unauthorized country_query None
           logged_in 401 "401, message='Unauthorized'" (Parsed JNull)).
  - lia.
  - reflexivity.
Defined.

(** C2 on a login query: after [sanitize_query] the query's own variables
    carry the mask. *)
Lemma sanitize_query_on_login_query :
  ∃ sanitized h',
    Heap.sanitize_query (Heap.mkQuery "mutation Login" "Login" 0%nat)
      [ {[ "email" := Heap.Scalar (Heap.SStr "u");
           "password" := Heap.Scalar (Heap.SStr "p") ]} ]
    = (Return sanitized, h')
    ∧ (h' !! sanitized ≫= (.!! "variables")) = Some (Heap.Ref 0%nat)
    ∧ (h' !! 0%nat ≫= (.!! "password")) = Some (Heap.Scalar (Heap.SStr "****"))
    ∧ (∀ l d, l ≠ 0%nat →
         [ ({[ "email" := Heap.Scalar (Heap.SStr "u");
               "password" := Heap.Scalar (Heap.SStr "p") ]}
            : gmap string Heap.value) ] !! l = Some d →
         h' !! l = Some d).
Proof.
  apply (sanitize_query_masks_the_query_itself
           (Heap.mkQuery "mutation Login" "Login" 0%nat) _
           {[ "email" := Heap.Scalar (Heap.SStr "u");
              "password" := Heap.Scalar (Heap.SStr "p") ]}
           (Heap.Scalar (Heap.SStr "p"))).
  - reflexivity.
  - reflexivity.
Defined.

(** The payload of that query before and after redaction. *)
Lemma login_payload_after_redaction :
  let q := Heap.mkQuery "mutation Login" "Login" 0%nat in
  let h := [ ({[ "email" := Heap.Scalar (Heap.SStr "u");
                 "password" := Heap.Scalar (Heap.SStr "p") ]}
              : gmap string Heap.value) ] in
  Heap.transmitted_payload q h
  = Some (JObj {[ "query" := JStr "mutation Login";
                  "operationName" := JStr "Login";
                  "variables" := JObj {[ "email" := JStr "u";
                                         "password" := JStr "p" ]} ]})
  ∧ Heap.transmitted_payload q (Heap.sanitize_query q h).2
    = Some (JObj {[ "query" := JStr "mutation Login";
                    "operationName" := JStr "Login";
                    "variables" := JObj {[ "email" := JStr "u";
                                           "password" := JStr "****" ]} ]}).
Proof. split; vm_compute; reflexivity. Qed.

(** C3 as stated fails: [enode_chargers] on an unauthenticated client
    returns the empty dict and raises nothing. *)
Lemma enode_chargers_unauthenticated_returns_empty :
  is_authenticated (self anonymous) = false
  ∧ perform unauthorized json keep tokens_of a_day
      (Call_enode_chargers "site" a_day) anonymous
    = (Return EmptyDict, anonymous)
  ∧ ¬ (∀ call st,
         is_authenticated (self st) = false →
         ∃ e, (perform unauthorized json keep tokens_of a_day call st).1 = Raise e
              ∧ exc_type e = AuthRequiredException).
Proof.
  split; [reflexivity|]. split; [reflexivity|].
  intros H.
  destruct (H (Call_enode_chargers "site" a_day) anonymous eq_refl) as (e & He & _).
  vm_compute in He. discriminate.
Qed.

(** C4: a logged entry, then one that raises, then one more. *)
Lemma classifier_order_example :
  _handle_errors (envelope_of [base_missing; auth_required; no_prices])
  = outcome (action_for "user-error:auth-required") (for_each classify [no_prices])
  ∧ action_for "'Base' niet aanwezig in prijzen verzameling" = LogOnly
  ∧ (String.prefix "No marketprices found for segment" "user-error:auth-required" = true →
     _handle_errors (envelope_of [base_missing; auth_required; no_prices]) = Return tt).
Proof.
  apply (classifier_follows_array_order
           {[ "errors" := JArr [base_missing; auth_required; no_prices] ]}
           [base_missing] [no_prices] auth_required "user-error:auth-required").
  - reflexivity.
  - constructor; [|constructor].
    exists "'Base' niet aanwezig in prijzen verzameling". split; reflexivity.
  - reflexivity.
Defined.

(** C4 as stated fails: after the swallowed market-prices entry the
    classifier returns, and the entry behind it, which raises when it is
    classified, is never reached. *)
Lemma swallowed_entry_ends_classification :
  classify no_prices = Return Returned
  ∧ classify auth_required
    = Raise (new AuthRequiredException "Authentication required")
  ∧ _handle_errors (envelope_of [no_prices; auth_required]) = Return tt
  ∧ ¬ (∀ (pre post : list json) (e : json) x,
         Forall (fun p => is_raise (classify p) = false) pre →
         classify e = Raise x →
         _handle_errors (envelope_of (pre ++ e :: post)) = Raise x).
Proof.
  split; [vm_compute; reflexivity|]. split; [vm_compute; reflexivity|].
  split; [vm_compute; reflexivity|].
  intros H.
  specialize (H [no_prices] [] auth_required
                (new AuthRequiredException "Authentication required")).
  assert (Hpre : Forall (fun p => is_raise (classify p) = false) [no_prices]).
  { constructor; [vm_compute; reflexivity|constructor]. }
  specialize (H Hpre ltac:(vm_compute; reflexivity)).
  vm_compute in H. discriminate.
Qed.

(** C5 on a client that holds a token, with a server that answers every
    request with the [auth-required] error: [enode_chargers] gives the
    empty dict, [smart_batteries] raises. *)
Lemma tolerant_operations_example :
  enode_chargers (answers 200 "" (envelope_of [auth_required])) json keep
    "site" a_day logged_in
  = (Return EmptyDict, after_post (enode_chargers_query "site") None logged_in)
  ∧ smart_batteries (answers 200 "" (envelope_of [auth_required])) json keep
      logged_in
    = (Raise (new AuthRequiredException "Authentication required"),
       after_post smart_batteries_query None logged_in).
Proof.
  destruct (tolerant_operations (answers 200 "" (envelope_of [auth_required]))
              json keep "site" a_day logged_in eq_refl)
    as (Hchargers & _ & Hbatteries & _).
  split.
  - apply (Hchargers (new AuthRequiredException "Authentication required")).
    + vm_compute. reflexivity.
    + reflexivity.
  - apply Hbatteries. vm_compute. reflexivity.
Defined.

(** C5 as stated fails: a classifier failure leaves [smart_batteries] as an
    exception. *)
Lemma smart_batteries_propagates_classifier_failure :
  (smart_batteries (answers 200 "" (envelope_of [auth_required])) json keep
     logged_in).1
  = Raise (new AuthRequiredException "Authentication required").
Proof. vm_compute. reflexivity. Qed.

(** C6 on a client that made its own session. *)
Lemma owned_session_stays_open :
  let st := (_query (answers 200 "" JNull) country_query None anonymous).2 in
  _session (self st) = Some 0%nat
  ∧ _close_session (self st) = true
  ∧ (__aexit__ (answers 200 "" JNull) json keep tokens_of a_day a_day st).1
    = Raise (new AttributeError "'FrankEnergie' object has no attribute 'close'")
  ∧ closed (env (__aexit__ (answers 200 "" JNull) json keep tokens_of a_day a_day st).2)
    = [].
Proof. vm_compute. repeat split; reflexivity. Qed.

(** C7 on the two envelopes of the specification. *)
Lemma single_entry_examples :
  (_handle_errors (envelope_of [auth_required])
   = Raise (new AuthRequiredException "Authentication required")
   ∧ (_query (answers 200 "" (envelope_of [auth_required])) country_query None
        logged_in).1
     = Raise (new AuthRequiredException "Authentication required"))
  ∧ (_handle_errors (envelope_of [no_prices]) = Return tt
     ∧ (_query (answers 200 "" (envelope_of [no_prices])) country_query None
          logged_in).1
       = Return (envelope_of [no_prices])).
Proof.
  split.
  - destruct (single_entry_auth_required_and_no_marketprices
                (answers 200 "" (envelope_of [auth_required]))
                {[ "errors" := JArr [auth_required] ]}
                {[ "message" := JStr "user-error:auth-required" ]}
                "user-error:auth-required") as [H _];
      [reflexivity|reflexivity|].
    destruct (H eq_refl) as [Hclassifier Hquery].
    split; [exact Hclassifier|].
    apply (Hquery country_query None logged_in 200 ""); [lia|reflexivity].
  - destruct (single_entry_auth_required_and_no_marketprices
                (answers 200 "" (envelope_of [no_prices]))
                {[ "errors" := JArr [no_prices] ]}
                {[ "message" := JStr "No marketprices found for segment X" ]}
                "No marketprices found for segment X") as [_ H];
      [reflexivity|reflexivity|].
    destruct (H eq_refl) as [Hclassifier Hquery].
    split; [exact Hclassifier|].
    apply (Hquery country_query None logged_in 200 ""); [lia|reflexivity].
Defined.

(** C10 on a response whose second error entry has no message. *)
Lemma missing_message_key_example :
  _query (answers 200 "" (envelope_of [base_missing; without_message; auth_required]))
    country_query None logged_in
  = (Raise (new NetworkError "Request failed: 'message'"),
     after_post country_query None logged_in).
Proof.
  apply (missing_message_key_raises_NetworkError
           (answers 200 "" (envelope_of [base_missing; without_message; auth_required]))
           country_query None logged_in 200 ""
           {[ "errors" := JArr [base_missing; without_message; auth_required] ]}
           [base_missing] [auth_required] without_message).
  - lia.
  - reflexivity.
  - reflexivity.
  - constructor; [|constructor].
    exists "'Base' niet aanwezig in prijzen verzameling". split; reflexivity.
  - exists {[ "path" := JArr [JStr "me"] ]}. split; reflexivity.
Defined.

(* ===================================================================== *)
(** * Further properties of the pipeline and the classifier *)
(* ===================================================================== *)

Section PipelineProperties.

Variable server : request → transport_outcome.

Implicit Types (q : FrankEnergieQuery) (extra : option (gmap string string))
  (st : state) (fields : gmap string json) (e : exception).

(** An empty or otherwise falsy body ([null], [{}], [[]], [""], [0],
    [false]) of a response below status 400 makes [_query] return the
    empty dict: the body itself is dropped and the classifier is not
    consulted. *)
Theorem falsy_body_gives_empty_dict q extra st status detail v :
  status < 400 →
  server (request_of q extra st) = Responded status detail (Parsed v) →
  truthy v = false →
  _query server q extra st = (Return (JObj ∅), after_post q extra st).
Proof.
  intros Hstatus Hserver Hfalsy. rewrite query_run, Hserver.
  destruct (Z.leb_spec 400 status) as [?|_]; [lia|].
  by rewrite Hfalsy.
Qed.

(** A JSON object that has other keys but no [errors], or whose [errors]
    is empty or null, comes back from [_query] exactly as it was
    received. *)
Theorem body_without_errors_is_returned q extra st status detail fields :
  status < 400 →
  server (request_of q extra st) = Responded status detail (Parsed (JObj fields)) →
  fields ≠ ∅ →
  truthy (default JNull (fields !! "errors")) = false →
  _query server q extra st = (Return (JObj fields), after_post q extra st).
Proof.
  intros Hstatus Hserver Hne Herrors. rewrite query_run, Hserver.
  destruct (Z.leb_spec 400 status) as [?|_]; [lia|].
  assert (Htruthy : truthy (JObj fields) = true).
  { cbn. by rewrite bool_decide_eq_false_2. }
  rewrite Htruthy. cbn [negb]. unfold _handle_errors. rewrite Htruthy.
  unfold mbind, result_bind, rbind. cbn [negb get]. by rewrite Herrors.
Qed.

(** A truthy body that is not a JSON object (a non-empty array or string,
    a non-zero number, [true]) makes [_query] raise [AttributeError]: the
    classifier calls [.get] on it and no clause of [_query] translates the
    failure. *)
Theorem non_object_body_raises_AttributeError q extra st status detail v :
  status < 400 →
  server (request_of q extra st) = Responded status detail (Parsed v) →
  truthy v = true →
  (∀ fields, v ≠ JObj fields) →
  ∃ message,
    _query server q extra st =
      (Raise (new AttributeError message), after_post q extra st).
Proof.
  intros Hstatus Hserver Htruthy Hshape. rewrite query_run, Hserver.
  destruct (Z.leb_spec 400 status) as [?|_]; [lia|].
  rewrite Htruthy. cbn [negb]. unfold _handle_errors. rewrite Htruthy.
  cbn [negb]. destruct v as [| | | | |fields]; try (eexists; reflexivity).
  by destruct (Hshape fields).
Qed.

Ltac in_list :=
  repeat first [ apply list_elem_of_here | apply list_elem_of_further ].

Lemma passes_by_action s : passes_by s → action_for s = LogOnly.
Proof.
  intros (Hexact & Hp1 & Hp2). unfold action_for.
  assert (Hrules : first_rule (String.eqb s) exact_rules = None
                   ∨ first_rule (String.eqb s) exact_rules = Some LogOnly).
  { unfold exact_rules. cbn [first_rule].
    repeat match goal with
    | |- context [String.eqb s ?lit] =>
        let E := fresh "E" in
        destruct (String.eqb s lit) eqn:E;
        [ apply eqb_literal in E; subst s;
          first [ by right
                | exfalso; apply Hexact; unfold raising_messages;
                  by in_list ] | ]
    end.
    by left. }
  destruct Hrules as [-> | ->]; [|done].
  cbn [prefix_rules first_rule]. by rewrite Hp1, Hp2.
Qed.

(** The classifier fails open: when every entry of the [errors] array
    carries a string message that is none of the seven messages it raises
    on and starts with neither [No marketprices found for segment] nor
    [No connections found for user], [_query] raises nothing and returns
    the envelope, errors included. *)
Theorem unrecognised_errors_are_returned
    q extra st status detail fields (entries : list json) :
  status < 400 →
  server (request_of q extra st) = Responded status detail (Parsed (JObj fields)) →
  fields !! "errors" = Some (JArr entries) →
  Forall (fun entry => ∃ s, entry_message entry = Some s ∧ passes_by s) entries →
  _query server q extra st = (Return (JObj fields), after_post q extra st).
Proof.
  intros Hstatus Hserver Herrors Hall. rewrite query_run, Hserver.
  destruct (Z.leb_spec 400 status) as [?|_]; [lia|].
  assert (Htruthy : truthy (JObj fields) = true).
  { cbn. rewrite bool_decide_eq_false_2; [done|].
    intros ->. by rewrite lookup_empty in Herrors. }
  rewrite Htruthy. cbn [negb].
  rewrite (handle_errors_array _ _ Herrors), for_each_all_logged; [done|].
  eapply Forall_impl; [exact Hall|].
  intros entry (s & Hs & Hpass). exists s. split; [done|].
  by apply passes_by_action.
Qed.

Lemma classify_kinds entry e :
  classify entry = Raise e → exc_type e ∈ classifier_kinds.
Proof.
  unfold classify, classifier_kinds, mbind, result_bind, rbind.
  destruct entry as [| | | | |fields]; cbn [getitem get];
    try (intros [= <-]; cbn; in_list).
  destruct (fields !! "message") as [message|];
    [|intros [= <-]; cbn; in_list].
  destruct message as [| | |s| |]; cbn [startswith eq_str];
    try (intros [= <-]; cbn; in_list).
  repeat case_match; try discriminate; intros [= <-]; cbn; in_list.
Qed.

Lemma handle_errors_kinds (response : json) e :
  _handle_errors response = Raise e → exc_type e ∈ classifier_kinds.
Proof.
  unfold _handle_errors. destruct (truthy response); cbn [negb]; [|discriminate].
  unfold mbind, result_bind, rbind.
  destruct (get response "errors") as [errors|e'] eqn:Hget.
  2:{ intros [= <-]. destruct response; try discriminate Hget;
        injection Hget as <-; unfold classifier_kinds; cbn; in_list. }
  destruct (truthy errors); cbn [negb]; [|discriminate].
  destruct (iterate errors) as [entries|e'] eqn:Hiter.
  2:{ intros [= <-]. destruct errors; try discriminate Hiter;
        injection Hiter as <-; unfold classifier_kinds; cbn; in_list. }
  clear Hiter. induction entries as [|entry entries IH]; [discriminate|].
  cbn [for_each]. destruct (classify entry) as [[]|e'] eqn:Hentry.
  - exact IH.
  - discriminate.
  - intros [= <-]. by apply classify_kinds in Hentry.
Qed.

(** Whatever a parsed body of a response below status 400 contains, the
    only exceptions that can leave [_query] are [NetworkError] (for a
    missing [message] key) and the classifier's own: [AuthException],
    [AuthRequiredException], the two not-enabled exceptions, [TypeError]
    and [AttributeError]; never a [RequestException] and never a bare
    [KeyError]. *)
Theorem exceptions_of_a_parsed_body q extra st status detail v e st' :
  status < 400 →
  server (request_of q extra st) = Responded status detail (Parsed v) →
  _query server q extra st = (Raise e, st') →
  exc_type e ∈ [ NetworkError; AuthException; AuthRequiredException;
                 SmartTradingNotEnabledException;
                 SmartChargingNotEnabledException; TypeError; AttributeError ].
Proof.
  intros Hstatus Hserver. rewrite query_run, Hserver.
  destruct (Z.leb_spec 400 status) as [?|_]; [lia|].
  destruct (negb (truthy v)); [discriminate|].
  destruct (_handle_errors v) as [[]|e'] eqn:Hclass; [discriminate|].
  intros [= <- _]. apply handle_errors_kinds in Hclass.
  unfold classifier_kinds in Hclass.
  rewrite !elem_of_cons, elem_of_nil in Hclass.
  unfold leaves_query, catches, isinstance.
  repeat (destruct Hclass as [Hclass|Hclass]); try done;
    rewrite Hclass; vm_compute issubclass; cbn [existsb orb exc_type new];
    rewrite ?Hclass; by in_list.
Qed.

(** An error entry that is an object whose [message] is not a string
    ([null], a number, a list, ...) makes the classifier fail with
    [AttributeError] when it reaches the first [startswith] test; [_query]
    lets it through unchanged. *)
Theorem non_string_message_raises_AttributeError
    q extra st status detail fields (pre post : list json) entry message :
  status < 400 →
  server (request_of q extra st) = Responded status detail (Parsed (JObj fields)) →
  fields !! "errors" = Some (JArr (pre ++ JObj entry :: post)) →
  Forall only_logged pre →
  entry !! "message" = Some message →
  (∀ s, message ≠ JStr s) →
  ∃ text,
    _query server q extra st =
      (Raise (new AttributeError text), after_post q extra st).
Proof.
  intros Hstatus Hserver Herrors Hpre Hmessage Hshape.
  rewrite query_run, Hserver.
  destruct (Z.leb_spec 400 status) as [?|_]; [lia|].
  assert (Htruthy : truthy (JObj fields) = true).
  { cbn. rewrite bool_decide_eq_false_2; [done|].
    intros ->. by rewrite lookup_empty in Herrors. }
  rewrite Htruthy. cbn [negb].
  rewrite (handle_errors_array _ _ Herrors), (for_each_skip _ _ Hpre).
  cbn [for_each]. unfold classify, mbind, result_bind, rbind.
  cbn [getitem get]. rewrite Hmessage.
  destruct message as [| | |s| |]; try (eexists; reflexivity).
  by destruct (Hshape s).
Qed.

(** The session is made on first use and then reused: after any call of
    [_query] the client holds a session, and a second call posts on that
    same session without creating another. *)
Theorem session_is_reused (server' : request → transport_outcome)
    q extra q' extra' st :
  let st1 := (_query server q extra st).2 in
  let st2 := (_query server' q' extra' st1).2 in
  is_Some (_session (self st1))
  ∧ _session (self st2) = _session (self st1)
  ∧ _close_session (self st2) = _close_session (self st1)
  ∧ sessions (env st2) = sessions (env st1)
  ∧ (req_session <$> posted (env st2))
    = ((req_session <$> posted (env st)) ++
       [_session (self st1); _session (self st1)])%list
  ∧ (∀ s, _session (self st) = Some s →
      _session (self st1) = Some s
      ∧ _close_session (self st1) = _close_session (self st)
      ∧ sessions (env st1) = sessions (env st)).
Proof.
  intros st1 st2. subst st2 st1. rewrite !query_run. cbn [snd].
  unfold after_post, request_of, _ensure_session. cbn [self env].
  destruct (_session (self st)) as [s|] eqn:Hs; cbn [snd self env _session
    _close_session posted sessions]; rewrite ?Hs; cbn [snd self env _session
    _close_session posted sessions].
  - repeat split; eauto.
    rewrite !fmap_app. cbn. rewrite ?Hs. by rewrite <- app_assoc.
  - repeat split; eauto; try done.
    rewrite !fmap_app. cbn. rewrite ?Hs. by rewrite <- app_assoc.
Qed.

End PipelineProperties.

(* ===================================================================== *)
(** * What the coroutines leave alone *)
(* ===================================================================== *)

#[local] Instance extends_preorder : PreOrder extends.
Proof.
  split.
  - intros st. split; [done|by exists []; rewrite app_nil_r|lia|done].
  - intros st1 st2 st3 [Hc1 [m1 Hp1] Hs1 Hx1] [Hc2 [m2 Hp2] Hs2 Hx2]. split.
    + by rewrite Hc2.
    + exists (m1 ++ m2)%list. by rewrite Hp2, Hp1, app_assoc.
    + lia.
    + intros s Hs. destruct (Hx1 s Hs) as [Hs' Hm].
      destruct (Hx2 s Hs') as [Hs'' Hm']. split; [done|]. by rewrite Hm'.
Qed.

#[local] Instance same_credentials_preorder : PreOrder same_credentials.
Proof.
  unfold same_credentials. split.
  - by intros st.
  - intros st1 st2 st3 H1 H2. by rewrite H2.
Qed.

#[local] Instance steady_preorder : PreOrder steady.
Proof.
  split.
  - intros st. split; reflexivity.
  - intros st1 st2 st3 [? ?] [? ?]. split; etrans; eauto.
Qed.

Section FrameFacts.

Implicit Types (st : state) (e : exception).

Section Closure.

Context (R : state → state → Prop) `{!PreOrder R}.

Lemma respects_ret {A} (a : A) : respects R (mret a : M A).
Proof. intros st. reflexivity. Qed.

Lemma respects_raise {A} e : respects R (raise e : M A).
Proof. intros st. reflexivity. Qed.

Lemma respects_lift {A} (r : result A) : respects R (lift r).
Proof. intros st. reflexivity. Qed.

Lemma respects_get_self : respects R get_self.
Proof. intros st. reflexivity. Qed.

Lemma respects_bind {A B} (m : M A) (k : A → M B) :
  respects R m → (∀ a, respects R (k a)) → respects R (m ≫= k).
Proof.
  intros Hm Hk st. unfold mbind, M_bind. specialize (Hm st).
  destruct (m st) as [[a|e] st1]; [|exact Hm].
  etrans; [exact Hm|apply Hk].
Qed.

Lemma respects_dispatch {A} (clauses : list (list exc_class * (exception → M A))) e :
  Forall (fun clause => ∀ e, respects R (clause.2 e)) clauses →
  respects R (dispatch clauses raise e).
Proof.
  induction 1 as [|[classes handler] clauses Hhandler _ IH]; cbn [dispatch].
  - apply respects_raise.
  - destruct (catches classes e); [apply Hhandler|apply IH].
Qed.

Lemma respects_try_except {A} (body : M A)
    (clauses : list (list exc_class * (exception → M A))) :
  respects R body →
  Forall (fun clause => ∀ e, respects R (clause.2 e)) clauses →
  respects R (try_except body clauses).
Proof.
  intros Hbody Hclauses st. unfold try_except. specialize (Hbody st).
  destruct (body st) as [[a|e] st1]; [exact Hbody|].
  etrans; [exact Hbody|]. by apply respects_dispatch.
Qed.

End Closure.

Lemma steady_ensure_session : respects steady _ensure_session.
Proof.
  intros st. unfold _ensure_session.
  destruct (_session (self st)) as [s|] eqn:Hs; cbn [snd]; [reflexivity|].
  split; [|done]. split; cbn; [done|by exists []; rewrite app_nil_r|lia|].
  intros s Hs'. congruence.
Qed.

Lemma steady_query server q extra : respects steady (_query server q extra).
Proof.
  intros st. rewrite query_run. cbn [snd].
  etrans; [apply steady_ensure_session|].
  unfold after_post. split; [|done].
  split; cbn; [done|eauto|lia|done].
Qed.

End FrameFacts.

Section OperationFrames.

Variable server : request → transport_outcome.
Variable model : Type.
Variable decode : decoder → json → result model.
Variable Authentication_from_dict : json → result Authentication.
Variable today : date.
Variable utc_today : date.

Implicit Types (st : state) (e : exception).

Lemma extends_query q extra : respects extends (_query server q extra).
Proof. intros st. apply steady_query. Qed.

(** Storing new credentials touches nothing but the credentials. *)
Lemma extends_replace_credentials (a : option Authentication) :
  respects extends
    (get_self ≫= fun c =>
       set_self {| _session := _session c;
                   _close_session := _close_session c;
                   _auth := a |}).
Proof.
  intros st. unfold mbind, M_bind, get_self, set_self. cbn.
  split; cbn; [done|by exists []; rewrite app_nil_r|lia|done].
Qed.

Lemma extends_replace_credentials_then {B} (a : option Authentication)
    (k : unit → M B) :
  (∀ u, respects extends (k u)) →
  respects extends
    (get_self ≫= fun c =>
       set_self {| _session := _session c;
                   _close_session := _close_session c;
                   _auth := a |} ≫= k).
Proof.
  intros Hk st. unfold mbind, M_bind, get_self, set_self. cbn.
  etrans; [|apply Hk].
  split; cbn; [done|by exists []; rewrite app_nil_r|lia|done].
Qed.

Ltac frame :=
  repeat first
    [ apply respects_ret; tc_solve
    | apply respects_raise; tc_solve
    | apply respects_lift; tc_solve
    | apply respects_get_self; tc_solve
    | apply steady_query
    | apply extends_query
    | apply extends_replace_credentials
    | apply extends_replace_credentials_then; intros ?
    | apply respects_bind; [tc_solve| |intros ?]
    | apply respects_try_except; [tc_solve| |]
    | match goal with
      | |- Forall _ [] => constructor
      | |- Forall _ (_ :: _) => constructor; [intros ?; cbn [snd]|]
      end
    | match goal with
      | |- respects _ (if ?b then _ else _) => destruct b
      | |- respects _ (match ?x with _ => _ end) => destruct x
      end ].

Lemma steady_auth_call (call : auth_call) :
  call ≠ Call_renew_token →
  respects steady (perform server model decode Authentication_from_dict today call).
Proof.
  intros Hcall.
  destruct call; try done; cbn [perform];
    unfold meter_readings, month_summary, enode_chargers, invoices, me,
      UserSites, user_country, user, user_prices, period_usage_and_costs,
      smart_batteries, smart_battery_details, smart_battery_sessions,
      require_authenticated, require_credentials, typed;
    cbv zeta; frame.
Qed.

Lemma extends_renew_token :
  respects extends (renew_token server model Authentication_from_dict).
Proof.
  unfold renew_token, require_authenticated. frame.
Qed.

Lemma extends_login username password :
  respects extends (login server model Authentication_from_dict username password).
Proof.
  unfold login. frame.
Qed.

Lemma steady_prices start_date end_date :
  respects steady (prices server model decode today start_date end_date).
Proof. unfold prices, typed. cbv zeta. frame. Qed.

Lemma steady_be_prices start_date end_date :
  respects steady (be_prices server model decode utc_today start_date end_date).
Proof. unfold be_prices, typed. cbv zeta. frame. Qed.

Lemma bind_raise_inv {A B} (m : M A) (k : A → M B) st e st' :
  (m ≫= k) st = (Raise e, st') →
  m st = (Raise e, st')
  ∨ ∃ a st1, m st = (Return a, st1) ∧ k a st1 = (Raise e, st').
Proof.
  unfold mbind, M_bind. destruct (m st) as [[a|e1] st1] eqn:Hm; intros H.
  - right. eauto.
  - left. by injection H as -> ->.
Qed.

End OperationFrames.

(* ===================================================================== *)
(** * The checks of the credentials *)
(* ===================================================================== *)

Ltac pure_step :=
  repeat first
    [ apply respects_ret; tc_solve
    | apply respects_raise; tc_solve
    | apply respects_lift; tc_solve
    | apply respects_bind; [tc_solve| |intros ?]
    | apply respects_try_except; [tc_solve| |]
    | match goal with
      | |- Forall _ [] => constructor
      | |- Forall _ (_ :: _) => constructor; [intros ?; cbn [snd]|]
      end
    | match goal with
      | |- respects _ (if ?b then _ else _) => destruct b
      | |- respects _ (match ?x with _ => _ end) => destruct x
      end ].

Section GuardClaims.

Variable server : request → transport_outcome.
Variable model : Type.
Variable decode : decoder → json → result model.
Variable Authentication_from_dict : json → result Authentication.
Variable today : date.

Implicit Types (st : state) (e : exception).

(** What follows a step without touching the state does not change the
    state in which the step ends. *)
Lemma bind_ends {A B} (m : M A) (k : A → M B) st :
  (∀ a, respects eq (k a)) → ((m ≫= k) st).2 = (m st).2.
Proof.
  intros Hk. unfold mbind, M_bind.
  destruct (m st) as [[a|e] st1]; [|done]. symmetry. apply Hk.
Qed.

Lemma try_except_ends {A} (body : M A)
    (clauses : list (list exc_class * (exception → M A))) st :
  Forall (fun clause => ∀ e, respects eq (clause.2 e)) clauses →
  (try_except body clauses st).2 = (body st).2.
Proof.
  intros Hclauses. unfold try_except.
  destruct (body st) as [[a|e] st1]; [done|].
  symmetry. by apply (respects_dispatch eq).
Qed.

Lemma ensure_session_keeps_posted st :
  posted (env (_ensure_session st).2) = posted (env st).
Proof. unfold _ensure_session. by destruct (_session (self st)). Qed.

(** [_query] records exactly one request. *)
Lemma query_posts_one q extra st :
  posted (env (_query server q extra st).2)
  = (posted (env st) ++ [request_of q extra st])%list.
Proof.
  rewrite query_run. cbn [snd after_post env posted].
  by rewrite ensure_session_keeps_posted.
Qed.

(** Without an access token the request has no [Authorization] header. *)
Lemma no_token_no_bearer q st :
  is_authenticated (self st) = false →
  req_headers (request_of q None st) !! "Authorization" = None.
Proof.
  unfold is_authenticated, request_of, compose_headers. cbn [req_headers].
  destruct (_auth (self st)) as [[[token|] ?]|]; cbn; done.
Qed.

(** C3, as amended.  What an operation that needs credentials does on a
    client that is not authenticated (no credentials, or credentials whose
    access token is [None]) depends on the check it starts with:
    - [renew_token], [meter_readings], [month_summary] and [invoices] raise
      [AuthRequiredException], send nothing and leave the client and the
      world as they were;
    - [enode_chargers] does not raise: it returns the empty dict, sends
      nothing and leaves the client and the world as they were;
    - [period_usage_and_costs] with an empty [site_reference] raises
      [ValueError], since it looks at its argument first;
    - the remaining operations test only [self._auth is None].  Without
      credentials they raise [AuthRequiredException], send nothing and
      leave the client and the world as they were.  With credentials whose
      access token is [None] they pass the check: a statement before
      [_query] that raises (an empty [device_id], the default end date of
      [user_prices] on the last day of the calendar) ends the call with
      that exception and nothing sent; otherwise the call posts exactly one
      request, the one of its query, and that request has no
      [Authorization] header. *)
Theorem unauthenticated_call_sends_nothing (call : auth_call) st :
  is_authenticated (self st) = false →
  let run := perform server model decode Authentication_from_dict today call st in
  match guard_of call with
  | TokenGuard =>
      run = (Raise (new AuthRequiredException "Authentication is required."), st)
  | SkipGuard => run = (Return EmptyDict, st)
  | ArgumentGuard e => run = (Raise e, st)
  | CredentialsGuard message =>
      match _auth (self st) with
      | None => run = (Raise (new AuthRequiredException message), st)
      | Some credentials =>
          match built_query today (self st) call with
          | Raise e => run = (Raise e, st)
          | Return q =>
              posted (env run.2)
              = (posted (env st) ++ [request_of q None st])%list
              ∧ req_headers (request_of q None st) !! "Authorization" = None
          end
      end
  end.
Proof.
  intros Hauth run. subst run.
  destruct call; cbn [guard_of perform built_query];
    try (apply bind_raise; by apply require_authenticated_fails);
    try (unfold period_usage_and_costs;
         destruct (String.eqb site_reference ""); [reflexivity|]);
    try (destruct (_auth (self st)) as [credentials|] eqn:Hcreds;
         [|apply bind_raise; by apply require_credentials_missing];
         pose proof (λ message, require_credentials_present message st
                       ltac:(by rewrite Hcreds)) as Hpast;
         unfold me, UserSites, user_country, user, user_prices, smart_batteries,
           smart_battery_details, smart_battery_sessions;
         rewrite (bind_return _ _ _ _ _ (Hpast _))).
  - (* enode_chargers *)
    unfold enode_chargers, mbind, M_bind, get_self.
    rewrite Hauth. cbn [negb]. by rewrite orb_true_r.
  - (* me *)
    split; [|by apply no_token_no_bearer].
    change (lift (new_query _ _ _) ≫= ?k) with (k (me_query site_reference)).
    cbv beta. rewrite bind_ends by (intros ?; unfold typed; pure_step).
    apply query_posts_one.
  - (* UserSites *)
    split; [|by apply no_token_no_bearer].
    change (lift (new_query _ _ _) ≫= ?k) with (k user_sites_query).
    cbv beta. rewrite bind_ends by (intros ?; unfold typed; pure_step).
    apply query_posts_one.
  - (* user_country *)
    split; [|by apply no_token_no_bearer].
    change (lift (new_query _ _ _) ≫= ?k) with (k country_query).
    cbv beta. rewrite bind_ends by (intros ?; unfold typed; pure_step).
    apply query_posts_one.
  - (* user *)
    split; [|by apply no_token_no_bearer].
    change (lift (new_query _ _ _) ≫= ?k) with (k (me_query site_reference)).
    cbv beta. rewrite bind_ends by (intros ?; unfold typed; pure_step).
    apply query_posts_one.
  - (* user_prices *)
    cbv zeta.
    assert (Hrest : ∀ d : date,
      posted (env
        ((lift (new_query
                  "query MarketPrices($date: String!, $siteReference: String!)"
                  "MarketPrices"
                  (JObj {[ "date" := JStr (isoformat (default today start_date));
                           "siteReference" := JStr site_reference ]})) ≫= fun q =>
          _query server q None ≫= fun response =>
          typed model decode MarketPrices_from_userprices_dict response) st).2)
      = (posted (env st)
         ++ [request_of (user_prices_query site_reference (default today start_date))
               None st])%list).
    { intros _.
      change (lift (new_query _ _ _) ≫= ?k)
        with (k (user_prices_query site_reference (default today start_date))).
      cbv beta. rewrite bind_ends by (intros ?; unfold typed; pure_step).
      apply query_posts_one. }
    destruct end_date as [d|]; cbn [mbind result_bind rbind].
    + split; [|by apply no_token_no_bearer]. apply (Hrest d).
    + destruct (next_day today) as [d|e] eqn:Hnext; cbn [rbind].
      * split; [|by apply no_token_no_bearer].
        rewrite (bind_return _ _ _ d st) by reflexivity.
        apply (Hrest d).
      * by apply bind_raise.
  - (* period_usage_and_costs *)
    split; [|by apply no_token_no_bearer].
    change (lift (new_query _ _ _) ≫= ?k)
      with (k (period_usage_query site_reference start_date)).
    cbv beta. rewrite try_except_ends by pure_step.
    rewrite bind_ends by (intros ?; unfold typed; pure_step).
    apply query_posts_one.
  - (* smart_batteries *)
    split; [|by apply no_token_no_bearer].
    change (lift (new_query _ _ _) ≫= ?k) with (k smart_batteries_query).
    cbv beta. rewrite bind_ends by (intros ?; pure_step).
    apply query_posts_one.
  - (* smart_battery_details *)
    destruct (String.eqb device_id ""); [reflexivity|].
    split; [|by apply no_token_no_bearer].
    change (lift (new_query _ _ _) ≫= ?k) with (k (smart_battery_query device_id)).
    cbv beta. rewrite bind_ends by (intros ?; unfold typed; pure_step).
    apply query_posts_one.
  - (* smart_battery_sessions *)
    destruct (String.eqb device_id ""); [reflexivity|].
    split; [|by apply no_token_no_bearer].
    change (lift (new_query _ _ _) ≫= ?k)
      with (k (smart_battery_sessions_query device_id start_date end_date)).
    cbv beta. rewrite bind_ends by (intros ?; unfold typed; pure_step).
    apply query_posts_one.
Qed.

End GuardClaims.

(** C3: [meter_readings] and [me] on [FrankEnergie()], then [me] on
    [FrankEnergie(refresh_token="R")]. *)
Lemma unauthenticated_calls :
  perform unauthorized json keep tokens_of a_day (Call_meter_readings "site") anonymous
  = (Raise (new AuthRequiredException "Authentication is required."), anonymous)
  ∧ perform unauthorized json keep tokens_of a_day (Call_me None) anonymous
    = (Raise (new AuthRequiredException ""), anonymous)
  ∧ is_authenticated (self refresh_only) = false
  ∧ posted (env (perform unauthorized json keep tokens_of a_day (Call_me None)
                   refresh_only).2)
    = [request_of (me_query None) None refresh_only]
  ∧ req_headers (request_of (me_query None) None refresh_only) !! "Authorization"
    = None.
Proof.
  split; [|split; [|split; [reflexivity|]]].
  - apply (unauthenticated_call_sends_nothing unauthorized json keep tokens_of a_day
             (Call_meter_readings "site") anonymous).
    reflexivity.
  - apply (unauthenticated_call_sends_nothing unauthorized json keep tokens_of a_day
             (Call_me None) anonymous).
    reflexivity.
  - apply (unauthenticated_call_sends_nothing unauthorized json keep tokens_of a_day
             (Call_me None) refresh_only).
    reflexivity.
Defined.

(* ===================================================================== *)
(** * Further properties of the operation methods *)
(* ===================================================================== *)

Section OperationProperties.

Variable server : request → transport_outcome.
Variable model : Type.
Variable decode : decoder → json → result model.
Variable Authentication_from_dict : json → result Authentication.
Variable today : date.
Variable utc_today : date.

Implicit Types (st : state) (e : exception) (fields data : gmap string json).

Lemma renew_token_raise_keeps_credentials st e st' :
  renew_token server model Authentication_from_dict st = (Raise e, st') →
  same_credentials st st'.
Proof.
  unfold renew_token. intros H.
  apply bind_raise_inv in H as [H|(u & st1 & Hguard & H)].
  { unfold require_authenticated, mbind, M_bind, get_self in H.
    destruct (_ || _); injection H as _ <-; reflexivity || done. }
  assert (st1 = st) as ->.
  { unfold require_authenticated, mbind, M_bind, get_self in Hguard.
    destruct (_ || _); [discriminate|]. by injection Hguard as _ <-. }
  unfold mbind at 1, M_bind at 1, get_self in H.
  change (lift (new_query _ _ _) ≫= ?k) with (k (renew_token_query (self st))) in H.
  cbv beta in H.
  pose proof (steady_query server (renew_token_query (self st)) None st) as [_ Hsame].
  apply bind_raise_inv in H as [H|(response & st2 & Hquery & H)].
  { by rewrite H in Hsame. }
  rewrite Hquery in Hsame. cbn [snd] in Hsame.
  unfold lift, mbind, M_bind, get_self, set_self, mret, M_ret in H.
  destruct (Authentication_from_dict response); [discriminate|].
  by injection H as _ <-.
Qed.

Lemma login_raise_keeps_credentials username password st e st' :
  login server model Authentication_from_dict username password st = (Raise e, st') →
  same_credentials st st'.
Proof.
  unfold login. destruct (_ || _).
  { intros [= _ <-]. reflexivity. }
  change (lift (new_query _ _ _) ≫= ?k) with (k (login_query username password)).
  cbv beta. unfold try_except.
  pose proof (steady_query server (login_query username password) None st) as [_ Hsame].
  unfold mbind at 1, M_bind at 1.
  destruct (_query server (login_query username password) None st)
    as [[response|e1] st1]; cbn [snd] in Hsame.
  2:{ cbn [dispatch]. destruct (catches [Exception] e1); by intros [= _ <-]. }
  unfold lift, mbind, M_bind, get_self, set_self, mret, M_ret.
  destruct (negb (is_None response)); [|discriminate].
  destruct (getitem response "data") as [data|e1].
  2:{ cbn [dispatch]. destruct (catches [Exception] e1); by intros [= _ <-]. }
  destruct (negb (is_None data)); [|discriminate].
  destruct (Authentication_from_dict response) as [a|e1]; [discriminate|].
  cbn [dispatch]. destruct (catches [Exception] e1); by intros [= _ <-].
Qed.

(** No operation closes a session, forgets a request it has sent, drops the
    session the client holds or changes its ownership mark; and the
    credentials are replaced only by [login] and [renew_token], and only
    when these return normally. *)
Theorem operations_frame (st : state) :
  (∀ call : auth_call,
     let run := perform server model decode Authentication_from_dict today call st in
     extends st run.2
     ∧ (call ≠ Call_renew_token ∨ is_raise run.1 = true →
        _auth (self run.2) = _auth (self st)))
  ∧ (∀ call : open_call,
       let run := perform_open server model decode Authentication_from_dict
                    today utc_today call st in
       extends st run.2
       ∧ ((∀ username password, call ≠ Call_login username password)
          ∨ is_raise run.1 = true →
          _auth (self run.2) = _auth (self st))).
Proof.
  split.
  - intros call run. subst run.
    assert (call = Call_renew_token ∨ call ≠ Call_renew_token) as [->|Hcall]
      by (destruct call; (by left) || (by right)).
    + cbn [perform]. split; [apply extends_renew_token|].
      intros [?|Hraise]; [done|].
      destruct (renew_token _ _ _ st) as [[v|e] st'] eqn:Hrun; [discriminate|].
      by apply (renew_token_raise_keeps_credentials _ _ _ Hrun).
    + destruct (steady_auth_call server model decode Authentication_from_dict
                  today call Hcall st) as [Hext Hsame].
      split; [exact Hext|]. intros _. exact Hsame.
  - intros call run. subst run. destruct call as [username password|a b|a b];
      cbn [perform_open].
    + split; [apply extends_login|].
      intros [Hcall|Hraise]; [by destruct (Hcall username password)|].
      destruct (login _ _ _ _ _ st) as [[v|e] st'] eqn:Hrun; [discriminate|].
      by apply (login_raise_keeps_credentials _ _ _ _ _ Hrun).
    + destruct (steady_prices server model decode today a b st) as [Hext Hsame].
      split; [exact Hext|]. intros _. exact Hsame.
    + destruct (steady_be_prices server model decode utc_today a b st)
        as [Hext Hsame].
      split; [exact Hext|]. intros _. exact Hsame.
Qed.

End OperationProperties.

Section OperationResults.

Variable server : request → transport_outcome.
Variable model : Type.
Variable decode : decoder → json → result model.
Variable Authentication_from_dict : json → result Authentication.
Variable today : date.
Variable utc_today : date.

Implicit Types (st : state) (e : exception) (fields data : gmap string json).

Lemma nonempty_string s : s ≠ "" → String.eqb s "" = false.
Proof. intros H. by apply String.eqb_neq. Qed.

Lemma require_authenticated_passes st :
  is_authenticated (self st) = true → require_authenticated st = (Return tt, st).
Proof.
  intros Hauth. unfold require_authenticated, mbind, M_bind, get_self.
  rewrite Hauth. cbn [negb]. rewrite orb_false_r.
  by rewrite bool_decide_eq_false_2 by (by apply authenticated_has_credentials).
Qed.

(** A successful [login] stores the credentials that
    [Authentication.from_dict] builds from the response and returns them;
    from then on the composed headers carry [Authorization: Bearer] with
    the new access token. *)
Theorem login_stores_credentials username password st response (data : json) a st1 :
  username ≠ "" → password ≠ "" →
  _query server (login_query username password) None st = (Return response, st1) →
  getitem response "data" = Return data →
  data ≠ JNull →
  Authentication_from_dict response = Return a →
  login server model Authentication_from_dict username password st
    = (Return (Credentials (Some a)), with_credentials a st1)
  ∧ compose_headers (self (with_credentials a st1)) None !! "Authorization"
    = (fun token => "Bearer " ++ token) <$> authToken a.
Proof.
  intros Hu Hp Hquery Hdata Hnull Hauth. split.
  - unfold login. rewrite (nonempty_string _ Hu), (nonempty_string _ Hp).
    cbn [orb].
    change (lift (new_query _ _ _) ≫= ?k) with (k (login_query username password)).
    cbv beta. unfold try_except.
    rewrite (bind_return _ _ _ _ _ Hquery).
    assert (is_None response = false) as ->.
    { by destruct response. }
    cbn [negb]. unfold lift, mbind, M_bind. rewrite Hdata.
    assert (is_None data = false) as -> by (by destruct data).
    cbn [negb]. by rewrite Hauth.
  - unfold compose_headers, with_credentials. cbn [self _auth].
    destruct (authToken a) as [token|]; cbn [fmap option_fmap option_map].
    + apply lookup_insert_eq.
    + reflexivity.
Qed.

(** [login] on a response with an empty body: [_query] hands back the empty
    dict, the lookup of ["data"] fails, and [login] raises a bare
    [KeyError]; the credentials stay as they were. *)
Theorem login_on_empty_body username password st status detail v :
  username ≠ "" → password ≠ "" →
  status < 400 →
  server (request_of (login_query username password) None st)
    = Responded status detail (Parsed v) →
  truthy v = false →
  login server model Authentication_from_dict username password st
    = (Raise (new KeyError "'data'"),
       after_post (login_query username password) None st).
Proof.
  intros Hu Hp Hstatus Hserver Hfalsy.
  unfold login. rewrite (nonempty_string _ Hu), (nonempty_string _ Hp).
  cbn [orb].
  change (lift (new_query _ _ _) ≫= ?k) with (k (login_query username password)).
  cbv beta. unfold try_except.
  assert (Hquery : _query server (login_query username password) None st
                   = (Return (JObj ∅), after_post (login_query username password) None st)).
  { rewrite query_run, Hserver.
    destruct (Z.leb_spec 400 status) as [?|_]; [lia|]. by rewrite Hfalsy. }
  rewrite (bind_return _ _ _ _ _ Hquery). reflexivity.
Qed.

(** [login] on a response whose [data] is [null]: nothing is stored and the
    credentials that the client already had, if any, are returned. *)
Theorem login_with_null_data username password st fields st1 :
  username ≠ "" → password ≠ "" →
  _query server (login_query username password) None st
    = (Return (JObj fields), st1) →
  fields !! "data" = Some JNull →
  login server model Authentication_from_dict username password st
    = (Return (Credentials (_auth (self st1))), st1)
  ∧ _auth (self st1) = _auth (self st).
Proof.
  intros Hu Hp Hquery Hdata. split.
  - unfold login. rewrite (nonempty_string _ Hu), (nonempty_string _ Hp).
    cbn [orb].
    change (lift (new_query _ _ _) ≫= ?k) with (k (login_query username password)).
    cbv beta. unfold try_except.
    rewrite (bind_return _ _ _ _ _ Hquery).
    cbn [is_None negb]. unfold lift, mbind, M_bind. cbn [getitem].
    by rewrite Hdata.
  - pose proof (steady_query server (login_query username password) None st)
      as [_ Hsame].
    by rewrite Hquery in Hsame.
Qed.

(** [renew_token] on an authenticated client sends the two tokens it holds;
    when the pipeline returns, the credentials become what
    [Authentication.from_dict] builds from the response, and when that
    fails the failure is raised and the credentials are unchanged. *)
Theorem renew_token_replaces_credentials st response st1 :
  is_authenticated (self st) = true →
  _query server (renew_token_query (self st)) None st = (Return response, st1) →
  renew_token server model Authentication_from_dict st
  = match Authentication_from_dict response with
    | Return a => (Return (Credentials (Some a)), with_credentials a st1)
    | Raise e => (Raise e, st1)
    end.
Proof.
  intros Hauth Hquery. unfold renew_token.
  rewrite (bind_return _ _ _ _ _ (require_authenticated_passes st Hauth)).
  rewrite (bind_return get_self _ st (self st) st eq_refl).
  change (lift (new_query _ _ _) ≫= ?k) with (k (renew_token_query (self st))).
  cbv beta. rewrite (bind_return _ _ _ _ _ Hquery).
  unfold lift, mbind, M_bind, get_self, set_self, mret, M_ret.
  by destruct (Authentication_from_dict response).
Qed.


(** [enode_chargers] never raises an [Exception], whatever the client, the
    server and the deserialiser do. *)
Theorem enode_chargers_never_raises site_reference start_date st e st' :
  enode_chargers server model decode site_reference start_date st = (Raise e, st') →
  isinstance e Exception = false.
Proof.
  unfold enode_chargers, mbind at 1, M_bind at 1, get_self.
  destruct (_ || _); [discriminate|].
  change (lift (new_query _ _ _) ≫= ?k) with (k (enode_chargers_query site_reference)).
  cbv beta. rewrite try_except_Exception.
  destruct ((_query _ _ _ ≫= _) st) as [[v|e1] st1]; [discriminate|].
  destruct (isinstance e1 Exception) eqn:He1; [discriminate|].
  by intros [= <- _].
Qed.

End OperationResults.

Section BatteryProperties.

Variable server : request → transport_outcome.
Variable model : Type.
Variable decode : decoder → json → result model.
Variable utc_today : date.

Implicit Types (st : state) (e : exception) (fields data : gmap string json).

Lemma bind_lift_return {A B} (a : A) (k : A → M B) st :
  (lift (Return a) ≫= k) st = k a st.
Proof. reflexivity. Qed.

(** [smart_batteries] on an envelope that got past the classifier: when the
    envelope still carries a non-empty [errors] value (messages that the
    classifier only logged) the result is the empty [SmartBatteries], even
    if [data] holds batteries; otherwise the batteries are deserialised in
    array order, and the first failure of the deserialiser decides: a
    [KeyError], [ValueError] or [TypeError] gives the empty
    [SmartBatteries], any other exception is raised. *)
Theorem smart_batteries_result st fields st1 :
  _auth (self st) ≠ None →
  _query server smart_batteries_query None st = (Return (JObj fields), st1) →
  fields ≠ ∅ →
  (truthy (default JNull (fields !! "errors")) = true →
   smart_batteries server model decode st = (Return (SmartBatteries []), st1))
  ∧ (∀ data (items : list json),
       truthy (default JNull (fields !! "errors")) = false →
       fields !! "data" = Some (JObj data) →
       data !! "smartBatteries" = Some (JArr items) →
       items ≠ [] →
       smart_batteries server model decode st
       = match mapM (decode SmartBattery_from_dict) items with
         | Return batteries => (Return (SmartBatteries batteries), st1)
         | Raise e =>
             if catches [KeyError; ValueError; TypeError] e
             then (Return (SmartBatteries []), st1)
             else (Raise e, st1)
         end).
Proof.
  intros Hcreds Hquery Hne.
  assert (Hstart : smart_batteries server model decode st
    = (if negb (truthy (JObj fields)) then mret (SmartBatteries [])
       else
         lift (get (JObj fields) "errors") ≫= fun errors =>
         if truthy errors then mret (SmartBatteries [])
         else
           lift (get (JObj fields) "data") ≫= fun d : json =>
           if negb (truthy d) then mret (SmartBatteries [])
           else
             lift (get_or_empty (JObj fields) "data") ≫= fun d : json =>
             lift (get d "smartBatteries") ≫= fun batteries_data =>
             if negb (truthy batteries_data) then mret (SmartBatteries [])
             else
               try_except
                 (lift (iterate batteries_data) ≫= fun items =>
                  lift (mapM (decode SmartBattery_from_dict) items) ≫= fun l =>
                  mret (SmartBatteries l))
                 [ ([KeyError; ValueError; TypeError],
                    fun err => mret (SmartBatteries [])) ]) st1).
  { unfold smart_batteries.
    rewrite (bind_return _ _ _ _ _ (require_credentials_present "" st Hcreds)).
    change (lift (new_query _ _ _) ≫= ?k) with (k smart_batteries_query).
    cbv beta. by rewrite (bind_return _ _ _ _ _ Hquery). }
  rewrite Hstart. clear Hstart.
  assert (Htruthy : truthy (JObj fields) = true).
  { cbn. by rewrite bool_decide_eq_false_2. }
  rewrite Htruthy. cbn [negb get get_or_empty].
  rewrite bind_lift_return.
  split.
  - by intros ->.
  - intros data items -> Hdata Hitems Hitems_ne.
    assert (Htruthy' : truthy (JObj data) = true).
    { cbn. rewrite bool_decide_eq_false_2; [done|].
      intros ->. by rewrite lookup_empty in Hitems. }
    rewrite Hdata. cbn [default from_option id].
    rewrite bind_lift_return, Htruthy'. cbn [negb].
    rewrite bind_lift_return. cbn [get]. rewrite Hitems.
    cbn [default from_option id]. rewrite bind_lift_return.
    replace (truthy (JArr items)) with true by (by destruct items).
    cbn [negb]. unfold try_except. cbn [iterate]. rewrite bind_lift_return.
    unfold lift, mbind, M_bind.
    destruct (mapM (decode SmartBattery_from_dict) items) as [l|e]; [done|].
    cbn [dispatch].
    by destruct (catches [KeyError; ValueError; TypeError] e).
Qed.

(** [smart_battery_details] on an envelope whose [data] is an object: when
    [smartBattery] or [smartBatterySummary] is missing it raises
    [AuthException]; when both are there the deserialiser receives exactly
    these two entries and its outcome is the outcome of the call. *)
Theorem smart_battery_details_result device_id st fields data st1 :
  _auth (self st) ≠ None →
  device_id ≠ "" →
  _query server (smart_battery_query device_id) None st
    = (Return (JObj fields), st1) →
  fields !! "data" = Some (JObj data) →
  smart_battery_details server model decode device_id st
  = match data !! "smartBattery", data !! "smartBatterySummary" with
    | Some battery, Some summary =>
        match decode SmartBatteryDetails_from_dict
                (JObj {[ "smartBattery" := battery;
                         "smartBatterySummary" := summary ]}) with
        | Return m => (Return (Typed m), st1)
        | Raise e => (Raise e, st1)
        end
    | _, _ =>
        (Raise (new AuthException
                  "Incomplete response data for smart battery details"), st1)
    end.
Proof.
  intros Hcreds Hdevice Hquery Hdata. unfold smart_battery_details.
  rewrite (bind_return _ _ _ _ _ (require_credentials_present "" st Hcreds)).
  rewrite (proj2 (String.eqb_neq device_id "") Hdevice).
  change (lift (new_query _ _ _) ≫= ?k) with (k (smart_battery_query device_id)).
  cbv beta. rewrite (bind_return _ _ _ _ _ Hquery).
  cbn [is_None]. unfold typed, lift, mbind, M_bind, mret, M_ret, raise.
  cbn [getitem Json.contains]. rewrite Hdata. cbn [Json.contains].
  destruct (data !! "smartBattery") as [battery|] eqn:Hbattery.
  2:{ by rewrite bool_decide_eq_false_2 by (by intros [? ?]). }
  rewrite bool_decide_eq_true_2 by eauto. cbn [negb].
  destruct (data !! "smartBatterySummary") as [summary|] eqn:Hsummary.
  2:{ by rewrite bool_decide_eq_false_2 by (by intros [? ?]). }
  rewrite bool_decide_eq_true_2 by eauto. cbn [negb getitem].
  rewrite Hbattery, Hsummary.
  by destruct (decode SmartBatteryDetails_from_dict _).
Qed.

Lemma next_day_overflow (d : date) :
  valid_date d = true →
  is_raise (next_day d) = true ↔ d = mkDate 9999 12 31.
Proof.
  destruct d as [y m d]. unfold valid_date, next_day. cbn [year month day].
  intros Hvalid. split.
  - repeat case_match; try discriminate. intros _.
    assert (m = 12) by lia. subst m.
    assert (y = 9999) by lia. subst y.
    change (days_in_month 9999 12) with 31 in *.
    f_equal. lia.
  - intros [= -> -> ->]. reflexivity.
Qed.

Lemma next_day_raises (d : date) e :
  next_day d = Raise e → e = new OverflowError "date value out of range".
Proof. unfold next_day. repeat case_match; congruence. Qed.

(** [be_prices] needs no credentials.  It computes the default end date
    first: when [end_date] is omitted and the start date (the given one,
    or else the current UTC date) has no next day, which for a date of the
    calendar means 9999-12-31, it raises [OverflowError] and sends
    nothing.  In every other case it posts exactly one request, for the
    start date, with the header [x-country: BE] and with the bearer header
    exactly when the client has an access token, and its result is the
    deserialised response of the pipeline. *)
Theorem be_prices_request (start_date end_date : option date) st :
  let day := default utc_today start_date in
  let q := be_prices_query day in
  let headers : gmap string string := {[ "x-country" := "BE" ]} in
  let run := be_prices server model decode utc_today start_date end_date st in
  (if bool_decide (end_date = None) && is_raise (next_day day) then
     run = (Raise (new OverflowError "date value out of range"), st)
   else
     run = match _query server q (Some headers) st with
           | (Return response, st1) =>
               match decode MarketPrices_from_be_dict response with
               | Return m => (Return (Typed m), st1)
               | Raise e => (Raise e, st1)
               end
           | (Raise e, st1) => (Raise e, st1)
           end
     ∧ posted (env run.2)
       = (posted (env st) ++ [request_of q (Some headers) st])%list)
  ∧ (valid_date day = true →
     is_raise (next_day day) = true ↔ day = mkDate 9999 12 31)
  ∧ (_query server q (Some headers) st).2 = after_post q (Some headers) st
  ∧ req_headers (request_of q (Some headers) st) !! "x-country" = Some "BE"
  ∧ req_headers (request_of q (Some headers) st) !! "Authorization"
    = (fun token => "Bearer " ++ token) <$> access_token (self st).
Proof.
  intros day q headers run. subst run q headers.
  split; [|split; [|split; [|split]]].
  - assert (Hrest : ∀ d : date,
      let rest :=
        (lift (new_query "query MarketPrices ($date: String!)" "MarketPrices"
                 (JObj {[ "date" := JStr (isoformat day) ]})) ≫= fun q =>
         _query server q (Some {[ "x-country" := "BE" ]}) ≫= fun response =>
         typed model decode MarketPrices_from_be_dict response) st in
      rest = match _query server (be_prices_query day)
                     (Some {[ "x-country" := "BE" ]}) st with
             | (Return response, st1) =>
                 match decode MarketPrices_from_be_dict response with
                 | Return m => (Return (Typed m), st1)
                 | Raise e => (Raise e, st1)
                 end
             | (Raise e, st1) => (Raise e, st1)
             end
      ∧ posted (env rest.2)
        = (posted (env st)
           ++ [request_of (be_prices_query day)
                 (Some {[ "x-country" := "BE" ]}) st])%list).
    { intros _ rest. subst rest.
      change (lift (new_query _ _ _) ≫= ?k) with (k (be_prices_query day)).
      cbv beta. split.
      - unfold typed, lift, mbind, M_bind, mret, M_ret.
        destruct (_query server _ _ st) as [[response|e] st1]; [|done].
        by destruct (decode MarketPrices_from_be_dict response).
      - rewrite bind_ends by (intros ?; unfold typed; pure_step).
        apply query_posts_one. }
    unfold be_prices. cbv zeta. fold day.
    destruct end_date as [d|].
    + rewrite bool_decide_eq_false_2 by done. cbn [andb]. apply (Hrest d).
    + rewrite bool_decide_eq_true_2 by done. cbn [andb].
      destruct (next_day day) as [d|e] eqn:Hnext; cbn [is_raise].
      * rewrite (bind_return _ _ _ d st) by reflexivity. apply (Hrest d).
      * apply bind_raise. unfold lift.
        by rewrite (next_day_raises _ _ Hnext).
  - apply next_day_overflow.
  - by rewrite query_run.
  - unfold request_of, compose_headers. cbn [req_headers].
    rewrite bool_decide_eq_false_2 by (by intros H%(f_equal (.!! "x-country"))).
    cbn [negb]. apply lookup_union_Some_l. apply lookup_singleton_eq.
  - unfold request_of, compose_headers, access_token. cbn [req_headers].
    rewrite bool_decide_eq_false_2 by (by intros H%(f_equal (.!! "x-country"))).
    cbn [negb]. rewrite lookup_union_r by (by apply lookup_singleton_ne).
    destruct (_auth (self st)) as [[[token|] ?]|]; cbn.
    + apply lookup_insert_eq.
    + reflexivity.
    + reflexivity.
Qed.

End BatteryProperties.

(* ===================================================================== *)
(** * Further properties of the client's construction *)
(* ===================================================================== *)

Section ConstructionProperties.

(** [FrankEnergie(clientsession, auth_token, refresh_token)]: the client
    takes responsibility for the session exactly when none is supplied,
    and it counts as authenticated exactly when an [auth_token] is given
    ([None] excluded) and at least one of the two tokens is a non-empty
    string.  So a refresh token alone does not authenticate, and an empty
    [auth_token] together with a refresh token does. *)
Theorem constructed_client (clientsession : option session)
    (auth_token refresh_token : option string) :
  let c := init clientsession auth_token refresh_token in
  _session c = clientsession
  ∧ (_close_session c = true ↔ clientsession = None)
  ∧ (is_Some (_auth c) ↔
     truthy_str auth_token = true ∨ truthy_str refresh_token = true)
  ∧ (is_authenticated c = true ↔
     is_Some auth_token
     ∧ (truthy_str auth_token = true ∨ truthy_str refresh_token = true))
  ∧ (is_authenticated c = true →
     access_token c = auth_token).
Proof.
  intros c. subst c. unfold init, is_authenticated, access_token.
  cbn [_session _close_session _auth].
  split; [done|]. split.
  { by rewrite bool_decide_eq_true. }
  destruct (truthy_str auth_token) eqn:Ha, (truthy_str refresh_token) eqn:Hr;
    cbn [orb]; destruct auth_token as [token|]; try discriminate Ha;
    cbn [authToken mbind option_bind];
    repeat split; intros; try done; eauto;
    repeat match goal with
    | H : _ ∧ _ |- _ => destruct H
    | H : _ ∨ _ |- _ => destruct H
    | H : is_Some None |- _ => by destruct H
    | H : bool_decide _ = true |- _ => apply bool_decide_eq_true in H
    | |- bool_decide _ = true => apply bool_decide_eq_true
    end; try done.
Qed.

End ConstructionProperties.

(* ===================================================================== *)
(** * Further properties of the query builder *)
(* ===================================================================== *)

Section QueryProperties.

Import Heap.

Implicit Types (h : list (gmap string value)) (q : Heap.FrankEnergieQuery)
  (vars : gmap string value).

(** Serialising does not depend on objects that are added to the store
    afterwards. *)
Lemma dumps_extend fuel h d v j :
  dumps fuel h v = Some j → dumps fuel (h ++ [d]) v = Some j.
Proof.
  revert v j. induction fuel as [|fuel IH]; intros [x|l] j; cbn; try done.
  destruct (h !! l) as [fields|] eqn:Hl; [|done]. cbn.
  rewrite (lookup_app_l_Some _ _ _ _ Hl). cbn.
  destruct (mapM _ (map_to_list fields)) as [items|] eqn:Hitems; [|done].
  cbn. intros [= <-].
  enough (mapM (fun kv : string * value =>
                  j ← dumps fuel (h ++ [d]) kv.2; Some (kv.1, j))
               (map_to_list fields) = Some items) as -> by done.
  apply mapM_Some. apply mapM_Some in Hitems.
  eapply Forall2_impl; [exact Hitems|].
  intros [k v] kj. cbn. destruct (dumps fuel h v) as [j|] eqn:Hv; [|done].
  cbn. intros [= <-]. by rewrite (IH _ _ Hv).
Qed.

(** Two addresses that hold the same dict serialise alike, provided the
    values reachable from them do. *)
Lemma dumps_same_object fuel h h' l l' (fields : gmap string value) j :
  h !! l = Some fields →
  h' !! l' = Some fields →
  dumps (S fuel) h (Ref l) = Some j →
  (∀ v j, dumps fuel h v = Some j → dumps fuel h' v = Some j) →
  dumps (S fuel) h' (Ref l') = Some j.
Proof.
  intros Hl Hl' Hdumps Hmono. revert Hdumps. cbn [dumps].
  rewrite Hl, Hl'. cbn.
  destruct (mapM _ (map_to_list fields)) as [items|] eqn:Hitems; [|done].
  cbn. intros [= <-].
  enough (mapM (fun kv : string * value =>
                  j ← dumps fuel h' kv.2; Some (kv.1, j))
               (map_to_list fields) = Some items) as -> by done.
  apply mapM_Some. apply mapM_Some in Hitems.
  eapply Forall2_impl; [exact Hitems|].
  intros [k v] kj. cbn. destruct (dumps fuel h v) as [j|] eqn:Hv; [|done].
  cbn. intros [= <-]. by rewrite (Hmono _ _ Hv).
Qed.

(** [to_dict] can be called again and again: each call makes a new dict,
    leaves every existing object as it is, and the payload that is
    serialised from the query is the same after the call as before. *)
Theorem to_dict_is_repeatable q h j :
  transmitted_payload q h = Some j →
  (Heap.to_dict q h).1 = List.length h
  ∧ (∀ l d, h !! l = Some d → (Heap.to_dict q h).2 !! l = Some d)
  ∧ transmitted_payload q (Heap.to_dict q h).2 = Some j.
Proof.
  unfold transmitted_payload, Heap.to_dict, alloc. cbn [fst snd].
  intros Hpayload. split; [done|]. split.
  { intros l d Hl. by apply lookup_app_l_Some. }
  eapply dumps_same_object; [| |exact Hpayload|].
  - by apply list_lookup_middle.
  - apply list_lookup_middle. by rewrite length_app, Nat.add_comm.
  - intros v j'. apply dumps_extend.
Qed.

(** Without a [password] among the variables [sanitize_query] is [to_dict]:
    it returns the new dict and changes no object. *)
Theorem sanitize_query_without_password q h vars :
  h !! Heap.variables q = Some vars →
  vars !! "password" = None →
  Heap.sanitize_query q h
  = (Return (Heap.to_dict q h).1, (Heap.to_dict q h).2).
Proof.
  intros Hvars Hpw.
  unfold Heap.sanitize_query, Heap.to_dict, alloc, load, Heap.contains.
  cbn [fst snd].
  rewrite list_lookup_middle by done.
  rewrite to_dict_variables.
  rewrite (lookup_app_l_Some _ _ _ _ Hvars).
  rewrite Hpw. by rewrite bool_decide_eq_false_2 by (by intros [? ?]).
Qed.

End QueryProperties.

(* ===================================================================== *)
(** * Further properties of the date helpers *)
(* ===================================================================== *)

Section DateProperties.

(** Given a [date], the format helper and [_validate_not_future_date]
    agree: both accept exactly the dates that are not after the current
    UTC date. *)
Theorem date_argument_agrees_with_future_check (utc_today d : date) :
  valid_date d = true →
  (_validate_start_date_format utc_today (inr d) = Return tt
   ↔ _validate_not_future_date utc_today d = Return tt)
  ∧ (_validate_not_future_date utc_today d = Return tt
     ↔ date_gt d utc_today = false).
Proof.
  intros Hvalid. rewrite (start_date_as_date utc_today d Hvalid).
  unfold _validate_not_future_date.
  destruct (date_gt d utc_today); split; split; done.
Qed.

(** A year or a year and month is only compared with the pattern: any four
    digits and any two digits for the month pass, whatever the current
    date, so that ["2023-13"] and ["9999"] are accepted. *)
Theorem partial_dates_are_not_checked (utc_today : date) (s : string) :
  is_YYYY s = true ∨ is_YYYY_MM s = true →
  _validate_start_date_format utc_today (inl s) = Return tt.
Proof.
  intros Hlayout. unfold _validate_start_date_format.
  rewrite fullmatch_start_date_pattern.
  destruct (layout_lengths s) as (H4 & H7 & _).
  assert (Hlen : (String.length s =? 10)%nat = false).
  { apply Nat.eqb_neq.
    destruct Hlayout as [H|H]; [rewrite (H4 H)|rewrite (H7 H)]; lia. }
  rewrite Hlen.
  destruct Hlayout as [-> | ->]; by rewrite ?orb_true_r.
Qed.

End DateProperties.

(* ===================================================================== *)
(** * Failures that the pipeline does not translate *)
(* ===================================================================== *)

Section PassThrough.

Variable server : request → transport_outcome.
Variable model : Type.
Variable decode : decoder → json → result model.

Implicit Types (q : FrankEnergieQuery) (st : state) (e : exception).

Lemma not_an_Exception e :
  isinstance e Exception = false → leaves_query e = e.
Proof.
  unfold leaves_query, catches, isinstance.
  destruct (exc_type e); vm_compute issubclass; cbn [existsb orb];
    by intros.
Qed.

(** A body that cannot be parsed: when [resp.json()] fails with one of
    aiohttp's client errors ([ContentTypeError] for a wrong content type)
    [_query] raises [NetworkError]; when it fails with a
    [JSONDecodeError], which is a [ValueError], that error leaves [_query]
    as it is. *)
Theorem unparsable_body q extra st status detail e :
  status < 400 →
  server (request_of q extra st) = Responded status detail (Unparsable e) →
  (isinstance e ClientError = true →
   _query server q extra st
   = (Raise (new NetworkError ("Request failed: " ++ exc_str e)),
      after_post q extra st))
  ∧ (exc_type e = JSONDecodeError →
     _query server q extra st = (Raise e, after_post q extra st)).
Proof.
  intros Hstatus Hserver. rewrite query_run, Hserver.
  destruct (Z.leb_spec 400 status) as [?|_]; [lia|].
  unfold leaves_query, catches, isinstance. cbn [existsb]. split.
  - intros ->. by rewrite orb_true_r.
  - intros ->. vm_compute issubclass. reflexivity.
Qed.

(** A failure of the transport that is not an [Exception], such as the
    cancellation of the task, is never swallowed or rewrapped: it leaves
    [_query] unchanged, and with it the operations that catch
    [Exception], [enode_chargers] and [month_summary]. *)
Theorem cancellation_passes_through site_reference start_date st e :
  is_authenticated (self st) = true →
  isinstance e Exception = false →
  (∀ q : FrankEnergieQuery, server (request_of q None st) = Failed e) →
  (∀ q, _query server q None st = (Raise e, after_post q None st))
  ∧ enode_chargers server model decode site_reference start_date st
    = (Raise e, after_post (enode_chargers_query site_reference) None st)
  ∧ month_summary server model decode site_reference st
    = (Raise e, after_post (month_summary_query site_reference) None st).
Proof.
  intros Hauth He Hserver.
  assert (Hquery : ∀ q, _query server q None st = (Raise e, after_post q None st)).
  { intros q. by rewrite query_run, Hserver, (not_an_Exception _ He). }
  split; [exact Hquery|]. split.
  - unfold enode_chargers, mbind at 1, M_bind at 1, get_self.
    rewrite Hauth. cbn [negb]. rewrite orb_false_r.
    rewrite bool_decide_eq_false_2 by (by apply authenticated_has_credentials).
    change (lift (new_query _ _ _) ≫= ?k) with (k (enode_chargers_query site_reference)).
    cbv beta. rewrite try_except_Exception.
    by rewrite (bind_raise _ _ _ _ _ (Hquery _)), He.
  - unfold month_summary.
    rewrite (bind_return _ _ _ _ _ (require_authenticated_passes st Hauth)).
    change (lift (new_query _ _ _) ≫= ?k) with (k (month_summary_query site_reference)).
    cbv beta. rewrite try_except_Exception.
    by rewrite (bind_raise _ _ _ _ _ (Hquery _)), He.
Qed.

End PassThrough.

Section ShapeProperties.

Variable server : request → transport_outcome.

Implicit Types (q : FrankEnergieQuery) (extra : option (gmap string string))
  (st : state) (fields : gmap string json) (e : exception).

(** Whatever the server sends, a value that [_query] returns is a JSON
    object: the empty dict for a falsy body, and otherwise the body, which
    has passed the classifier's [response.get].  The callers' tests for
    [None] therefore never fire. *)
Theorem query_returns_an_object q extra st v st' :
  _query server q extra st = (Return v, st') →
  ∃ fields, v = JObj fields.
Proof.
  rewrite query_run.
  destruct (server _) as [e|status detail [body|e]]; try discriminate;
    destruct (400 <=? status); try discriminate.
  destruct (truthy body) eqn:Htruthy; cbn [negb].
  - destruct (_handle_errors body) as [[]|e] eqn:Hclass; [|discriminate].
    intros [= <- _]. destruct body as [| | | | |fields]; eauto;
      unfold _handle_errors in Hclass; rewrite Htruthy in Hclass;
      discriminate Hclass.
  - intros [= <- _]. eauto.
Qed.

Lemma classify_non_object entry :
  (∀ fields, entry ≠ JObj fields) →
  ∃ message, classify entry = Raise (new TypeError message).
Proof.
  intros Hshape. unfold classify, mbind, result_bind, rbind.
  destruct entry as [| | | | |fields]; cbn [getitem]; eauto.
  by destruct (Hshape fields).
Qed.

(** An [errors] value that is truthy but not an array (an object, a
    string, a number, [true]) makes the classifier raise [TypeError]:
    either it cannot be iterated, or iterating it yields strings, which
    have no ["message"] item. *)
Theorem errors_that_are_no_array_raise_TypeError fields (errors : json) :
  fields !! "errors" = Some errors →
  truthy errors = true →
  (∀ entries, errors ≠ JArr entries) →
  ∃ message, _handle_errors (JObj fields) = Raise (new TypeError message).
Proof.
  intros Herrors Htruthy Hshape.
  unfold _handle_errors.
  assert (Hresponse : truthy (JObj fields) = true).
  { cbn. rewrite bool_decide_eq_false_2; [done|].
    intros ->. by rewrite lookup_empty in Herrors. }
  rewrite Hresponse. cbn [negb get]. unfold mbind, result_bind, rbind.
  rewrite Herrors. cbn [default from_option id]. rewrite Htruthy. cbn [negb].
  destruct errors as [|b|n|s|entries|m]; cbn [iterate]; eauto.
  - (* a string: its characters *)
    destruct s as [|a s]; [discriminate Htruthy|].
    cbn. eauto.
  - by destruct (Hshape entries).
  - (* an object: its keys *)
    destruct (map_to_list m) as [|[k v] rest] eqn:Hlist.
    + apply map_to_list_empty_iff in Hlist. subst m. discriminate Htruthy.
    + cbn. eauto.
Qed.

(** An error entry that is not an object (a string, [null], a number, a
    list), once the classifier reaches it, makes [_handle_errors] raise
    [TypeError], and [_query] raises it unchanged. *)
Theorem non_object_entry_raises_TypeError
    q extra st status detail fields (pre post : list json) (entry : json) :
  status < 400 →
  server (request_of q extra st) = Responded status detail (Parsed (JObj fields)) →
  fields !! "errors" = Some (JArr (pre ++ entry :: post)) →
  Forall only_logged pre →
  (∀ m, entry ≠ JObj m) →
  ∃ message,
    _handle_errors (JObj fields) = Raise (new TypeError message)
    ∧ _query server q extra st
      = (Raise (new TypeError message), after_post q extra st).
Proof.
  intros Hstatus Hserver Herrors Hpre Hshape.
  destruct (classify_non_object entry Hshape) as [message Hentry].
  exists message.
  assert (Hclass : _handle_errors (JObj fields) = Raise (new TypeError message)).
  { rewrite (handle_errors_array _ _ Herrors), (for_each_skip _ _ Hpre).
    cbn [for_each]. by rewrite Hentry. }
  split; [exact Hclass|].
  rewrite query_run, Hserver.
  destruct (Z.leb_spec 400 status) as [?|_]; [lia|].
  assert (Htruthy : truthy (JObj fields) = true).
  { cbn. rewrite bool_decide_eq_false_2; [done|].
    intros ->. by rewrite lookup_empty in Herrors. }
  by rewrite Htruthy, Hclass.
Qed.

End ShapeProperties.

Lemma query_returns_an_object_example :
  ∃ fields, envelope_of [no_prices] = JObj fields.
Proof.
  apply (query_returns_an_object (answers 200 "" (envelope_of [no_prices]))
           country_query None logged_in (envelope_of [no_prices])
           (after_post country_query None logged_in)).
  vm_compute. reflexivity.
Defined.

Lemma errors_object_example :
  ∃ message,
    _handle_errors (JObj {[ "errors" := JObj {[ "message" := JStr "boom" ]} ]})
    = Raise (new TypeError message).
Proof.
  apply (errors_that_are_no_array_raise_TypeError
           {[ "errors" := JObj {[ "message" := JStr "boom" ]} ]}
           (JObj {[ "message" := JStr "boom" ]}));
    [reflexivity|reflexivity|discriminate].
Defined.

Lemma non_object_entry_example :
  ∃ message,
    _handle_errors (envelope_of [base_missing; JStr "boom"])
    = Raise (new TypeError message)
    ∧ _query (answers 200 "" (envelope_of [base_missing; JStr "boom"]))
        country_query None logged_in
      = (Raise (new TypeError message), after_post country_query None logged_in).
Proof.
  apply (non_object_entry_raises_TypeError
           (answers 200 "" (envelope_of [base_missing; JStr "boom"]))
           country_query None logged_in 200 ""
           {[ "errors" := JArr [base_missing; JStr "boom"] ]}
           [base_missing] [] (JStr "boom")).
  - lia.
  - reflexivity.
  - reflexivity.
  - constructor; [|constructor].
    exists "'Base' niet aanwezig in prijzen verzameling". split; reflexivity.
  - discriminate.
Defined.

(* ===================================================================== *)
(** * The further properties on concrete inputs *)
(* ===================================================================== *)

Lemma falsy_body_example :
  _query (answers 200 "" (JArr [])) country_query None logged_in
  = (Return (JObj ∅), after_post country_query None logged_in).
Proof.
  apply (falsy_body_gives_empty_dict (answers 200 "" (JArr [])) country_query
           None logged_in 200 "" (JArr [])); [lia|reflexivity|reflexivity].
Defined.

Lemma body_without_errors_example :
  _query (answers 200 "" (JObj {[ "data" := JObj {[ "me" := JNull ]} ]}))
    country_query None logged_in
  = (Return (JObj {[ "data" := JObj {[ "me" := JNull ]} ]}),
     after_post country_query None logged_in).
Proof.
  apply (body_without_errors_is_returned
           (answers 200 "" (JObj {[ "data" := JObj {[ "me" := JNull ]} ]}))
           country_query None logged_in 200 "").
  - lia.
  - reflexivity.
  - intros H. apply (f_equal (.!! "data")) in H. vm_compute in H. discriminate.
  - reflexivity.
Defined.

Lemma non_object_body_example :
  ∃ message,
    _query (answers 200 "" (JArr [JNull])) country_query None logged_in
    = (Raise (new AttributeError message),
       after_post country_query None logged_in).
Proof.
  apply (non_object_body_raises_AttributeError (answers 200 "" (JArr [JNull]))
           country_query None logged_in 200 "" (JArr [JNull]));
    [lia|reflexivity|reflexivity|discriminate].
Defined.

Lemma unrecognised_errors_example :
  _query (answers 200 "" (envelope_of [entry_of "rate limited"; base_missing]))
    country_query None logged_in
  = (Return (envelope_of [entry_of "rate limited"; base_missing]),
     after_post country_query None logged_in).
Proof.
  apply (unrecognised_errors_are_returned
           (answers 200 "" (envelope_of [entry_of "rate limited"; base_missing]))
           country_query None logged_in 200 ""
           {[ "errors" := JArr [entry_of "rate limited"; base_missing] ]}
           [entry_of "rate limited"; base_missing]).
  - lia.
  - reflexivity.
  - reflexivity.
  - repeat constructor.
    + exists "rate limited". split; [reflexivity|].
      split; [|split; reflexivity].
      unfold raising_messages. rewrite !elem_of_cons, elem_of_nil.
      intros H. repeat destruct H as [H|H]; discriminate || done.
    + exists "'Base' niet aanwezig in prijzen verzameling".
      split; [reflexivity|]. split; [|split; reflexivity].
      unfold raising_messages. rewrite !elem_of_cons, elem_of_nil.
      intros H. repeat destruct H as [H|H]; discriminate || done.
Defined.

Lemma exceptions_of_a_parsed_body_example :
  AuthRequiredException
  ∈ [ NetworkError; AuthException; AuthRequiredException;
      SmartTradingNotEnabledException; SmartChargingNotEnabledException;
      TypeError; AttributeError ].
Proof.
  apply (exceptions_of_a_parsed_body
           (answers 200 "" (envelope_of [auth_required])) country_query None
           logged_in 200 "" (envelope_of [auth_required])
           (new AuthRequiredException "Authentication required")
           (after_post country_query None logged_in));
    [lia|reflexivity|vm_compute; reflexivity].
Defined.

Lemma non_string_message_example :
  ∃ text,
    _query (answers 200 "" (envelope_of [JObj {[ "message" := JNull ]}]))
      country_query None logged_in
    = (Raise (new AttributeError text),
       after_post country_query None logged_in).
Proof.
  apply (non_string_message_raises_AttributeError
           (answers 200 "" (envelope_of [JObj {[ "message" := JNull ]}]))
           country_query None logged_in 200 ""
           {[ "errors" := JArr [JObj {[ "message" := JNull ]}] ]}
           [] [] {[ "message" := JNull ]} JNull);
    [lia|reflexivity|reflexivity|constructor|reflexivity|discriminate].
Defined.

Lemma login_example :
  login (answers 200 ""
           (JObj {[ "data" := JObj {[ "login" := JObj
                      {[ "authToken" := JStr "A2";
                         "refreshToken" := JStr "R2" ]} ]} ]}))
    json tokens_of "u" "p" anonymous
  = (Return (Credentials (Some (mkAuth (Some "A2") (Some "R2")))),
     with_credentials (mkAuth (Some "A2") (Some "R2"))
       (after_post (login_query "u" "p") None anonymous))
  ∧ compose_headers
      (self (with_credentials (mkAuth (Some "A2") (Some "R2"))
               (after_post (login_query "u" "p") None anonymous)))
      None !! "Authorization"
    = (fun token => "Bearer " ++ token) <$> authToken (mkAuth (Some "A2") (Some "R2")).
Proof.
  apply (login_stores_credentials
           (answers 200 ""
              (JObj {[ "data" := JObj {[ "login" := JObj
                         {[ "authToken" := JStr "A2";
                            "refreshToken" := JStr "R2" ]} ]} ]}))
           json tokens_of "u" "p" anonymous
           (JObj {[ "data" := JObj {[ "login" := JObj
                      {[ "authToken" := JStr "A2";
                         "refreshToken" := JStr "R2" ]} ]} ]})
           (JObj {[ "login" := JObj {[ "authToken" := JStr "A2";
                                       "refreshToken" := JStr "R2" ]} ]})).
  - discriminate.
  - discriminate.
  - vm_compute. reflexivity.
  - reflexivity.
  - discriminate.
  - reflexivity.
Defined.

Lemma login_on_empty_body_example :
  login (answers 200 "" JNull) json tokens_of "u" "p" anonymous
  = (Raise (new KeyError "'data'"),
     after_post (login_query "u" "p") None anonymous).
Proof.
  apply (login_on_empty_body (answers 200 "" JNull) json tokens_of "u" "p"
           anonymous 200 "" JNull);
    [discriminate|discriminate|lia|reflexivity|reflexivity].
Defined.

Lemma login_with_null_data_example :
  login (answers 200 "" (JObj {[ "data" := JNull ]})) json tokens_of "u" "p"
    anonymous
  = (Return (Credentials
               (_auth (self (after_post (login_query "u" "p") None anonymous)))),
     after_post (login_query "u" "p") None anonymous)
  ∧ _auth (self (after_post (login_query "u" "p") None anonymous))
    = _auth (self anonymous).
Proof.
  apply (login_with_null_data (answers 200 "" (JObj {[ "data" := JNull ]}))
           json tokens_of "u" "p" anonymous {[ "data" := JNull ]}).
  - discriminate.
  - discriminate.
  - vm_compute. reflexivity.
  - reflexivity.
Defined.

Lemma renew_token_example :
  renew_token (answers 200 "" (JObj {[ "data" := JNull ]})) json tokens_of
    logged_in
  = match tokens_of (JObj {[ "data" := JNull ]}) with
    | Return a =>
        (Return (Credentials (Some a)),
         with_credentials a
           (after_post (renew_token_query (self logged_in)) None logged_in))
    | Raise e =>
        (Raise e, after_post (renew_token_query (self logged_in)) None logged_in)
    end.
Proof.
  apply (renew_token_replaces_credentials
           (answers 200 "" (JObj {[ "data" := JNull ]})) json tokens_of logged_in).
  - reflexivity.
  - vm_compute. reflexivity.
Defined.


Lemma enode_chargers_cancelled_example :
  isinstance (new CancelledError "") Exception = false.
Proof.
  apply (enode_chargers_never_raises
           (fun _ => Failed (new CancelledError "")) json keep "site" a_day
           logged_in (new CancelledError "")
           (after_post (enode_chargers_query "site") None logged_in)).
  vm_compute. reflexivity.
Defined.

Lemma smart_batteries_example :
  smart_batteries
    (answers 200 ""
       (JObj {[ "data" := JObj {[ "smartBatteries" := JArr [JStr "b1"; JStr "b2"] ]} ]}))
    json keep logged_in
  = (Return (SmartBatteries [JStr "b1"; JStr "b2"]),
     after_post smart_batteries_query None logged_in).
Proof.
  destruct (smart_batteries_result
              (answers 200 ""
                 (JObj {[ "data" := JObj {[ "smartBatteries" := JArr [JStr "b1"; JStr "b2"] ]} ]}))
              json keep logged_in
              {[ "data" := JObj {[ "smartBatteries" := JArr [JStr "b1"; JStr "b2"] ]} ]}
              (after_post smart_batteries_query None logged_in))
    as [_ Hdecode].
  - discriminate.
  - vm_compute. reflexivity.
  - intros H. apply (f_equal (.!! "data")) in H. vm_compute in H. discriminate.
  - apply (Hdecode {[ "smartBatteries" := JArr [JStr "b1"; JStr "b2"] ]}
             [JStr "b1"; JStr "b2"]); [reflexivity|reflexivity|reflexivity|discriminate].
Defined.

Lemma smart_battery_details_example :
  smart_battery_details
    (answers 200 "" (JObj {[ "data" := JObj {[ "smartBattery" := JStr "b" ]} ]}))
    json keep "device" logged_in
  = match ({[ "smartBattery" := JStr "b" ]} : gmap string json) !! "smartBattery",
          ({[ "smartBattery" := JStr "b" ]} : gmap string json) !! "smartBatterySummary"
    with
    | Some battery, Some summary =>
        match keep SmartBatteryDetails_from_dict
                (JObj {[ "smartBattery" := battery;
                         "smartBatterySummary" := summary ]}) with
        | Return m =>
            (Return (Typed m),
             after_post (smart_battery_query "device") None logged_in)
        | Raise e =>
            (Raise e, after_post (smart_battery_query "device") None logged_in)
        end
    | _, _ =>
        (Raise (new AuthException
                  "Incomplete response data for smart battery details"),
         after_post (smart_battery_query "device") None logged_in)
    end.
Proof.
  apply (smart_battery_details_result
           (answers 200 "" (JObj {[ "data" := JObj {[ "smartBattery" := JStr "b" ]} ]}))
           json keep "device" logged_in
           {[ "data" := JObj {[ "smartBattery" := JStr "b" ]} ]}).
  - discriminate.
  - discriminate.
  - vm_compute. reflexivity.
  - reflexivity.
Defined.

(** [be_prices()] on the last day of the calendar, and on an ordinary
    day. *)
Lemma be_prices_examples :
  be_prices unauthorized json keep (mkDate 9999 12 31) None None anonymous
  = (Raise (new OverflowError "date value out of range"), anonymous)
  ∧ posted (env (be_prices unauthorized json keep a_day None None anonymous).2)
    = [request_of (be_prices_query a_day) (Some {[ "x-country" := "BE" ]}) anonymous].
Proof.
  split.
  - exact (proj1 (be_prices_request unauthorized json keep (mkDate 9999 12 31)
                    None None anonymous)).
  - exact (proj2 (proj1 (be_prices_request unauthorized json keep a_day
                           None None anonymous))).
Defined.

Lemma to_dict_is_repeatable_example :
  (Heap.to_dict (Heap.mkQuery "mutation Login" "Login" 0%nat)
     [ {[ "email" := Heap.Scalar (Heap.SStr "u") ]} ]).1 = 1%nat
  ∧ (∀ l d,
       [ ({[ "email" := Heap.Scalar (Heap.SStr "u") ]} : gmap string Heap.value) ]
         !! l = Some d →
       (Heap.to_dict (Heap.mkQuery "mutation Login" "Login" 0%nat)
          [ {[ "email" := Heap.Scalar (Heap.SStr "u") ]} ]).2 !! l = Some d)
  ∧ Heap.transmitted_payload (Heap.mkQuery "mutation Login" "Login" 0%nat)
      (Heap.to_dict (Heap.mkQuery "mutation Login" "Login" 0%nat)
         [ {[ "email" := Heap.Scalar (Heap.SStr "u") ]} ]).2
    = Some (JObj {[ "query" := JStr "mutation Login";
                    "operationName" := JStr "Login";
                    "variables" := JObj {[ "email" := JStr "u" ]} ]}).
Proof.
  apply (to_dict_is_repeatable (Heap.mkQuery "mutation Login" "Login" 0%nat)
           [ {[ "email" := Heap.Scalar (Heap.SStr "u") ]} ]).
  vm_compute. reflexivity.
Defined.

Lemma sanitize_query_without_password_example :
  Heap.sanitize_query (Heap.mkQuery "query Me" "Me" 0%nat)
    [ {[ "siteReference" := Heap.Scalar (Heap.SStr "s") ]} ]
  = (Return (Heap.to_dict (Heap.mkQuery "query Me" "Me" 0%nat)
               [ {[ "siteReference" := Heap.Scalar (Heap.SStr "s") ]} ]).1,
     (Heap.to_dict (Heap.mkQuery "query Me" "Me" 0%nat)
        [ {[ "siteReference" := Heap.Scalar (Heap.SStr "s") ]} ]).2).
Proof.
  apply (sanitize_query_without_password (Heap.mkQuery "query Me" "Me" 0%nat)
           [ {[ "siteReference" := Heap.Scalar (Heap.SStr "s") ]} ]
           {[ "siteReference" := Heap.Scalar (Heap.SStr "s") ]});
    reflexivity.
Defined.

Lemma date_argument_example :
  (_validate_start_date_format a_day (inr (mkDate 2024 2 29)) = Return tt
   ↔ _validate_not_future_date a_day (mkDate 2024 2 29) = Return tt)
  ∧ (_validate_not_future_date a_day (mkDate 2024 2 29) = Return tt
     ↔ date_gt (mkDate 2024 2 29) a_day = false).
Proof.
  apply (date_argument_agrees_with_future_check a_day (mkDate 2024 2 29)).
  reflexivity.
Defined.

Lemma partial_date_example :
  _validate_start_date_format a_day (inl "2023-13") = Return tt.
Proof.
  apply (partial_dates_are_not_checked a_day "2023-13"). right. reflexivity.
Defined.

Lemma unparsable_body_example :
  _query (fun _ => Responded 200 "" (Unparsable (new JSONDecodeError "Expecting value")))
    country_query None logged_in
  = (Raise (new JSONDecodeError "Expecting value"),
     after_post country_query None logged_in).
Proof.
  destruct (unparsable_body
              (fun _ => Responded 200 "" (Unparsable (new JSONDecodeError "Expecting value")))
              country_query None logged_in 200 ""
              (new JSONDecodeError "Expecting value")) as [_ Hdecode];
    [lia|reflexivity|].
  apply Hdecode. reflexivity.
Defined.

Lemma cancellation_example :
  _query (fun _ => Failed (new CancelledError "")) country_query None logged_in
  = (Raise (new CancelledError ""), after_post country_query None logged_in)
  ∧ enode_chargers (fun _ => Failed (new CancelledError "")) json keep "site"
      a_day logged_in
    = (Raise (new CancelledError ""),
       after_post (enode_chargers_query "site") None logged_in)
  ∧ month_summary (fun _ => Failed (new CancelledError "")) json keep "site"
      logged_in
    = (Raise (new CancelledError ""),
       after_post (month_summary_query "site") None logged_in).
Proof.
  destruct (cancellation_passes_through (fun _ => Failed (new CancelledError ""))
              json keep "site" a_day logged_in (new CancelledError ""))
    as (Hquery & Hchargers & Hmonth); [reflexivity|reflexivity|reflexivity|].
  split; [apply Hquery|]. split; [exact Hchargers|exact Hmonth].
Defined.

(* ===================================================================== *)
(** * The matcher and the language of a pattern *)
(* ===================================================================== *)

Section MatcherProperties.

Implicit Types (r : regex) (s : string) (a : ascii).

Lemma append_empty_inv s1 s2 : (s1 ++ s2)%string = "" → s1 = "" ∧ s2 = "".
Proof. destruct s1; [done|discriminate]. Qed.

Lemma matches_empty_nullable r s : matches r s → s = "" → nullable r = true.
Proof.
  induction 1 as [ |p a Hp|c|r1 r2 s1 s2 _ IH1 _ IH2|r1 r2 s _ IH|r1 r2 s _ IH
                 |r|r s1 s2 _ _ _ _]; intros Hs; cbn [nullable]; try done.
  - apply append_empty_inv in Hs as [-> ->]. by rewrite IH1, IH2.
  - by rewrite IH.
  - rewrite IH by done. apply orb_true_r.
Qed.

Lemma nullable_matches_empty r : nullable r = true → matches r "".
Proof.
  induction r as [| |p|c|r1 IH1 r2 IH2|r1 IH1 r2 IH2|r IH]; cbn [nullable];
    try discriminate.
  - intros _. constructor.
  - intros [H1 H2]%andb_true_iff.
    change "" with ("" ++ "")%string. constructor; auto.
  - intros [H|H]%orb_true_iff.
    + apply matches_alt_l. auto.
    + apply matches_alt_r. auto.
  - intros _. constructor.
Qed.

Lemma matches_seq_cons r1 r2 a s1 s2 :
  matches r1 (String a s1) → matches r2 s2 →
  matches (Seq r1 r2) (String a (s1 ++ s2)).
Proof.
  intros H1 H2. change (String a (s1 ++ s2)) with (String a s1 ++ s2)%string.
  by constructor.
Qed.

Lemma matches_star_cons_char r a s1 s2 :
  matches r (String a s1) → matches (Star r) s2 →
  matches (Star r) (String a (s1 ++ s2)).
Proof.
  intros H1 H2. change (String a (s1 ++ s2)) with (String a s1 ++ s2)%string.
  by constructor.
Qed.

Lemma deriv_sound a r s : matches (deriv a r) s → matches r (String a s).
Proof.
  revert s. induction r as [| |p|c|r1 IH1 r2 IH2|r1 IH1 r2 IH2|r IH];
    intros s; cbn [deriv].
  - inversion 1.
  - inversion 1.
  - destruct (p a) eqn:Hp; inversion 1; subst. by constructor.
  - destruct (Ascii.eqb_spec a c) as [->|]; inversion 1; subst. constructor.
  - assert (Hleft : matches (Seq (deriv a r1) r2) s →
                    matches (Seq r1 r2) (String a s)).
    { inversion 1; subst. apply matches_seq_cons; auto. }
    destruct (nullable r1) eqn:Hnull; [|exact Hleft].
    inversion 1; subst; [by apply Hleft|].
    change (String a s) with ("" ++ String a s)%string.
    constructor; [by apply nullable_matches_empty|auto].
  - inversion 1; subst; [apply matches_alt_l|apply matches_alt_r]; auto.
  - inversion 1; subst. apply matches_star_cons_char; auto.
Qed.

Lemma deriv_complete a r s : matches r (String a s) → matches (deriv a r) s.
Proof.
  intros H. remember (String a s) as t eqn:Ht. revert a s Ht.
  induction H as [ |p b Hp|c|r1 r2 s1 s2 H1 IH1 H2 IH2|r1 r2 t H IH|r1 r2 t H IH
                 |r|r s1 s2 H1 IH1 H2 IH2]; intros a s Ht; cbn [deriv].
  - discriminate.
  - injection Ht as <- <-. rewrite Hp. constructor.
  - injection Ht as <- <-. rewrite Ascii.eqb_refl. constructor.
  - destruct s1 as [|b s1].
    + change ("" ++ s2)%string with s2 in Ht.
      rewrite (matches_empty_nullable _ _ H1 eq_refl).
      apply matches_alt_r. auto.
    + change (String b s1 ++ s2)%string with (String b (s1 ++ s2)) in Ht.
      injection Ht as -> <-.
      assert (matches (Seq (deriv a r1) r2) (s1 ++ s2)) by (constructor; auto).
      destruct (nullable r1); [by apply matches_alt_l|done].
  - apply matches_alt_l. auto.
  - apply matches_alt_r. auto.
  - discriminate.
  - destruct s1 as [|b s1].
    + change ("" ++ s2)%string with s2 in Ht. by apply IH2.
    + change (String b s1 ++ s2)%string with (String b (s1 ++ s2)) in Ht.
      injection Ht as -> <-. constructor; auto.
Qed.

(** The matcher that stands for [re.fullmatch] decides membership in the
    language of the pattern, for every pattern made of character classes,
    literals, concatenation, alternation and repetition; in particular a
    string passes line 828 exactly when it belongs to the language of
    [\d{4}(-\d{2}){0,2}]. *)
Theorem fullmatch_decides_the_language r s :
  fullmatch r s = true ↔ matches r s.
Proof.
  revert r. induction s as [|a s IH]; intros r; cbn [fullmatch].
  - split; [apply nullable_matches_empty|].
    intros H. by apply (matches_empty_nullable _ _ H).
  - rewrite IH. split; [apply deriv_sound|apply deriv_complete].
Qed.

End MatcherProperties.
